(** * outrun: the caching file system, its local service and the RPC codec

    A shallow embedding of the parts of [outrun] that the cache relies on:

    - [outrun/rpc/__init__.py]: the exception codec of [Encoding];
    - [outrun/filesystem/common.py]: [Attributes];
    - [outrun/filesystem/caching/common.py]: [Metadata], [FileContents],
      [PrefetchEntry], [LockIndex];
    - [outrun/filesystem/caching/service.py]: [LocalCacheService];
    - [outrun/filesystem/caching/cache.py]: [ContentsBlob], [CacheEntry],
      [RemoteCache];
    - [outrun/filesystem/caching/filesystem.py]: [RemoteCachedFileSystem].

    Python objects that the code mutates in place live in an explicit store
    (the entry dictionary, the contents directory, the clock); functions that
    can raise return a [result].  Definitions come first, the theorems about
    them follow in the second half of the file. *)

From Stdlib Require Import ZArith Lia Permutation.
From Stdlib.Strings Require Import Ascii Byte.
From stdpp Require Import base tactics option list strings gmap sorting.

Local Set Warnings "-register-all".
Local Open Scope string_scope.
Local Open Scope list_scope.
Local Open Scope Z_scope.

(* ===================================================================== *)
(** * Python values, exceptions and results *)
(* ===================================================================== *)

(** The values that occur as exception arguments: [None], integers (with
    [bool] as its subtype), strings and nested tuples. *)
Inductive PyVal : Type :=
| PNone
| PInt (z : Z)
| PStr (s : string)
| PTuple (items : list PyVal).

(** Python's [==] on such values. *)
Fixpoint PyVal_eqb (a b : PyVal) {struct a} : bool :=
  match a, b with
  | PNone, PNone => true
  | PInt x, PInt y => Z.eqb x y
  | PStr x, PStr y => String.eqb x y
  | PTuple xs, PTuple ys =>
      (fix all2 (xs ys : list PyVal) {struct xs} : bool :=
         match xs, ys with
         | [], [] => true
         | x :: xs', y :: ys' => PyVal_eqb x y && all2 xs' ys'
         | _, _ => false
         end) xs ys
  | _, _ => false
  end.

(** [==] on argument tuples. *)
Fixpoint args_eqb (xs ys : list PyVal) : bool :=
  match xs, ys with
  | [], [] => true
  | x :: xs', y :: ys' => PyVal_eqb x y && args_eqb xs' ys'
  | _, _ => false
  end.

(** An exception class is identified by where it lives: a class exported by
    the [builtins] module, or a class defined elsewhere, of which only the
    [__qualname__] matters to the code. *)
Inductive PyClass : Type :=
| BuiltinExc (name : string)
| UserExc (qualname : string).

Definition qualname (c : PyClass) : string :=
  match c with
  | BuiltinExc n => n
  | UserExc q => q
  end.

(** Identity of classes ([type(a) == type(b)]). *)
Definition PyClass_eqb (c d : PyClass) : bool :=
  match c, d with
  | BuiltinExc a, BuiltinExc b => String.eqb a b
  | UserExc a, UserExc b => String.eqb a b
  | _, _ => false
  end.

(** An exception object: its class and its [args] tuple.  [construct] is
    the object of that class with those args; it is what calling the class
    gives for the classes that the code itself calls ([ValueError(msg)],
    [OSError(errno)], [Exception( *args)], ...), whose constructor is that of
    [BaseException] or stores a single argument.  What calling an arbitrary
    builtin class gives is asked of the interpreter, see [Encoding]. *)
Record PyExc : Type := MkExc { exc_type : PyClass; exc_args : list PyVal }.

Definition construct (cls : PyClass) (args : list PyVal) : PyExc :=
  MkExc cls args.

Definition FileNotFoundError (args : list PyVal) : PyExc :=
  construct (BuiltinExc "FileNotFoundError") args.
Definition ValueError (args : list PyVal) : PyExc :=
  construct (BuiltinExc "ValueError") args.
Definition KeyError (args : list PyVal) : PyExc :=
  construct (BuiltinExc "KeyError") args.
Definition TypeError (args : list PyVal) : PyExc :=
  construct (BuiltinExc "TypeError") args.
Definition Exception (args : list PyVal) : PyExc :=
  construct (BuiltinExc "Exception") args.

(** [isinstance(e, FileNotFoundError)] for the classes of the model. *)
Definition is_FileNotFoundError (e : PyExc) : bool :=
  PyClass_eqb (exc_type e) (BuiltinExc "FileNotFoundError").

(** The outcome of a call that may raise.  The raised values are instances
    of [Exception]: what a handler [except Exception] catches. *)
Inductive result (A : Type) : Type :=
| Ok (a : A)
| Raise (e : PyExc).
Arguments Ok {A} a.
Arguments Raise {A} e.

Definition result_bind {A B} (r : result A) (k : A -> result B) : result B :=
  match r with
  | Ok a => k a
  | Raise e => Raise e
  end.

(** The truth value of an [Optional[X]] whose objects are all true (a
    dataclass instance, an exception): [if o]. *)
Definition is_set {A} (o : option A) : bool :=
  match o with Some _ => true | None => false end.

(** A Python [dict] with string keys: the items in insertion order, each key
    at most once.  Assigning to an existing key keeps its position. *)
Definition PyDict (V : Type) : Type := list (string * V).

Section py_dict.
Context {V : Type}.

Fixpoint dict_get (k : string) (d : PyDict V) : option V :=
  match d with
  | [] => None
  | (k', v) :: d' => if String.eqb k k' then Some v else dict_get k d'
  end.

Definition dict_contains (k : string) (d : PyDict V) : bool :=
  match dict_get k d with Some _ => true | None => false end.

Fixpoint dict_set (k : string) (v : V) (d : PyDict V) : PyDict V :=
  match d with
  | [] => [(k, v)]
  | (k', v') :: d' =>
      if String.eqb k k' then (k, v) :: d' else (k', v') :: dict_set k v d'
  end.

(** Mutation of the object stored under [k]. *)
Fixpoint dict_alter (f : V -> V) (k : string) (d : PyDict V) : PyDict V :=
  match d with
  | [] => []
  | (k', v) :: d' =>
      if String.eqb k k' then (k', f v) :: d' else (k', v) :: dict_alter f k d'
  end.

(** [del d[k]]. *)
Fixpoint dict_del (k : string) (d : PyDict V) : PyDict V :=
  match d with
  | [] => []
  | (k', v) :: d' =>
      if String.eqb k k' then d' else (k', v) :: dict_del k d'
  end.

Definition dict_keys (d : PyDict V) : list string := d.*1.
Definition dict_values (d : PyDict V) : list V := d.*2.

(** Well-formed dictionaries have no key twice. *)
Definition dict_wf (d : PyDict V) : Prop := NoDup (dict_keys d).

End py_dict.

(* ===================================================================== *)
(** * outrun/rpc/__init__.py: the exception codec *)
(* ===================================================================== *)

Module Encoding.

(** The serialization-friendly representation handed to MessagePack or
    JSON: plain values and string-keyed dictionaries. *)
Inductive Wire : Type :=
| WVal (v : PyVal)
| WDict (items : list (string * Wire)).

Fixpoint wire_get (k : string) (items : list (string * Wire)) : option Wire :=
  match items with
  | [] => None
  | (k', w) :: rest => if String.eqb k k' then Some w else wire_get k rest
  end.

(** [obj[k]]: a [KeyError] when the key is missing, a [TypeError] when
    [obj] is not subscriptable by a string. *)
Definition subscript (obj : Wire) (k : string) : result Wire :=
  match obj with
  | WDict items =>
      match wire_get k items with
      | Some w => Ok w
      | None => Raise (KeyError [PStr k])
      end
  | WVal _ => Raise (TypeError [])
  end.

(** What the codec asks of the interpreter it runs on. *)
Record Interpreter : Type := {
  (** [getattr(builtins, name, None.__class__)] followed by the test
      [isinstance(builtin_exc, type) and issubclass(builtin_exc, BaseException)]:
      the class when the test passes, nothing otherwise (the attribute is
      missing, is not a type, or is a type that is not an exception) *)
  builtin_exception : string -> option PyClass;
  (** [builtin_exc( *args)] for such a class: the instance that its
      constructor builds, or the exception that the constructor raises *)
  instantiate : PyClass -> list PyVal -> result PyExc
}.

(** [{"__exception__": {"name": exc.__class__.__qualname__, "args": exc.args}}] *)
Definition _serialize_exception (exc : PyExc) : Wire :=
  WDict [("__exception__",
          WDict [("name", WVal (PStr (qualname (exc_type exc))));
                 ("args", WVal (PTuple (exc_args exc)))])].

(** The positional arguments of a call [f( *args)]: the items of a
    sequence, the characters of a string, the keys of a dictionary; anything
    else is not iterable. *)
Definition spread (args : Wire) : result (list PyVal) :=
  match args with
  | WVal (PTuple items) => Ok items
  | WVal (PStr s) =>
      Ok ((fun c => PStr (String c "")) <$> String.list_ascii_of_string s)
  | WDict items => Ok ((fun item => PStr item.1) <$> items)
  | WVal _ => Raise (TypeError [])
  end.

(** [getattr] wants a string for the name.  [Exception( *args)] stores its
    arguments, as every class does that takes the constructor of
    [BaseException]. *)
Definition _deserialize_exception (py : Interpreter) (obj : Wire) : result PyExc :=
  result_bind (subscript obj "__exception__") (fun inner =>
  result_bind (subscript inner "name") (fun name =>
  result_bind (subscript inner "args") (fun args =>
  match name with
  | WVal (PStr name) =>
      match builtin_exception py name with
      | Some builtin_exc =>
          result_bind (spread args) (fun args => instantiate py builtin_exc args)
      | None =>
          result_bind (spread args) (fun args => Ok (Exception args))
      end
  | _ => Raise (TypeError [])
  end))).

End Encoding.

(** The interpreter of the examples.  It binds the names that the
    [builtins] module of CPython 3.7 binds to exception classes, and its
    constructors store their arguments, except in the two calls that the
    examples need, which go as they do in CPython: [UnicodeDecodeError] with
    a single argument raises [TypeError], and [OSError(2, strerror)] builds
    a [FileNotFoundError].  (The constructors of CPython differ from
    storing the arguments in more calls than these; the theorems are about
    every interpreter.) *)
Module SampleInterpreter.

(** The exception classes bound in the [builtins] module of CPython 3.7,
    each name with the class it is bound to ([IOError] and
    [EnvironmentError] are aliases of [OSError]). *)
Definition builtin_exception_names : list (string * string) :=
  let own (n : string) := (n, n) in
  [ own "BaseException"; own "SystemExit"; own "KeyboardInterrupt";
    own "GeneratorExit"; own "Exception"; own "StopIteration";
    own "StopAsyncIteration"; own "ArithmeticError";
    own "FloatingPointError"; own "OverflowError"; own "ZeroDivisionError";
    own "AssertionError"; own "AttributeError"; own "BufferError";
    own "EOFError"; own "ImportError"; own "ModuleNotFoundError";
    own "LookupError"; own "IndexError"; own "KeyError"; own "MemoryError";
    own "NameError"; own "UnboundLocalError"; own "OSError";
    ("IOError", "OSError"); ("EnvironmentError", "OSError");
    own "BlockingIOError"; own "ChildProcessError"; own "ConnectionError";
    own "BrokenPipeError"; own "ConnectionAbortedError";
    own "ConnectionRefusedError"; own "ConnectionResetError";
    own "FileExistsError"; own "FileNotFoundError"; own "InterruptedError";
    own "IsADirectoryError"; own "NotADirectoryError"; own "PermissionError";
    own "ProcessLookupError"; own "TimeoutError"; own "ReferenceError";
    own "RuntimeError"; own "NotImplementedError"; own "RecursionError";
    own "SyntaxError"; own "IndentationError"; own "TabError";
    own "SystemError"; own "TypeError"; own "ValueError";
    own "UnicodeError"; own "UnicodeDecodeError"; own "UnicodeEncodeError";
    own "UnicodeTranslateError"; own "Warning"; own "DeprecationWarning";
    own "PendingDeprecationWarning"; own "RuntimeWarning";
    own "SyntaxWarning"; own "UserWarning"; own "FutureWarning";
    own "ImportWarning"; own "UnicodeWarning"; own "BytesWarning";
    own "ResourceWarning" ].

Fixpoint assoc (k : string) (table : list (string * string)) : option string :=
  match table with
  | [] => None
  | (k', v) :: rest => if String.eqb k k' then Some v else assoc k rest
  end.

Definition builtin_exception (name : string) : option PyClass :=
  BuiltinExc <$> assoc name builtin_exception_names.

Definition instantiate (cls : PyClass) (args : list PyVal) : result PyExc :=
  match cls, args with
  | BuiltinExc name, [_] =>
      if String.eqb name "UnicodeDecodeError"
      then Raise (TypeError [PStr "function takes exactly 5 arguments (1 given)"])
      else Ok (construct cls args)
  | BuiltinExc name, [PInt 2; _] =>
      if String.eqb name "OSError"
      then Ok (construct (BuiltinExc "FileNotFoundError") args)
      else Ok (construct cls args)
  | _, _ => Ok (construct cls args)
  end.

Definition py : Encoding.Interpreter :=
  {| Encoding.builtin_exception := builtin_exception;
     Encoding.instantiate := instantiate |}.

End SampleInterpreter.

(* ===================================================================== *)
(** * posixpath: the two library functions the cache calls *)
(* ===================================================================== *)

Module posixpath.

Definition sep : Ascii.ascii := "/"%char.

(** [s.split("/")] *)
Fixpoint split (s : string) : list string :=
  match s with
  | EmptyString => [""]
  | String c rest =>
      if Ascii.eqb c sep then "" :: split rest
      else match split rest with
           | [] => [String c ""]
           | w :: ws => String c w :: ws
           end
  end.

(** ["/".join(parts)] *)
Fixpoint join_sep (parts : list string) : string :=
  match parts with
  | [] => ""
  | [x] => x
  | x :: rest => x +:+ "/" +:+ join_sep rest
  end.

(** [p[:1] == "/"] *)
Definition startswith_sep (p : string) : bool :=
  match p with
  | String c _ => Ascii.eqb c sep
  | EmptyString => false
  end.

Fixpoint endswith_sep (p : string) : bool :=
  match p with
  | EmptyString => false
  | String c EmptyString => Ascii.eqb c sep
  | String _ rest => endswith_sep rest
  end.

(** [os.path.join(a, b)] *)
Definition join (a b : string) : string :=
  if startswith_sep b then b
  else if String.eqb a "" || endswith_sep a then a +:+ b
  else a +:+ "/" +:+ b.

(** The components [commonpath] compares: [c for c in s if c and c != "."]. *)
Definition components (p : string) : list string :=
  filter (fun c => negb (String.eqb c "") && negb (String.eqb c ".")) (split p).

Fixpoint common_prefix (s1 s2 : list string) : list string :=
  match s1, s2 with
  | c1 :: r1, c2 :: r2 =>
      if String.eqb c1 c2 then c1 :: common_prefix r1 r2 else []
  | _, _ => []
  end.

(** [os.path.commonpath(paths)]: the longest common sub-path, compared
    component by component; a [ValueError] for an empty sequence and for a
    mix of absolute and relative paths. *)
Definition commonpath (paths : list string) : result string :=
  match paths with
  | [] => Raise (ValueError [PStr "commonpath() arg is an empty sequence"])
  | p0 :: ps =>
      let isabs := startswith_sep p0 in
      if forallb (fun p => Bool.eqb (startswith_sep p) isabs) ps then
        let common :=
          foldl (fun acc p => common_prefix acc (components p))
                (components p0) ps in
        Ok ((if isabs then "/" else "") +:+ join_sep common)
      else Raise (ValueError [PStr "Can't mix absolute and relative paths"])
  end.

(** [any(os.path.commonpath([path, p]) == p for p in paths)]: the generator
    is consumed up to the first hit, and an exception ends it. *)
Fixpoint under_any (path : string) (paths : list string) : result bool :=
  match paths with
  | [] => Ok false
  | p :: rest =>
      match commonpath [path; p] with
      | Raise e => Raise e
      | Ok c => if String.eqb c p then Ok true else under_any path rest
      end
  end.

End posixpath.

(* ===================================================================== *)
(** * stat: the mode bits the cache inspects *)
(* ===================================================================== *)

Module stat.

Definition S_IWUSR : Z := 128.   (* 0o200 *)
Definition S_IWGRP : Z := 16.    (* 0o020 *)
Definition S_IWOTH : Z := 2.     (* 0o002 *)
Definition S_IFMT_mask : Z := 61440.  (* 0o170000 *)
Definition S_IFREG : Z := 32768.      (* 0o100000 *)
Definition S_IFLNK : Z := 40960.      (* 0o120000 *)

Definition S_IFMT (mode : Z) : Z := Z.land mode S_IFMT_mask.
Definition S_ISREG (mode : Z) : bool := S_IFMT mode =? S_IFREG.
Definition S_ISLNK (mode : Z) : bool := S_IFMT mode =? S_IFLNK.

End stat.

(* ===================================================================== *)
(** * outrun/filesystem/common.py *)
(* ===================================================================== *)

Module Attributes.

(** The ten declared fields, and the extra [st_*] attributes that
    [from_stat] copies from [os.stat_result] ([st_atime], [st_blocks], ...).
    [st_atime_ns] is an integer, or [None] once [_significant_meta] has
    blanked it. *)
Record t : Type := Make {
  st_mode : Z;
  st_ino : Z;
  st_dev : Z;
  st_nlink : Z;
  st_uid : Z;
  st_gid : Z;
  st_size : Z;
  st_atime_ns : option Z;
  st_mtime_ns : Z;
  st_ctime_ns : Z;
  extra : list (string * PyVal)
}.

(** [dataclasses.replace(self, st_mode=mode)]: the declared fields are
    passed to [__init__], which sets exactly those; extra attributes are
    not carried over. *)
Definition replace_st_mode (self : t) (mode : Z) : t :=
  Make mode (st_ino self) (st_dev self) (st_nlink self) (st_uid self)
       (st_gid self) (st_size self) (st_atime_ns self) (st_mtime_ns self)
       (st_ctime_ns self) [].

(** [dataclasses.replace(self, st_atime_ns=None)] *)
Definition replace_st_atime_ns_None (self : t) : t :=
  Make (st_mode self) (st_ino self) (st_dev self) (st_nlink self)
       (st_uid self) (st_gid self) (st_size self) None (st_mtime_ns self)
       (st_ctime_ns self) [].

Definition as_readonly (self : t) : t :=
  let readonly_mode :=
    Z.land (st_mode self)
           (Z.lnot (Z.lor (Z.lor stat.S_IWUSR stat.S_IWGRP) stat.S_IWOTH)) in
  replace_st_mode self readonly_mode.

Definition optZ_eqb (a b : option Z) : bool :=
  match a, b with
  | Some x, Some y => x =? y
  | None, None => true
  | _, _ => false
  end.

(** The [__eq__] that [@dataclass] generates: the tuples of the declared
    fields are compared. *)
Definition eqb (a b : t) : bool :=
  (st_mode a =? st_mode b) && (st_ino a =? st_ino b)
  && (st_dev a =? st_dev b) && (st_nlink a =? st_nlink b)
  && (st_uid a =? st_uid b) && (st_gid a =? st_gid b)
  && (st_size a =? st_size b) && optZ_eqb (st_atime_ns a) (st_atime_ns b)
  && (st_mtime_ns a =? st_mtime_ns b) && (st_ctime_ns a =? st_ctime_ns b).

End Attributes.

(* ===================================================================== *)
(** * outrun/filesystem/caching/common.py *)
(* ===================================================================== *)

Module Metadata.

Record t : Type := Make {
  attr : option Attributes.t;
  link : option string;
  error : option PyExc
}.

(** [Metadata()] *)
Definition empty : t := Make None None None.

(** [dataclasses.replace(meta, attr=a)] *)
Definition replace_attr (meta : t) (a : option Attributes.t) : t :=
  Make a (link meta) (error meta).

End Metadata.

Module FileContents.

Record t : Type := Make {
  compressed_data : list Byte.byte;
  checksum : string;
  size : Z
}.

End FileContents.

Module PrefetchEntry.

Record t : Type := Make {
  path : string;
  metadata : Metadata.t;
  contents : option FileContents.t
}.

End PrefetchEntry.

(* ===================================================================== *)
(** * outrun/filesystem/caching/prefetching.py *)
(* ===================================================================== *)

Module PrefetchSuggestion.

Record t : Type := Make { path : string; contents : bool }.

End PrefetchSuggestion.

(* ===================================================================== *)
(** * outrun/filesystem/caching/service.py *)
(* ===================================================================== *)

Module LocalCacheService.

(** What the service asks of the machine it runs on: the system calls, the
    prefetch rules of [prefetching.py] (which consult the file system and
    external tools), and the compression and hashing libraries. *)
Record Host : Type := {
  (** [Attributes.from_stat(os.lstat(path))] *)
  os_lstat : string -> result Attributes.t;
  os_readlink : string -> result string;
  (** [open(path, "rb").read()] *)
  read_binary : string -> result (list Byte.byte);
  (** [prefetching.file_access(path)] and [prefetching.file_read(path)] *)
  file_access : string -> result (list PrefetchSuggestion.t);
  file_read : string -> result (list PrefetchSuggestion.t);
  lz4_compress : list Byte.byte -> list Byte.byte;
  sha256_hexdigest : list Byte.byte -> string
}.

(** The attributes of [self]. *)
Record t : Type := Make {
  _fetched_metadata : gset string;
  _fetched_contents : gset string;
  _prefetchable_paths : option (list string)
}.

(** [LocalCacheService()] *)
Definition __init__ : t := Make ∅ ∅ None.

Definition add_fetched_metadata (self : t) (path : string) : t :=
  Make ({[path]} ∪ _fetched_metadata self) (_fetched_contents self)
       (_prefetchable_paths self).

Definition add_fetched_contents (self : t) (path : string) : t :=
  Make (_fetched_metadata self) ({[path]} ∪ _fetched_contents self)
       (_prefetchable_paths self).

Section with_host.
Variable h : Host.

(** The body of the [try] block of [get_metadata]: [attr] is set before
    [os.readlink] is called, so a failing [readlink] leaves it set. *)
Definition get_metadata (self : t) (path : string) : Metadata.t * t :=
  let metadata :=
    match os_lstat h path with
    | Raise e => Metadata.Make None None (Some e)
    | Ok a =>
        if stat.S_ISLNK (Attributes.st_mode a) then
          match os_readlink h path with
          | Ok target => Metadata.Make (Some a) (Some target) None
          | Raise e => Metadata.Make (Some a) None (Some e)
          end
        else Metadata.Make (Some a) None None
    end in
  (metadata, add_fetched_metadata self path).

(** The derivative that is compared: the attributes with the access time
    blanked, the type and args of the error, the link. *)
Definition Significant : Type :=
  option Attributes.t * option (PyClass * list PyVal) * option string.

Definition _significant_meta (meta : Metadata.t) : Significant :=
  let significant_attribs :=
    match Metadata.attr meta with
    | Some a => Some (Attributes.replace_st_atime_ns_None a)
    | None => None
    end in
  let comparable_error :=
    match Metadata.error meta with
    | Some e => Some (exc_type e, exc_args e)
    | None => None
    end in
  (significant_attribs, comparable_error, Metadata.link meta).

Definition option_eqb {A} (eqb : A -> A -> bool) (a b : option A) : bool :=
  match a, b with
  | Some x, Some y => eqb x y
  | None, None => true
  | _, _ => false
  end.

(** [==] on the tuples built by [_significant_meta]. *)
Definition significant_eqb (a b : Significant) : bool :=
  let '(attr_a, err_a, link_a) := a in
  let '(attr_b, err_b, link_b) := b in
  option_eqb Attributes.eqb attr_a attr_b
  && option_eqb (fun x y => PyClass_eqb x.1 y.1 && args_eqb x.2 y.2) err_a err_b
  && option_eqb String.eqb link_a link_b.

Definition get_changed_metadata (self : t) (cached_metadata : PyDict Metadata.t)
  : PyDict Metadata.t * t :=
  foldl (fun (acc : PyDict Metadata.t * t) (item : string * Metadata.t) =>
           let (changed_metadata, self) := acc in
           let (path, metadata) := item in
           let (new_metadata, self) := get_metadata self path in
           if negb (significant_eqb (_significant_meta new_metadata)
                                    (_significant_meta metadata))
           then (dict_set path new_metadata changed_metadata, self)
           else (changed_metadata, self))
        ([], self) cached_metadata.

(** [FileContents.from_data(data)] *)
Definition from_data (data : list Byte.byte) : FileContents.t :=
  FileContents.Make (lz4_compress h data) (sha256_hexdigest h data)
                    (Z.of_nat (length data)).

Definition readfile (self : t) (path : string) : result FileContents.t * t :=
  match read_binary h path with
  | Raise e => (Raise e, self)
  | Ok data => (Ok (from_data data), add_fetched_contents self path)
  end.

Definition readfile_conditional (self : t) (path checksum : string)
  : result (option FileContents.t) * t :=
  match readfile self path with
  | (Raise e, self) => (Raise e, self)
  | (Ok new_contents, self) =>
      if negb (String.eqb checksum (FileContents.checksum new_contents))
      then (Ok (Some new_contents), self)
      else (Ok None, self)
  end.

Definition mark_previously_fetched_contents (self : t) (paths : list string) : t :=
  Make (_fetched_metadata self) (list_to_set paths ∪ _fetched_contents self)
       (_prefetchable_paths self).

Definition set_prefetchable_paths (self : t) (paths : option (list string)) : t :=
  Make (_fetched_metadata self) (_fetched_contents self) paths.

Definition _is_prefetchable (self : t) (path : string) : result bool :=
  match _prefetchable_paths self with
  | None => Ok true
  | Some paths => posixpath.under_any path paths
  end.

(** [suggestions_by_path[suggestion.path].append(suggestion)] over a
    [defaultdict(list)]. *)
Definition group_by_path (suggestions : list PrefetchSuggestion.t)
  : PyDict (list PrefetchSuggestion.t) :=
  foldl (fun d s =>
           let p := PrefetchSuggestion.path s in
           dict_set p (default [] (dict_get p d) ++ [s]) d)
        [] suggestions.

(** The second loop of [_resolve_prefetches]; the state of the service is
    threaded through, and what was recorded before an exception stays
    recorded. *)
Fixpoint resolve_loop (self : t)
    (items : list (string * list PrefetchSuggestion.t))
    (prefetches : list PrefetchEntry.t) : result (list PrefetchEntry.t) * t :=
  match items with
  | [] => (Ok prefetches, self)
  | (path, path_suggestions) :: rest =>
      match _is_prefetchable self path with
      | Raise e => (Raise e, self)
      | Ok false => resolve_loop self rest prefetches
      | Ok true =>
          let prefetch_contents :=
            existsb PrefetchSuggestion.contents path_suggestions in
          if prefetch_contents && bool_decide (path ∈ _fetched_contents self)
          then resolve_loop self rest prefetches
          else if negb prefetch_contents
                  && bool_decide (path ∈ _fetched_metadata self)
          then resolve_loop self rest prefetches
          else
            let (metadata, self) := get_metadata self path in
            let (contents, self) :=
              if prefetch_contents && negb (is_set (Metadata.error metadata))
              then match readfile self path with
                   | (Ok c, self) => (Some c, self)
                   | (Raise _, self) => (None, self)
                   end
              else (None, self) in
            resolve_loop self rest
              (prefetches ++ [PrefetchEntry.Make path metadata contents])
      end
  end.

Definition _resolve_prefetches (self : t)
    (suggestions : list PrefetchSuggestion.t)
  : result (list PrefetchEntry.t) * t :=
  resolve_loop self (group_by_path suggestions) [].

(** [try: ... except Exception: return base, []] *)
Definition get_metadata_prefetch (self : t) (path : string)
  : result (Metadata.t * list PrefetchEntry.t) * t :=
  let (base, self) := get_metadata self path in
  match file_access h path with
  | Raise _ => (Ok (base, []), self)
  | Ok suggestions =>
      match _resolve_prefetches self suggestions with
      | (Ok prefetches, self) => (Ok (base, prefetches), self)
      | (Raise _, self) => (Ok (base, []), self)
      end
  end.

Definition readfile_prefetch (self : t) (path : string)
  : result (FileContents.t * list PrefetchEntry.t) * t :=
  match readfile self path with
  | (Raise e, self) => (Raise e, self)
  | (Ok base, self) =>
      match file_read h path with
      | Raise _ => (Ok (base, []), self)
      | Ok suggestions =>
          match _resolve_prefetches self suggestions with
          | (Ok prefetches, self) => (Ok (base, prefetches), self)
          | (Raise _, self) => (Ok (base, []), self)
          end
      end
  end.

End with_host.

End LocalCacheService.

(* ===================================================================== *)
(** * outrun/filesystem/caching/cache.py: the data classes *)
(* ===================================================================== *)

Module ContentsBlob.

Record t : Type := Make {
  storage : string;
  size : Z;
  checksum : string;
  dirty : bool
}.

Definition set_dirty (d : bool) (self : t) : t :=
  Make (storage self) (size self) (checksum self) d.

End ContentsBlob.

Module CacheEntry.

(** The time stamps are readings of the clock; only their order is used. *)
Record t : Type := Make {
  path : string;
  meta : Metadata.t;
  last_access : Z;
  last_update : Z;
  contents : option ContentsBlob.t
}.

Definition set_meta (m : Metadata.t) (self : t) : t :=
  Make (path self) m (last_access self) (last_update self) (contents self).
Definition set_last_access (ts : Z) (self : t) : t :=
  Make (path self) (meta self) ts (last_update self) (contents self).
Definition set_last_update (ts : Z) (self : t) : t :=
  Make (path self) (meta self) (last_access self) ts (contents self).
Definition set_contents (c : option ContentsBlob.t) (self : t) : t :=
  Make (path self) (meta self) (last_access self) (last_update self) c.

Definition newer_than (self : t) (other : option t) : bool :=
  match other with
  | None => true
  | Some o => last_update self >? last_update o
  end.

End CacheEntry.

(* ===================================================================== *)
(** * The world around a [RemoteCache] *)
(* ===================================================================== *)

(** The calls made through [rpc.Client], in the order they were made. *)
Inductive Call : Type :=
| CallGetMetadata (path : string)
| CallGetMetadataPrefetch (path : string)
| CallReadfile (path : string)
| CallReadfilePrefetch (path : string)
| CallReadfileConditional (path checksum : string)
| CallGetChangedMetadata (cached_metadata : PyDict Metadata.t)
| CallMarkPreviouslyFetchedContents (paths : list string).

(** The client end of the RPC connection to a [LocalCacheService].  A reply
    may depend on everything that was asked before, and any call may raise
    (the service's exception, or a time-out). *)
Record Client : Type := {
  get_metadata_reply : list Call -> string -> result Metadata.t;
  get_metadata_prefetch_reply :
    list Call -> string -> result (Metadata.t * list PrefetchEntry.t);
  readfile_reply : list Call -> string -> result FileContents.t;
  readfile_prefetch_reply :
    list Call -> string -> result (FileContents.t * list PrefetchEntry.t);
  readfile_conditional_reply :
    list Call -> string -> string -> result (option FileContents.t);
  get_changed_metadata_reply :
    list Call -> PyDict Metadata.t -> result (PyDict Metadata.t);
  mark_previously_fetched_contents_reply : list Call -> list string -> result unit
}.

(** What [json.load] makes of [<base>/index.json]. *)
Inductive DiskIndex : Type :=
| IndexMissing
| IndexUnreadable (e : PyExc)
| IndexOk (entries : PyDict CacheEntry.t).

Record World : Type := MkWorld {
  (** the reading of the next [time.time()] *)
  clock : Z;
  (** the names of the files in [<base>/contents] *)
  contents_dir : gset string;
  index_file : DiskIndex;
  (** the values of [uuid.uuid4().hex], and how many were drawn *)
  uuids : nat -> string;
  uuids_drawn : nat;
  (** the entry keys whose lock another thread holds *)
  busy : gset string;
  (** what other processes that share the cache directory do to
      [<base>/contents] just before the k-th [os.open] of this process,
      and how many [os.open] calls were made *)
  interference : nat -> gset string -> gset string;
  opens : nat;
  (** the calls made through the client *)
  calls : list Call
}.

Definition set_clock (x : Z) (w : World) : World :=
  MkWorld x (contents_dir w) (index_file w) (uuids w) (uuids_drawn w)
          (busy w) (interference w) (opens w) (calls w).
Definition set_contents_dir (x : gset string) (w : World) : World :=
  MkWorld (clock w) x (index_file w) (uuids w) (uuids_drawn w)
          (busy w) (interference w) (opens w) (calls w).
Definition set_index_file (x : DiskIndex) (w : World) : World :=
  MkWorld (clock w) (contents_dir w) x (uuids w) (uuids_drawn w)
          (busy w) (interference w) (opens w) (calls w).
Definition set_uuids_drawn (x : nat) (w : World) : World :=
  MkWorld (clock w) (contents_dir w) (index_file w) (uuids w) x
          (busy w) (interference w) (opens w) (calls w).
Definition set_opens (x : nat) (w : World) : World :=
  MkWorld (clock w) (contents_dir w) (index_file w) (uuids w) (uuids_drawn w)
          (busy w) (interference w) x (calls w).
Definition set_calls (x : list Call) (w : World) : World :=
  MkWorld (clock w) (contents_dir w) (index_file w) (uuids w) (uuids_drawn w)
          (busy w) (interference w) (opens w) x.

(** The mutable state a method of [RemoteCache] runs in: [self._entries]
    (whose [CacheEntry] objects are shared by everyone holding the key) and
    the world. *)
Record State : Type := MkState {
  _entries : PyDict CacheEntry.t;
  world : World
}.

(** A computation that reads and writes the state and may raise; the state
    changes made before an exception stay made. *)
Definition M (A : Type) : Type := State -> result A * State.

Definition ret {A} (a : A) : M A := fun s => (Ok a, s).
Definition raise {A} (e : PyExc) : M A := fun s => (Raise e, s).
Definition bind {A B} (m : M A) (k : A -> M B) : M B :=
  fun s =>
    match m s with
    | (Ok a, s') => k a s'
    | (Raise e, s') => (Raise e, s')
    end.

Notation "'let*' x ':=' m 'in' k" := (bind m (fun x => k))
  (at level 10, x pattern, m at level 100, k at level 200).
Notation "m ';;' k" := (bind m (fun _ => k))
  (at level 100, k at level 200, right associativity).

(** [try: m except Exception: handler] *)
Definition try_except {A} (m : M A) (handler : PyExc -> M A) : M A :=
  fun s =>
    match m s with
    | (Ok a, s') => (Ok a, s')
    | (Raise e, s') => handler e s'
    end.

Definition get_entries : M (PyDict CacheEntry.t) :=
  fun s => (Ok (_entries s), s).
Definition get_world : M World :=
  fun s => (Ok (world s), s).
Definition modify_entries (f : PyDict CacheEntry.t -> PyDict CacheEntry.t) : M unit :=
  fun s => (Ok tt, MkState (f (_entries s)) (world s)).
Definition modify_world (f : World -> World) : M unit :=
  fun s => (Ok tt, MkState (_entries s) (f (world s))).

(** [time.time()]: every reading moves the clock on. *)
Definition time_time : M Z :=
  let* w := get_world in
  modify_world (set_clock (clock w + 1)) ;;
  ret (clock w).

(** [uuid.uuid4().hex] *)
Definition uuid4_hex : M string :=
  let* w := get_world in
  modify_world (set_uuids_drawn (S (uuids_drawn w))) ;;
  ret (uuids w (uuids_drawn w)).

(** A call through the client: it is recorded, and the reply is returned or
    raised. *)
Definition rpc {A} (c : Call) (reply : list Call -> result A) : M A :=
  let* w := get_world in
  modify_world (set_calls (calls w ++ [c])) ;;
  fun s => (reply (calls w), s).

(** The object stored under [key]: [self._entries[key]]. *)
Definition entry_of (key : string) : M CacheEntry.t :=
  let* entries := get_entries in
  match dict_get key entries with
  | Some entry => ret entry
  | None => raise (KeyError [PStr key])
  end.

(** An assignment to an attribute of the object stored under [key]. *)
Definition alter_entry (key : string) (f : CacheEntry.t -> CacheEntry.t) : M unit :=
  modify_entries (dict_alter f key).

(* ===================================================================== *)
(** * outrun/filesystem/caching/cache.py: [RemoteCache] *)
(* ===================================================================== *)

(** A stable sort by [key]: [list.sort(key=...)]. *)
Section stable_sort.
Context {A : Type} (key : A -> Z).

Fixpoint sort_insert (x : A) (l : list A) : list A :=
  match l with
  | [] => [x]
  | y :: l' => if key x <=? key y then x :: l else y :: sort_insert x l'
  end.

Fixpoint sort_by (l : list A) : list A :=
  match l with
  | [] => []
  | x :: l' => sort_insert x (sort_by l')
  end.

(** The order the sort establishes. *)
Definition key_le (x y : A) : Prop := key x <= key y.

End stable_sort.

Module RemoteCache.

(** The attributes of [self] that are set once, in [__init__]. *)
Record t : Type := Make {
  _base_path : string;
  _machine_id : string;
  _client : Client;
  _prefetch : bool;
  _max_entries : Z;
  _max_size : Z;
  _cacheable_paths : list string
}.

Definition DEFAULT_CACHEABLE_PATHS : list string :=
  ["/bin"; "/sbin"; "/lib"; "/lib32"; "/lib64"; "/etc"; "/opt"; "/usr"].

(** [sum([e.contents.size for e in entries if e.contents])] *)
Definition contents_total (entries : list CacheEntry.t) : Z :=
  foldr (fun e acc =>
           match CacheEntry.contents e with
           | Some blob => ContentsBlob.size blob + acc
           | None => acc
           end) 0 entries.

Definition count (s : State) : Z := Z.of_nat (length (_entries s)).

Definition size (s : State) : Z := contents_total (dict_values (_entries s)).

(** One iteration of the loop of [_lru_cleanup] over [(key, entry)].  The
    [entry] of the sorted list is the object stored under [key], so that
    clearing its contents is a mutation of the stored object. *)
Definition lru_step (max_entries max_size : Z)
    (st : Z * Z * PyDict CacheEntry.t) (item : string * CacheEntry.t)
  : Z * Z * PyDict CacheEntry.t :=
  let '(contents_size, entry_count, entries) := st in
  let (key, entry) := item in
  let '(contents_size, entries) :=
    match CacheEntry.contents entry with
    | Some blob =>
        if contents_size >? max_size
        then (contents_size - ContentsBlob.size blob,
              dict_alter (CacheEntry.set_contents None) key entries)
        else (contents_size, entries)
    | None => (contents_size, entries)
    end in
  if entry_count >? max_entries
  then (contents_size, entry_count - 1, dict_del key entries)
  else (contents_size, entry_count, entries).

Definition oldest_entries (entries : PyDict CacheEntry.t)
  : list (string * CacheEntry.t) :=
  sort_by (fun item => CacheEntry.last_access item.2) entries.

(** The counters before the loop, taken from the sorted list. *)
Definition lru_start (entries : PyDict CacheEntry.t)
  : Z * Z * PyDict CacheEntry.t :=
  let oldest_entries := oldest_entries entries in
  let entry_count := Z.of_nat (length oldest_entries) in
  let contents_size := contents_total (dict_values oldest_entries) in
  (contents_size, entry_count, entries).

(** The state of the loop after the items [processed], a prefix of the
    sorted list. *)
Definition lru_loop (max_entries max_size : Z) (entries : PyDict CacheEntry.t)
    (processed : list (string * CacheEntry.t)) : Z * Z * PyDict CacheEntry.t :=
  foldl (lru_step max_entries max_size) (lru_start entries) processed.

Definition lru_cleanup_entries (max_entries max_size : Z)
    (entries : PyDict CacheEntry.t) : PyDict CacheEntry.t :=
  (lru_loop max_entries max_size entries (oldest_entries entries)).2.

Section methods.
Variable self : t.

Definition _entry_key (path : string) : string :=
  _machine_id self +:+ ":" +:+ path.

Definition _cache_contents_path : string :=
  posixpath.join (_base_path self) "contents".

Definition is_cacheable (path : string) : result bool :=
  posixpath.under_any path (_cacheable_paths self).

(** [CacheEntry(path=path, meta=meta)]: both default factories read the
    clock, [last_access] first. *)
Definition new_entry (path : string) (meta : Metadata.t) : M CacheEntry.t :=
  let* access := time_time in
  let* update := time_time in
  ret (CacheEntry.Make path meta access update None).

(** [CacheEntry(path=path, meta=meta, last_access=0)] *)
Definition new_prefetched_entry (path : string) (meta : Metadata.t) : M CacheEntry.t :=
  let* update := time_time in
  ret (CacheEntry.Make path meta 0 update None).

(** Whether [storage] names a file of the contents directory. *)
Definition blob_exists (dir : gset string) (storage : string) : bool :=
  bool_decide (set_Exists (fun fn => posixpath.join _cache_contents_path fn = storage) dir).

(** [open(storage, "wb")] with a fresh name creates the file. *)
Definition _save_contents (contents : FileContents.t) : M ContentsBlob.t :=
  let* hex := uuid4_hex in
  let storage := posixpath.join _cache_contents_path hex in
  modify_world (fun w => set_contents_dir ({[hex]} ∪ contents_dir w) w) ;;
  ret (ContentsBlob.Make storage (FileContents.size contents)
                         (FileContents.checksum contents) false).

(** The loop of [_try_store_prefetches].  The caller holds the lock of
    [path]; a lock is acquired without blocking when nobody holds it. *)
Fixpoint _try_store_prefetches (path : string)
    (prefetches : list PrefetchEntry.t) : M unit :=
  match prefetches with
  | [] => ret tt
  | prefetch :: rest =>
      let key := _entry_key (PrefetchEntry.path prefetch) in
      let* w := get_world in
      let acquired :=
        negb (bool_decide (key ∈ busy w))
        && negb (String.eqb key (_entry_key path)) in
      if negb acquired && negb (String.eqb (PrefetchEntry.path prefetch) path)
      then _try_store_prefetches path rest
      else
        let* entries := get_entries in
        (if negb (dict_contains key entries)
         then let* e := new_prefetched_entry (PrefetchEntry.path prefetch)
                                             (PrefetchEntry.metadata prefetch) in
              modify_entries (dict_set key e)
         else ret tt) ;;
        let* entry := entry_of key in
        (match PrefetchEntry.contents prefetch, CacheEntry.contents entry with
         | Some contents, None =>
             let* blob := _save_contents contents in
             alter_entry key (CacheEntry.set_contents (Some blob))
         | Some contents, Some old =>
             if ContentsBlob.dirty old
             then let* blob := _save_contents contents in
                  alter_entry key (CacheEntry.set_contents (Some blob))
             else ret tt
         | None, _ => ret tt
         end) ;;
        _try_store_prefetches path rest
  end.

(** [with self._lock_entry(path) as entry]: the key under which the entry
    object is stored once the lock is held. *)
Definition _lock_entry (path : string) : M string :=
  let key := _entry_key path in
  let* entries := get_entries in
  (if negb (dict_contains key entries) then
     if _prefetch self then
       let* reply := rpc (CallGetMetadataPrefetch path)
                         (fun log => get_metadata_prefetch_reply (_client self) log path) in
       let (metadata, prefetches) := (reply : Metadata.t * list PrefetchEntry.t) in
       let* e := new_entry path metadata in
       modify_entries (dict_set key e) ;;
       _try_store_prefetches path prefetches
     else
       let* metadata := rpc (CallGetMetadata path)
                            (fun log => get_metadata_reply (_client self) log path) in
       let* e := new_entry path metadata in
       modify_entries (dict_set key e)
   else
     let* now := time_time in
     alter_entry key (CacheEntry.set_last_access now)) ;;
  ret key.

Definition get_metadata (path : string) : M Metadata.t :=
  let* key := _lock_entry path in
  let* entry := entry_of key in
  let meta := CacheEntry.meta entry in
  match Metadata.error meta, Metadata.attr meta with
  | Some e, _ => raise e
  | None, None => raise (ValueError [PStr "entry is missing attributes"])
  | None, Some a =>
      ret (Metadata.replace_attr meta (Some (Attributes.as_readonly a)))
  end.

(** [_update_contents(entry, force)] for the entry stored under [key]. *)
Definition _update_contents (key : string) (force : bool) : M ContentsBlob.t :=
  let* entry := entry_of key in
  let fetch : M ContentsBlob.t :=
    let* contents :=
      if _prefetch self then
        let* reply := rpc (CallReadfilePrefetch (CacheEntry.path entry))
                          (fun log => readfile_prefetch_reply (_client self) log
                                        (CacheEntry.path entry)) in
        let (contents, prefetches) := (reply : FileContents.t * list PrefetchEntry.t) in
        _try_store_prefetches (CacheEntry.path entry) prefetches ;;
        ret contents
      else
        rpc (CallReadfile (CacheEntry.path entry))
            (fun log => readfile_reply (_client self) log (CacheEntry.path entry)) in
    _save_contents contents in
  match force, CacheEntry.contents entry with
  | false, Some blob =>
      let* contents :=
        rpc (CallReadfileConditional (CacheEntry.path entry) (ContentsBlob.checksum blob))
            (fun log => readfile_conditional_reply (_client self) log
                          (CacheEntry.path entry) (ContentsBlob.checksum blob)) in
      match contents with
      | None =>
          let clean := ContentsBlob.set_dirty false blob in
          alter_entry key (CacheEntry.set_contents (Some clean)) ;;
          ret clean
      | Some contents => _save_contents contents
      end
  | _, _ => fetch
  end.

(** [os.open(storage, flags)]: other processes get their turn first, then
    the file is there or it is not. *)
Definition os_open (storage : string) (flags : Z) : M Z :=
  let* w := get_world in
  let dir := interference w (opens w) (contents_dir w) in
  modify_world (fun w => set_opens (S (opens w)) (set_contents_dir dir w)) ;;
  if blob_exists dir storage
  then ret (3 + Z.of_nat (opens w))
  else raise (FileNotFoundError [PInt 2; PStr "No such file or directory"]).

(** The [while True] loop of [open_contents]; [None] when [fuel] iterations
    did not reach a [return] or an exception. *)
Fixpoint open_loop (key : string) (flags : Z) (fuel : nat) (s : State)
  : option (result Z * State) :=
  match fuel with
  | O => None
  | S fuel' =>
      match entry_of key s with
      | (Raise e, s) => Some (Raise e, s)
      | (Ok entry, s) =>
          match CacheEntry.contents entry with
          | None => Some (Raise (construct (BuiltinExc "AttributeError") []), s)
          | Some blob =>
              match os_open (ContentsBlob.storage blob) flags s with
              | (Ok fd, s) => Some (Ok fd, s)
              | (Raise e, s) =>
                  if is_FileNotFoundError e then
                    match (let* blob := _update_contents key true in
                           alter_entry key (CacheEntry.set_contents (Some blob))) s with
                    | (Ok _, s) => open_loop key flags fuel' s
                    | (Raise e', s) => Some (Raise e', s)
                    end
                  else Some (Raise e, s)
              end
          end
      end
  end.

Definition open_contents (path : string) (flags : Z) (fuel : nat) (s : State)
  : option (result Z * State) :=
  match (let* key := _lock_entry path in
         let* entry := entry_of key in
         (match CacheEntry.contents entry with
          | Some blob =>
              if ContentsBlob.dirty blob
              then let* blob := _update_contents key false in
                   alter_entry key (CacheEntry.set_contents (Some blob))
              else ret tt
          | None =>
              let* blob := _update_contents key false in
              alter_entry key (CacheEntry.set_contents (Some blob))
          end) ;;
         ret key) s with
  | (Raise e, s) => Some (Raise e, s)
  | (Ok key, s) => open_loop key flags fuel s
  end.

(** [_read_disk_entries]: opening a missing index raises
    [FileNotFoundError], decoding a damaged one raises as well. *)
Definition _read_disk_entries : M (PyDict CacheEntry.t) :=
  let* w := get_world in
  match index_file w with
  | IndexMissing =>
      raise (FileNotFoundError [PInt 2; PStr "No such file or directory"])
  | IndexUnreadable e => raise e
  | IndexOk entries => ret entries
  end.

Definition load : M unit :=
  let* entries := _read_disk_entries in
  modify_entries (fun _ => entries).

(** The merge loop of [save]. *)
Definition merge_disk_entries (disk_entries entries : PyDict CacheEntry.t)
  : PyDict CacheEntry.t :=
  foldl (fun entries (item : string * CacheEntry.t) =>
           let (key, disk_entry) := item in
           if CacheEntry.newer_than disk_entry (dict_get key entries)
           then dict_set key disk_entry entries
           else entries)
        entries disk_entries.

Definition _lru_cleanup : M unit :=
  modify_entries (lru_cleanup_entries (_max_entries self) (_max_size self)).

(** [os.remove(path)] on the contents directory. *)
Definition os_remove (path : string) (dir : gset string) : gset string :=
  filter (fun fn => posixpath.join _cache_contents_path fn <> path) dir.

(** The set [orphans] after the references were removed from it. *)
Definition unreferenced (dir : gset string) (entries : PyDict CacheEntry.t)
  : gset string :=
  foldl (fun (orphans : gset string) entry =>
           match CacheEntry.contents entry with
           | Some blob => orphans ∖ {[ContentsBlob.storage blob]}
           | None => orphans
           end)
        (set_map (posixpath.join _cache_contents_path) dir)
        (dict_values entries).

Definition _garbage_collect_blobs : M unit :=
  let* w := get_world in
  let* entries := get_entries in
  let orphans := unreferenced (contents_dir w) entries in
  modify_world (fun w =>
    set_contents_dir (foldr os_remove (contents_dir w) (elements orphans)) w).

Definition save (merge_disk_cache : bool) : M unit :=
  (if merge_disk_cache then
     let* disk_entries := try_except _read_disk_entries (fun _ => ret []) in
     modify_entries (merge_disk_entries disk_entries)
   else ret tt) ;;
  _lru_cleanup ;;
  _garbage_collect_blobs ;;
  let* entries := get_entries in
  modify_world (set_index_file (IndexOk entries)).

(** The body of the loop of [sync] for one changed path. *)
Definition sync_entry (path : string) (new_metadata : Metadata.t) : M unit :=
  let* key := _lock_entry path in
  alter_entry key (CacheEntry.set_meta new_metadata) ;;
  let* now := time_time in
  alter_entry key (CacheEntry.set_last_update now) ;;
  let* entry := entry_of key in
  match CacheEntry.contents entry with
  | None => ret tt
  | Some blob =>
      if is_set (Metadata.error (CacheEntry.meta entry))
      then alter_entry key (CacheEntry.set_contents None)
      else
        match Metadata.attr (CacheEntry.meta entry) with
        | Some a =>
            if negb (stat.S_ISREG (Attributes.st_mode a))
            then alter_entry key (CacheEntry.set_contents None)
            else alter_entry key
                   (CacheEntry.set_contents (Some (ContentsBlob.set_dirty true blob)))
        | None =>
            alter_entry key
              (CacheEntry.set_contents (Some (ContentsBlob.set_dirty true blob)))
        end
  end.

Fixpoint sync_loop (changed_metadata : PyDict Metadata.t) : M unit :=
  match changed_metadata with
  | [] => ret tt
  | (path, new_metadata) :: rest =>
      sync_entry path new_metadata ;; sync_loop rest
  end.

Definition sync : M unit :=
  let* entries := get_entries in
  let cached_metadata : PyDict Metadata.t :=
    foldl (fun d (item : string * CacheEntry.t) =>
             let (key, entry) := item in
             if String.prefix (_machine_id self) key
             then dict_set (CacheEntry.path entry) (CacheEntry.meta entry) d
             else d)
          [] entries in
  match cached_metadata with
  | [] => ret tt
  | _ :: _ =>
      let* changed_metadata :=
        rpc (CallGetChangedMetadata cached_metadata)
            (fun log => get_changed_metadata_reply (_client self) log cached_metadata) in
      sync_loop changed_metadata ;;
      if _prefetch self then
        let* entries := get_entries in
        let paths :=
          omap (fun entry =>
                  match CacheEntry.contents entry with
                  | Some blob =>
                      if ContentsBlob.dirty blob then None
                      else Some (CacheEntry.path entry)
                  | None => None
                  end)
               (dict_values entries) in
        rpc (CallMarkPreviouslyFetchedContents paths)
            (fun log => mark_previously_fetched_contents_reply (_client self) log paths)
      else ret tt
  end.

End methods.

End RemoteCache.

(* ===================================================================== *)
(** * Vocabulary of the statements *)
(* ===================================================================== *)

(** Resolving the suggestions of a prefetch rule fails: the rule raises, or
    [_resolve_prefetches] raises on what the rule suggested. *)
Definition resolving_raises (h : LocalCacheService.Host)
    (self : LocalCacheService.t)
    (suggested : result (list PrefetchSuggestion.t)) : Prop :=
  match suggested with
  | Raise _ => True
  | Ok suggestions =>
      exists e, (LocalCacheService._resolve_prefetches h self suggestions).1 = Raise e
  end.

(** Two attribute records agree on every declared field but the access
    time. *)
Definition attrs_agree_but_atime (a b : Attributes.t) : Prop :=
  Attributes.st_mode a = Attributes.st_mode b
  /\ Attributes.st_ino a = Attributes.st_ino b
  /\ Attributes.st_dev a = Attributes.st_dev b
  /\ Attributes.st_nlink a = Attributes.st_nlink b
  /\ Attributes.st_uid a = Attributes.st_uid b
  /\ Attributes.st_gid a = Attributes.st_gid b
  /\ Attributes.st_size a = Attributes.st_size b
  /\ Attributes.st_mtime_ns a = Attributes.st_mtime_ns b
  /\ Attributes.st_ctime_ns a = Attributes.st_ctime_ns b.

(** Two exceptions are of the same type and carry the same args. *)
Definition same_kind_and_args (e e' : PyExc) : Prop :=
  exc_type e = exc_type e' /\ exc_args e = exc_args e'.

(** Two metadata records differ at most in the access time. *)
Definition differ_only_in_atime (m m' : Metadata.t) : Prop :=
  option_Forall2 attrs_agree_but_atime (Metadata.attr m) (Metadata.attr m')
  /\ option_Forall2 same_kind_and_args (Metadata.error m) (Metadata.error m')
  /\ Metadata.link m = Metadata.link m'.

(** Both records carry attributes and these differ in the size, the mode
    or the modification time. *)
Definition attrs_changed (m m' : Metadata.t) : Prop :=
  exists a a',
    Metadata.attr m = Some a /\ Metadata.attr m' = Some a'
    /\ (Attributes.st_size a <> Attributes.st_size a'
        \/ Attributes.st_mode a <> Attributes.st_mode a'
        \/ Attributes.st_mtime_ns a <> Attributes.st_mtime_ns a').

(** The errors differ: one record has an error and the other has none, or
    both have one and the types or the args are different. *)
Definition error_changed (m m' : Metadata.t) : Prop :=
  ~ option_Forall2 same_kind_and_args (Metadata.error m) (Metadata.error m').

(** The call that a forced refresh of [path] makes through the client. *)
Definition refresh_call (self : RemoteCache.t) (path : string) : Call :=
  if RemoteCache._prefetch self then CallReadfilePrefetch path
  else CallReadfile path.

(** The local service answers every request for the contents of [path]. *)
Definition service_answers (self : RemoteCache.t) (path : string) : Prop :=
  if RemoteCache._prefetch self
  then forall log, exists reply,
         readfile_prefetch_reply (RemoteCache._client self) log path = Ok reply
  else forall log, exists reply,
         readfile_reply (RemoteCache._client self) log path = Ok reply.

(** From [s] to [s'] no call was made and no file opened, and every entry
    is still there, for the same path. *)
Definition stable (s s' : State) : Prop :=
  calls (world s') = calls (world s)
  /\ interference (world s') = interference (world s)
  /\ opens (world s') = opens (world s)
  /\ (forall key entry,
        dict_get key (_entries s) = Some entry ->
        exists entry',
          dict_get key (_entries s') = Some entry'
          /\ CacheEntry.path entry' = CacheEntry.path entry).

(** The reading of C7: the blob is missing, one forced refresh is made
    (one more [readfile] call), and the failure of the retried open is what
    the caller gets. *)
Definition surfaces_after_one_retry (self : RemoteCache.t) (path : string)
    (flags : Z) (s : State) : Prop :=
  exists fuel e s',
    RemoteCache.open_contents self path flags fuel s = Some (Raise e, s')
    /\ calls (world s') = calls (world s) ++ [refresh_call self path].

(** The entries the LRU pass of [save] starts from: the in-memory entries,
    merged with the index on disk when that was asked for and the index
    could be read. *)
Definition entries_before_lru (merge_disk_cache : bool) (s : State)
  : PyDict CacheEntry.t :=
  if merge_disk_cache
  then RemoteCache.merge_disk_entries
         (match index_file (world s) with IndexOk d => d | _ => [] end)
         (_entries s)
  else _entries s.

(** Blob sizes are lengths of byte strings. *)
Definition blob_sizes_nonneg (entries : PyDict CacheEntry.t) : Prop :=
  forall key entry blob,
    (key, entry) ∈ entries -> CacheEntry.contents entry = Some blob ->
    0 <= ContentsBlob.size blob.

(** The entry under [key] is gone, or has no contents. *)
Definition has_no_contents (entries : PyDict CacheEntry.t) (key : string) : Prop :=
  default None (CacheEntry.contents <$> dict_get key entries) = None.

(** Eviction follows [last_access]: at every point of the loop of
    [_lru_cleanup], of two entries the one accessed later has been deleted
    only if the other has, and has lost its contents only if the other has
    none left. *)
Definition evicted_in_lru_order (max_entries max_size : Z)
    (entries : PyDict CacheEntry.t) : Prop :=
  forall processed rest,
    RemoteCache.oldest_entries entries = processed ++ rest ->
    let now := (RemoteCache.lru_loop max_entries max_size entries processed).2 in
    forall k1 e1 k2 e2,
      (k1, e1) ∈ entries -> (k2, e2) ∈ entries ->
      CacheEntry.last_access e1 < CacheEntry.last_access e2 ->
      (dict_get k2 now = None -> dict_get k1 now = None)
      /\ (is_set (CacheEntry.contents e2) = true ->
          has_no_contents now k2 -> has_no_contents now k1).

(** What the loop of [_lru_cleanup] maintains, with [todo] the items still
    to come: the counters describe the dictionary, and while the byte count
    is over the limit every entry already visited is without contents. *)
Definition lru_invariant (max_entries max_size : Z)
    (todo : list (string * CacheEntry.t))
    (st : Z * Z * PyDict CacheEntry.t) : Prop :=
  dict_wf st.2
  /\ NoDup todo.*1
  /\ (forall k e, (k, e) ∈ todo -> dict_get k st.2 = Some e)
  /\ st.1.2 = Z.of_nat (length st.2)
  /\ st.1.2 <= Z.max max_entries (Z.of_nat (length todo))
  /\ RemoteCache.contents_total (dict_values st.2) <= st.1.1
  /\ (max_size < st.1.1 ->
      forall k e, dict_get k st.2 = Some e -> k ∉ todo.*1 ->
                  CacheEntry.contents e = None)
  /\ blob_sizes_nonneg st.2.

(** The entry stored under the key of an item after its iteration. *)
Definition after_lru_step (max_entries max_size : Z) (contents_size entry_count : Z)
    (entry : CacheEntry.t) : option CacheEntry.t :=
  if entry_count >? max_entries then None
  else Some (match CacheEntry.contents entry with
             | Some _ =>
                 if contents_size >? max_size
                 then CacheEntry.set_contents None entry else entry
             | None => entry
             end).

(** The entry's [ContentsBlob] is stored at [storage]. *)
Definition references (storage : string) (entry : CacheEntry.t) : Prop :=
  exists blob, CacheEntry.contents entry = Some blob
               /\ ContentsBlob.storage blob = storage.

(** [q] is a prefix of [p] that ends at a path-component boundary: what
    follows [q] in [p] is nothing or starts with a slash, or [q] itself
    ends with one. *)
Definition prefix_at_boundary (q p : string) : Prop :=
  exists rest,
    p = q +:+ rest
    /\ (rest = "" \/ posixpath.startswith_sep rest = true
        \/ posixpath.endswith_sep q = true).

Fixpoint has_sep (s : string) : bool :=
  match s with
  | EmptyString => false
  | String c rest => Ascii.eqb c posixpath.sep || has_sep rest
  end.

(** A name between two slashes, other than the empty one and the dot. *)
Definition proper_component (c : string) : Prop :=
  c <> "" /\ c <> "." /\ has_sep c = false.

(** An absolute path in normal form: a slash, then proper components
    separated by single slashes ([/], [/usr], [/usr/lib]). *)
Definition normal_absolute (p : string) : Prop :=
  exists cs, Forall proper_component cs /\ p = "/" +:+ posixpath.join_sep cs.

(* ===================================================================== *)
(** * Sample data *)
(* ===================================================================== *)

Module Sample.

Definition dir_attr : Attributes.t :=
  Attributes.Make 16877 2 64769 3 0 0 4096 (Some 1000) 2000 3000
                  [("st_blocks", PInt 8)].

Definition file_attr : Attributes.t :=
  Attributes.Make 33206 7 64769 1 0 0 3 (Some 1000) 2000 3000 [].

Definition file_meta : Metadata.t := Metadata.Make (Some file_attr) None None.

Definition missing_meta : Metadata.t :=
  Metadata.Make None None
    (Some (FileNotFoundError [PInt 2; PStr "No such file or directory"])).

Definition foo : FileContents.t := FileContents.Make [] "2c26b46b" 3.

(** A client whose service knows one regular file everywhere. *)
Definition client : Client := {|
  get_metadata_reply _ _ := Ok file_meta;
  get_metadata_prefetch_reply _ _ := Ok (file_meta, []);
  readfile_reply _ _ := Ok foo;
  readfile_prefetch_reply _ _ := Ok (foo, []);
  readfile_conditional_reply _ _ _ := Ok None;
  get_changed_metadata_reply _ _ := Ok [];
  mark_previously_fetched_contents_reply _ _ := Ok tt
|}.

(** A machine where [/etc/hosts] is a regular file that has just been
    read again, whose access rule breaks, and whose read rule suggests a
    relative path. *)
Definition host : LocalCacheService.Host := {|
  LocalCacheService.os_lstat p :=
    if String.eqb p "/etc/hosts"
    then Ok (Attributes.Make 33206 7 64769 1 0 0 3 (Some 9999) 2000 3000
                             [("st_atime", PInt 9)])
    else Raise (FileNotFoundError [PInt 2; PStr "No such file or directory"]);
  LocalCacheService.os_readlink _ :=
    Raise (construct (BuiltinExc "OSError") [PInt 22; PStr "Invalid argument"]);
  LocalCacheService.read_binary _ := Ok [];
  LocalCacheService.file_access _ := Raise (Exception []);
  LocalCacheService.file_read _ :=
    Ok [PrefetchSuggestion.Make "lib/libc.so.6" true];
  LocalCacheService.lz4_compress data := data;
  LocalCacheService.sha256_hexdigest _ := "e3b0c442"
|}.

Definition service : LocalCacheService.t :=
  LocalCacheService.set_prefetchable_paths LocalCacheService.__init__
    (Some ["/etc"; "/usr"]).

Definition cache : RemoteCache.t :=
  RemoteCache.Make "/cache" "machine" client false 3 3
                   RemoteCache.DEFAULT_CACHEABLE_PATHS.

(** The same cache, configured with a path that ends with a slash. *)
Definition slash_cache : RemoteCache.t :=
  RemoteCache.Make "/cache" "machine" client false 3 3 ["/usr/"].

Definition digit (n : nat) : string :=
  String (Ascii.ascii_of_nat (48 + n mod 10)) "".

Definition quiet_world : World :=
  MkWorld 100 ∅ IndexMissing (fun n => "blob" +:+ digit n) 0 ∅
          (fun _ dir => dir) 0 [].

Definition entry (path : string) (access : Z) (contents : option ContentsBlob.t)
  : string * CacheEntry.t :=
  ("machine:" +:+ path, CacheEntry.Make path file_meta access 5 contents).

Definition blob (name : string) (size : Z) : ContentsBlob.t :=
  ContentsBlob.Make ("/cache/contents/" +:+ name) size "2c26b46b" false.

(** A world in which another session empties the contents directory just
    before each of the next [n] calls of [os.open]. *)
Definition racing_world (n : nat) : World :=
  MkWorld 100 {["old"]} IndexMissing (fun n => "blob" +:+ digit n) 0 ∅
          (fun k dir => if (k <? n)%nat then ∅ else dir) 0 [].

(** A world in which that happens before every [os.open]. *)
Definition hostile_world : World :=
  MkWorld 100 {["old"]} IndexMissing (fun n => "blob" +:+ digit n) 0 ∅
          (fun _ _ => ∅) 0 [].

Definition cached_env : PyDict CacheEntry.t :=
  [entry "/usr/bin/env" 7 (Some (blob "old" 3))].

End Sample.

(* ===================================================================== *)
(** * More vocabulary: what a call of the cache fetches and what it keeps *)
(* ===================================================================== *)

(** The call that [_lock_entry] makes through the client for a path that is
    not cached yet. *)
Definition metadata_call (self : RemoteCache.t) (path : string) : Call :=
  if RemoteCache._prefetch self then CallGetMetadataPrefetch path
  else CallGetMetadata path.

(** The metadata (or the exception) that this call brings back. *)
Definition metadata_answer (self : RemoteCache.t) (log : list Call)
    (path : string) : result Metadata.t :=
  if RemoteCache._prefetch self
  then match get_metadata_prefetch_reply (RemoteCache._client self) log path with
       | Ok reply => Ok reply.1
       | Raise e => Raise e
       end
  else get_metadata_reply (RemoteCache._client self) log path.

(** From [s] to [s'] no call was made, no file left the contents directory,
    and every entry is still stored under its key with its path, metadata
    and time stamps; contents that are not dirty are still its contents. *)
Definition kept (s s' : State) : Prop :=
  calls (world s') = calls (world s)
  /\ contents_dir (world s) ⊆ contents_dir (world s')
  /\ (forall key entry,
        dict_get key (_entries s) = Some entry ->
        exists entry',
          dict_get key (_entries s') = Some entry'
          /\ CacheEntry.path entry' = CacheEntry.path entry
          /\ CacheEntry.meta entry' = CacheEntry.meta entry
          /\ CacheEntry.last_access entry' = CacheEntry.last_access entry
          /\ CacheEntry.last_update entry' = CacheEntry.last_update entry
          /\ (forall blob,
                CacheEntry.contents entry = Some blob ->
                ContentsBlob.dirty blob = false ->
                CacheEntry.contents entry' = Some blob)).

(** The handler of [except FileNotFoundError] in [open_contents]: a forced
    refresh, whose blob becomes the contents of the entry. *)
Definition refresh_entry (self : RemoteCache.t) (key : string) : M unit :=
  let* blob := RemoteCache._update_contents self key true in
  alter_entry key (CacheEntry.set_contents (Some blob)).

(** The blob that the entry stored under [key] references. *)
Definition referenced_blob (key : string) (s : State) : option ContentsBlob.t :=
  match dict_get key (_entries s) with
  | Some entry => CacheEntry.contents entry
  | None => None
  end.

(** Whether the next [os.open] finds the file of that blob: whether it is
    in the contents directory once the other processes have had their
    turn. *)
Definition blob_file_found (self : RemoteCache.t) (key : string) (s : State)
  : bool :=
  match referenced_blob key s with
  | Some blob =>
      RemoteCache.blob_exists self
        (interference (world s) (opens (world s)) (contents_dir (world s)))
        (ContentsBlob.storage blob)
  | None => false
  end.

(** The state in which the loop of [open_contents] tries again: [os.open]
    has been called on the blob of the entry, and the handler has run. *)
Definition after_retry (self : RemoteCache.t) (key : string) (flags : Z)
    (s : State) : State :=
  match referenced_blob key s with
  | Some blob =>
      (refresh_entry self key
         (RemoteCache.os_open self (ContentsBlob.storage blob) flags s).2).2
  | None => s
  end.


(** No other process touches the contents directory. *)
Definition undisturbed (w : World) : Prop :=
  forall k dir, interference w k dir = dir.


(** The metadata [sync] sends to the local machine: that of the entries
    whose key starts with the machine id, by path. *)
Definition sync_request (self : RemoteCache.t) (entries : PyDict CacheEntry.t)
  : PyDict Metadata.t :=
  foldl (fun d (item : string * CacheEntry.t) =>
           let (key, entry) := item in
           if String.prefix (RemoteCache._machine_id self) key
           then dict_set (CacheEntry.path entry) (CacheEntry.meta entry) d
           else d)
        [] entries.


(* ===================================================================== *)
(** * More sample data *)
(* ===================================================================== *)

Module Demo.

(** A machine where every path is a regular file and reading a file
    suggests a library (twice, once with its contents) and a file outside
    the prefetchable paths. *)
Definition host : LocalCacheService.Host := {|
  LocalCacheService.os_lstat _ := Ok Sample.file_attr;
  LocalCacheService.os_readlink _ :=
    Raise (construct (BuiltinExc "OSError") [PInt 22; PStr "Invalid argument"]);
  LocalCacheService.read_binary _ := Ok [];
  LocalCacheService.file_access _ := Ok [];
  LocalCacheService.file_read _ :=
    Ok [PrefetchSuggestion.Make "/usr/lib/libc.so.6" false;
        PrefetchSuggestion.Make "/home/user/.profile" true;
        PrefetchSuggestion.Make "/usr/lib/libc.so.6" true;
        PrefetchSuggestion.Make "/usr/lib/libm.so.6" true];
  LocalCacheService.lz4_compress data := data;
  LocalCacheService.sha256_hexdigest _ := "e3b0c442"
|}.

(** A machine where every path is a symlink whose target cannot be read. *)
Definition unreadable_link_host : LocalCacheService.Host := {|
  LocalCacheService.os_lstat _ :=
    Ok (Attributes.Make 41471 9 64769 1 0 0 7 (Some 1000) 2000 3000 []);
  LocalCacheService.os_readlink _ :=
    Raise (construct (BuiltinExc "PermissionError")
                     [PInt 13; PStr "Permission denied"]);
  LocalCacheService.read_binary _ := Ok [];
  LocalCacheService.file_access _ := Ok [];
  LocalCacheService.file_read _ := Ok [];
  LocalCacheService.lz4_compress data := data;
  LocalCacheService.sha256_hexdigest _ := "e3b0c442"
|}.

Definition suggestions : list PrefetchSuggestion.t :=
  [PrefetchSuggestion.Make "/usr/lib/libc.so.6" false;
   PrefetchSuggestion.Make "/home/user/.profile" true;
   PrefetchSuggestion.Make "/usr/lib/libc.so.6" true;
   PrefetchSuggestion.Make "/usr/lib/libm.so.6" true].

Definition changed_meta : Metadata.t :=
  Metadata.Make
    (Some (Attributes.Make 33206 7 64769 1 0 0 4 (Some 1000) 2500 3000 []))
    None None.

(** A client whose service reports that [/usr/bin/env] changed. *)
Definition client : Client := {|
  get_metadata_reply _ _ := Ok Sample.file_meta;
  get_metadata_prefetch_reply _ _ := Ok (Sample.file_meta, []);
  readfile_reply _ _ := Ok Sample.foo;
  readfile_prefetch_reply _ _ := Ok (Sample.foo, []);
  readfile_conditional_reply _ _ _ := Ok None;
  get_changed_metadata_reply _ _ := Ok [("/usr/bin/env", changed_meta)];
  mark_previously_fetched_contents_reply _ _ := Ok tt
|}.

Definition cache : RemoteCache.t :=
  RemoteCache.Make "/cache" "machine" client false 3 3
                   RemoteCache.DEFAULT_CACHEABLE_PATHS.

Definition timeout : PyExc :=
  construct (BuiltinExc "OSError") [PStr "rpc call timed out"].

(** A client whose calls for metadata time out, in a cache that prefetches. *)
Definition offline_client : Client := {|
  get_metadata_reply _ _ := Raise timeout;
  get_metadata_prefetch_reply _ _ := Raise timeout;
  readfile_reply _ _ := Ok Sample.foo;
  readfile_prefetch_reply _ _ := Ok (Sample.foo, []);
  readfile_conditional_reply _ _ _ := Ok None;
  get_changed_metadata_reply _ _ := Ok [];
  mark_previously_fetched_contents_reply _ _ := Ok tt
|}.

Definition offline_cache : RemoteCache.t :=
  RemoteCache.Make "/cache" "machine" offline_client true 3 3
                   RemoteCache.DEFAULT_CACHEABLE_PATHS.

Definition entries : PyDict CacheEntry.t :=
  [Sample.entry "/usr/bin/env" 7 (Some (Sample.blob "old" 3));
   Sample.entry "/etc/hosts" 8 (Some (Sample.blob "hosts" 3))].

End Demo.


(* ===================================================================== *)
(** * outrun/filesystem/caching/common.py: [LockIndex] *)
(* ===================================================================== *)

Module LockIndex.

(** The two dictionaries of the index.  Of [_locks] only the keys matter
    here: which lock objects exist. *)
Record t : Type := Make {
  _locks : gset string;
  _lock_users : gmap string Z
}.

Definition __init__ : t := Make ∅ ∅.

(** The first block of [lock] that runs under [_global_lock]:
    [self._lock_users[key] += 1; lock = self._locks[key]], both on a
    [defaultdict]. *)
Definition enter (key : string) (self : t) : t :=
  Make ({[key]} ∪ _locks self)
       (<[key := default 0 (_lock_users self !! key) + 1]> (_lock_users self)).

(** The block of the [finally] clause that runs under [_global_lock]:
    the count goes down, and at zero both items are deleted ([del] raises
    [KeyError] for a key that is not there). *)
Definition leave (key : string) (self : t) : result t :=
  let users := default 0 (_lock_users self !! key) - 1 in
  if users =? 0 then
    if bool_decide (key ∈ _locks self)
    then Ok (Make (_locks self ∖ {[key]}) (delete key (_lock_users self)))
    else Raise (KeyError [PStr key])
  else Ok (Make (_locks self) (<[key := users]> (_lock_users self))).

Definition lock_count (self : t) : nat := size (_locks self).

(** The global lock makes the two blocks atomic, so that what any number of
    threads do to the index is a sequence of them. *)
Inductive Event : Type :=
| Enter (key : string)
| Leave (key : string).

Definition step (e : Event) (self : t) : result t :=
  match e with
  | Enter key => Ok (enter key self)
  | Leave key => leave key self
  end.

Definition run (trace : list Event) (self : t) : result t :=
  foldl (fun r e => result_bind r (step e)) (Ok self) trace.

(** The number of threads that are inside [lock(key)] after [trace]. *)
Definition in_use (trace : list Event) (key : string) : Z :=
  foldl (fun n e =>
           match e with
           | Enter k => if String.eqb k key then n + 1 else n
           | Leave k => if String.eqb k key then n - 1 else n
           end) 0 trace.

(** Every [Leave] is that of a thread that entered before. *)
Definition well_nested (trace : list Event) : Prop :=
  forall before after key,
    trace = before ++ after -> 0 <= in_use before key.

End LockIndex.

(* ===================================================================== *)
(** * outrun/filesystem/caching/filesystem.py: [RemoteCachedFileSystem] *)
(* ===================================================================== *)

Module RemoteCachedFileSystem.

(** The methods of [RemoteFileSystem] that the class falls back on: calls
    to the local machine, which may do anything to the state. *)
Record Super : Type := {
  super_getattr : string -> option Z -> M (PyDict PyVal);
  super_readlink : string -> M string;
  super_open : string -> Z -> M Z;
  super_flush : string -> Z -> M unit
}.

Definition EINVAL : Z := 22.

Definition OSError (args : list PyVal) : PyExc :=
  construct (BuiltinExc "OSError") args.

Definition opt_int (o : option Z) : PyVal :=
  match o with Some z => PInt z | None => PNone end.

(** [attr.__dict__]: the attributes in the order [__init__] set them, which
    for the object that [dataclasses.replace] builds is the order of the
    declarations. *)
Definition __dict__ (a : Attributes.t) : PyDict PyVal :=
  [("st_mode", PInt (Attributes.st_mode a));
   ("st_ino", PInt (Attributes.st_ino a));
   ("st_dev", PInt (Attributes.st_dev a));
   ("st_nlink", PInt (Attributes.st_nlink a));
   ("st_uid", PInt (Attributes.st_uid a));
   ("st_gid", PInt (Attributes.st_gid a));
   ("st_size", PInt (Attributes.st_size a));
   ("st_atime_ns", opt_int (Attributes.st_atime_ns a));
   ("st_mtime_ns", PInt (Attributes.st_mtime_ns a));
   ("st_ctime_ns", PInt (Attributes.st_ctime_ns a))]
  ++ Attributes.extra a.

Section methods.
Variable base : Super.
Variable _cache : RemoteCache.t.

(** [self._cache.is_cacheable(path)], which may raise. *)
Definition is_cacheable (path : string) : M bool :=
  fun s => (RemoteCache.is_cacheable _cache path, s).

Definition destroy : M unit := RemoteCache.save _cache true.

Definition getattr (path : string) (fh : option Z) : M (PyDict PyVal) :=
  let* cacheable := is_cacheable path in
  if negb cacheable then super_getattr base path fh
  else
    let* metadata := RemoteCache.get_metadata _cache path in
    match Metadata.attr metadata with
    | Some a => ret (__dict__ a)
    | None =>
        raise (construct (BuiltinExc "AttributeError")
                 [PStr "'NoneType' object has no attribute '__dict__'"])
    end.

(** [if not link]: there is no link, or it is the empty string. *)
Definition readlink (path : string) : M string :=
  let* cacheable := is_cacheable path in
  if negb cacheable then super_readlink base path
  else
    let* metadata := RemoteCache.get_metadata _cache path in
    match Metadata.link metadata with
    | None => raise (OSError [PInt EINVAL])
    | Some link =>
        if String.eqb link "" then raise (OSError [PInt EINVAL])
        else ret link
    end.

Definition open (path : string) (flags : Z) (fuel : nat) (s : State)
  : option (result Z * State) :=
  match RemoteCache.is_cacheable _cache path with
  | Raise e => Some (Raise e, s)
  | Ok false => Some (super_open base path flags s)
  | Ok true => RemoteCache.open_contents _cache path flags fuel s
  end.

Definition flush (path : string) (fh : Z) : M unit :=
  let* cacheable := is_cacheable path in
  if negb cacheable then super_flush base path fh
  else ret tt.

End methods.

End RemoteCachedFileSystem.

Module DemoFs.

(** A file system whose fallback methods all fail. *)
Definition base : RemoteCachedFileSystem.Super := {|
  RemoteCachedFileSystem.super_getattr _ _ := raise (Exception []);
  RemoteCachedFileSystem.super_readlink _ := raise (Exception []);
  RemoteCachedFileSystem.super_open _ _ := raise (Exception []);
  RemoteCachedFileSystem.super_flush _ _ := raise (Exception [])
|}.

Definition link_meta : Metadata.t :=
  Metadata.Make
    (Some (Attributes.Make 41471 9 64769 1 0 0 7 (Some 1000) 2000 3000
                           [("st_blocks", PInt 0)]))
    (Some "python3") None.

End DemoFs.

(* ===================================================================== *)
(** * Properties of the exception codec *)
(* ===================================================================== *)

Section codec_facts.
Import Encoding.
Variable py : Interpreter.

Example roundtrip_OSError :
  _deserialize_exception SampleInterpreter.py
    (_serialize_exception (construct (BuiltinExc "OSError") [PStr "a"; PStr "b"]))
  = Ok (construct (BuiltinExc "OSError") [PStr "a"; PStr "b"]).
Proof. reflexivity. Qed.

Example roundtrip_CustomException :
  _deserialize_exception SampleInterpreter.py
    (_serialize_exception
       (construct (UserExc "CustomException") [PStr "a"; PStr "b"; PStr "c"]))
  = Ok (Exception [PStr "a"; PStr "b"; PStr "c"]).
Proof. reflexivity. Qed.



End codec_facts.



(* ===================================================================== *)
(** * Dictionaries *)
(* ===================================================================== *)

Section dict_facts.
Context {V : Type}.
Implicit Types (d : PyDict V) (k : string) (v : V).

Lemma dict_get_alter_eq f k d :
  dict_get k (dict_alter f k d) = f <$> dict_get k d.
Proof.
  induction d as [|[k' v] d IH]; simpl; [done|].
  destruct (String.eqb_spec k k') as [->|Hne]; simpl.
  - by rewrite String.eqb_refl.
  - apply String.eqb_neq in Hne. by rewrite Hne.
Qed.

Lemma dict_get_alter_ne f k k' d :
  k <> k' -> dict_get k' (dict_alter f k d) = dict_get k' d.
Proof.
  intros Hne. induction d as [|[k0 v] d IH]; simpl; [done|].
  destruct (String.eqb_spec k k0) as [->|Hk]; simpl.
  - destruct (String.eqb_spec k' k0); [congruence|done].
  - destruct (String.eqb_spec k' k0); [done|apply IH].
Qed.

Lemma dict_get_set_eq k v d : dict_get k (dict_set k v d) = Some v.
Proof.
  induction d as [|[k0 v0] d IH]; simpl.
  - by rewrite String.eqb_refl.
  - destruct (String.eqb_spec k k0) as [->|Hk]; simpl.
    + by rewrite String.eqb_refl.
    + apply String.eqb_neq in Hk. by rewrite Hk.
Qed.

Lemma dict_get_set_ne k k' v d :
  k <> k' -> dict_get k' (dict_set k v d) = dict_get k' d.
Proof.
  intros Hne. induction d as [|[k0 v0] d IH]; simpl.
  - destruct (String.eqb_spec k' k); [congruence|done].
  - destruct (String.eqb_spec k k0) as [->|Hk]; simpl.
    + destruct (String.eqb_spec k' k0); [congruence|done].
    + destruct (String.eqb_spec k' k0); [done|apply IH].
Qed.

Lemma dict_get_del_ne k k' d :
  k <> k' -> dict_get k' (dict_del k d) = dict_get k' d.
Proof.
  intros Hne. induction d as [|[k0 v0] d IH]; simpl; [done|].
  destruct (String.eqb_spec k k0) as [->|Hk]; simpl.
  - destruct (String.eqb_spec k' k0); [congruence|done].
  - destruct (String.eqb_spec k' k0); [done|apply IH].
Qed.

Lemma dict_get_Some_elem k v d : dict_get k d = Some v -> (k, v) ∈ d.
Proof.
  induction d as [|[k0 v0] d IH]; simpl; [done|].
  destruct (String.eqb_spec k k0) as [->|Hk].
  - intros [= ->]. left.
  - intros H. right. by apply IH.
Qed.

Lemma dict_get_None_keys k d : dict_get k d = None <-> k ∉ dict_keys d.
Proof.
  unfold dict_keys. induction d as [|[k0 v0] d IH]; simpl.
  - split; [intros _; apply not_elem_of_nil|done].
  - rewrite not_elem_of_cons. destruct (String.eqb_spec k k0) as [->|Hk].
    + split; [done|]. intros [? _]. done.
    + rewrite IH. tauto.
Qed.

Lemma dict_get_is_Some_keys k d : is_Some (dict_get k d) <-> k ∈ dict_keys d.
Proof.
  destruct (dict_get k d) eqn:E.
  - split; [|eauto]. intros _.
    apply dict_get_Some_elem in E.
    unfold dict_keys. apply list_elem_of_fmap. by exists (k, v).
  - apply dict_get_None_keys in E. split; [intros [? ?]; done|done].
Qed.

Lemma dict_get_elem k v d : dict_wf d -> (k, v) ∈ d -> dict_get k d = Some v.
Proof.
  unfold dict_wf, dict_keys.
  induction d as [|[k0 v0] d IH]; simpl; intros Hnd Hin.
  - by apply elem_of_nil in Hin.
  - apply NoDup_cons in Hnd as [Hk0 Hnd].
    apply elem_of_cons in Hin as [[= -> ->]|Hin].
    + by rewrite String.eqb_refl.
    + destruct (String.eqb_spec k k0) as [->|Hk]; [|by apply IH].
      exfalso. apply Hk0. apply list_elem_of_fmap. by exists (k0, v).
Qed.

Lemma dict_keys_cons k v d : dict_keys ((k, v) :: d) = k :: dict_keys d.
Proof. reflexivity. Qed.

Lemma dict_keys_alter f k d : dict_keys (dict_alter f k d) = dict_keys d.
Proof.
  induction d as [|[k0 v0] d IH]; cbn [dict_del dict_alter dict_set dict_get]; [done|].
  destruct (String.eqb k k0); rewrite !dict_keys_cons; [done|by rewrite IH].
Qed.

Lemma dict_wf_alter f k d : dict_wf d -> dict_wf (dict_alter f k d).
Proof. unfold dict_wf. by rewrite dict_keys_alter. Qed.

Lemma dict_keys_del_subseteq k d : dict_keys (dict_del k d) ⊆ dict_keys d.
Proof.
  induction d as [|[k0 v0] d IH]; cbn [dict_del dict_alter dict_set dict_get]; [done|].
  destruct (String.eqb k k0); rewrite !dict_keys_cons.
  - intros x Hx. by right.
  - intros x. rewrite !elem_of_cons. intros [->|Hx]; [by left|right; by apply IH].
Qed.

Lemma dict_wf_cons k v d :
  dict_wf ((k, v) :: d) <-> (k ∉ dict_keys d) /\ dict_wf d.
Proof. unfold dict_wf. rewrite dict_keys_cons. apply NoDup_cons. Qed.

Lemma dict_wf_del k d : dict_wf d -> dict_wf (dict_del k d).
Proof.
  induction d as [|[k0 v0] d IH]; cbn [dict_del dict_alter dict_set dict_get]; [done|].
  rewrite dict_wf_cons. intros [Hk0 Hnd].
  destruct (String.eqb k k0); [done|].
  apply dict_wf_cons. split; [|by apply IH].
  intros Hin. apply Hk0. by apply (dict_keys_del_subseteq k d).
Qed.

Lemma dict_get_del_eq k d : dict_wf d -> dict_get k (dict_del k d) = None.
Proof.
  induction d as [|[k0 v0] d IH]; cbn [dict_del dict_alter dict_set dict_get]; [done|].
  rewrite dict_wf_cons. intros [Hk0 Hnd].
  destruct (String.eqb_spec k k0) as [->|Hk]; cbn [dict_get].
  - by apply dict_get_None_keys.
  - apply String.eqb_neq in Hk. rewrite Hk. by apply IH.
Qed.

Lemma dict_length_alter f k d : length (dict_alter f k d) = length d.
Proof.
  induction d as [|[k0 v0] d IH]; cbn [dict_del dict_alter dict_set dict_get]; [done|].
  destruct (String.eqb k k0); simpl; [done|by rewrite IH].
Qed.

Lemma dict_length_del k d :
  is_Some (dict_get k d) -> S (length (dict_del k d)) = length d.
Proof.
  induction d as [|[k0 v0] d IH]; simpl.
  - intros [? ?]; done.
  - destruct (String.eqb k k0); simpl; [done|].
    intros H. by rewrite IH.
Qed.

Lemma dict_keys_set k v d :
  dict_keys (dict_set k v d)
  = if dict_contains k d then dict_keys d else dict_keys d ++ [k].
Proof.
  unfold dict_contains. induction d as [|[k0 v0] d IH]; cbn [dict_del dict_alter dict_set dict_get]; [done|].
  destruct (String.eqb_spec k k0) as [->|Hk]; rewrite !dict_keys_cons; [done|].
  rewrite IH. by destruct (dict_get k d).
Qed.

Lemma dict_wf_set k v d : dict_wf d -> dict_wf (dict_set k v d).
Proof.
  unfold dict_wf. rewrite dict_keys_set. unfold dict_contains.
  destruct (dict_get k d) eqn:E; [done|].
  intros Hnd. apply NoDup_app. split; [done|]. split; [|apply NoDup_singleton].
  intros x Hx Hx'. apply list_elem_of_singleton in Hx' as ->.
  by apply dict_get_None_keys in E.
Qed.

End dict_facts.

(* ===================================================================== *)
(** * [RemoteCache.get_metadata] *)
(* ===================================================================== *)

(** Unfolds the plumbing of [M]. *)
Ltac unfold_m :=
  repeat progress
    (unfold bind, ret, raise, try_except, get_entries, get_world,
       modify_entries, modify_world, entry_of, alter_entry, time_time,
       uuid4_hex, rpc in *);
  simpl in *.

Section get_metadata_facts.
Import RemoteCache.
Variable self : RemoteCache.t.

(** Taking the lock of an entry that is cached only refreshes its
    [last_access]. *)
Lemma _lock_entry_cached path s entry :
  dict_get (_entry_key self path) (_entries s) = Some entry ->
  _lock_entry self path s
  = (Ok (_entry_key self path),
     MkState (dict_alter (CacheEntry.set_last_access (clock (world s)))
                         (_entry_key self path) (_entries s))
             (set_clock (clock (world s) + 1) (world s))).
Proof.
  intros H. unfold _lock_entry, dict_contains. unfold_m.
  rewrite H. reflexivity.
Qed.

Lemma get_metadata_cached path s entry :
  dict_get (_entry_key self path) (_entries s) = Some entry ->
  get_metadata self path s
  = (match Metadata.error (CacheEntry.meta entry),
           Metadata.attr (CacheEntry.meta entry) with
     | Some e, _ => Raise e
     | None, None => Raise (ValueError [PStr "entry is missing attributes"])
     | None, Some a =>
         Ok (Metadata.replace_attr (CacheEntry.meta entry)
                                   (Some (Attributes.as_readonly a)))
     end,
     MkState (dict_alter (CacheEntry.set_last_access (clock (world s)))
                         (_entry_key self path) (_entries s))
             (set_clock (clock (world s) + 1) (world s))).
Proof.
  intros H. unfold get_metadata, bind at 1. rewrite (_lock_entry_cached _ _ _ H).
  unfold_m. rewrite dict_get_alter_eq, H. simpl.
  destruct (Metadata.error (CacheEntry.meta entry));
    [|destruct (Metadata.attr (CacheEntry.meta entry))]; reflexivity.
Qed.

(** C10: on a cached entry, [get_metadata] raises the stored error when
    there is one, raises [ValueError("entry is missing attributes")] when
    there is neither an error nor attributes, and returns (the read-only
    copy) otherwise; so it returns only for metadata with attributes and
    without error. *)
Theorem get_metadata_outcome path s entry :
  dict_get (_entry_key self path) (_entries s) = Some entry ->
  let meta := CacheEntry.meta entry in
  (forall e, Metadata.error meta = Some e ->
             (get_metadata self path s).1 = Raise e)
  /\ (Metadata.error meta = None -> Metadata.attr meta = None ->
      (get_metadata self path s).1
      = Raise (ValueError [PStr "entry is missing attributes"]))
  /\ (forall a, Metadata.error meta = None -> Metadata.attr meta = Some a ->
                (get_metadata self path s).1
                = Ok (Metadata.replace_attr meta (Some (Attributes.as_readonly a))))
  /\ (forall m, (get_metadata self path s).1 = Ok m ->
                Metadata.error meta = None /\ is_Some (Metadata.attr meta)).
Proof.
  intros H meta. rewrite (get_metadata_cached _ _ _ H). subst meta. simpl.
  destruct (Metadata.error (CacheEntry.meta entry)) as [e|];
    destruct (Metadata.attr (CacheEntry.meta entry)) as [a|];
    repeat split; intros; simplify_eq; eauto.
Qed.

Lemma as_readonly_mode_land (a : Attributes.t) (bit : Z) :
  Z.land (Z.lnot (Z.lor (Z.lor stat.S_IWUSR stat.S_IWGRP) stat.S_IWOTH)) bit = 0 ->
  Z.land (Attributes.st_mode (Attributes.as_readonly a)) bit = 0.
Proof.
  intros H. unfold Attributes.as_readonly. simpl.
  rewrite <- Z.land_assoc, H. apply Z.land_0_r.
Qed.

Lemma as_readonly_other_bits (a : Attributes.t) (i : Z) :
  0 <= i -> i <> 1 -> i <> 4 -> i <> 7 ->
  Z.testbit (Attributes.st_mode (Attributes.as_readonly a)) i
  = Z.testbit (Attributes.st_mode a) i.
Proof.
  intros Hi H1 H4 H7. unfold Attributes.as_readonly. simpl.
  rewrite Z.land_spec, Z.lnot_spec by done.
  assert (Z.testbit (Z.lor (Z.lor stat.S_IWUSR stat.S_IWGRP) stat.S_IWOTH) i = false)
    as ->; [|apply andb_true_r].
  change (Z.lor (Z.lor stat.S_IWUSR stat.S_IWGRP) stat.S_IWOTH) with 146.
  destruct (Z_lt_le_dec i 8) as [Hlt|Hge].
  - assert (i = 0 \/ i = 2 \/ i = 3 \/ i = 5 \/ i = 6) as Hcases by lia.
    destruct Hcases as [-> | [-> | [-> | [-> | ->]]]]; reflexivity.
  - apply Z.bits_above_log2; [lia|]. change (Z.log2 146) with 7. lia.
Qed.

(** C5: for a cached entry whose metadata carries attributes and no
    error, [get_metadata] returns a copy of the metadata: no error, the
    link as stored, and attributes whose declared fields are as stored but
    for the mode, in which the three write bits are cleared and every other
    bit is as stored (what [os.lstat] reported beyond the declared fields is
    not copied).  The entry in the cache keeps its metadata, mode included;
    the call refreshes its [last_access] and nothing else.  When the
    metadata carries an error besides the attributes, the error is raised
    instead. *)
Theorem get_metadata_readonly_copy path s entry a :
  dict_get (_entry_key self path) (_entries s) = Some entry ->
  Metadata.attr (CacheEntry.meta entry) = Some a ->
  let readonly_mode :=
    Z.land (Attributes.st_mode a)
           (Z.lnot (Z.lor (Z.lor stat.S_IWUSR stat.S_IWGRP) stat.S_IWOTH)) in
  let copy :=
    Metadata.Make
      (Some (Attributes.Make readonly_mode (Attributes.st_ino a)
               (Attributes.st_dev a) (Attributes.st_nlink a)
               (Attributes.st_uid a) (Attributes.st_gid a)
               (Attributes.st_size a) (Attributes.st_atime_ns a)
               (Attributes.st_mtime_ns a) (Attributes.st_ctime_ns a) []))
      (Metadata.link (CacheEntry.meta entry)) None in
  let s' :=
    MkState (dict_alter (CacheEntry.set_last_access (clock (world s)))
                        (_entry_key self path) (_entries s))
            (set_clock (clock (world s) + 1) (world s)) in
  get_metadata self path s
  = (match Metadata.error (CacheEntry.meta entry) with
     | None => Ok copy
     | Some e => Raise e
     end, s')
  /\ Z.land readonly_mode stat.S_IWUSR = 0
  /\ Z.land readonly_mode stat.S_IWGRP = 0
  /\ Z.land readonly_mode stat.S_IWOTH = 0
  /\ (forall i, 0 <= i -> i <> 1 -> i <> 4 -> i <> 7 ->
        Z.testbit readonly_mode i = Z.testbit (Attributes.st_mode a) i)
  /\ dict_get (_entry_key self path) (_entries s')
     = Some (CacheEntry.set_last_access (clock (world s)) entry)
  /\ CacheEntry.meta (CacheEntry.set_last_access (clock (world s)) entry)
     = CacheEntry.meta entry.
Proof.
  intros H Hattr readonly_mode copy s'.
  split.
  { rewrite (get_metadata_cached _ _ _ H), Hattr. subst copy s' readonly_mode.
    destruct (Metadata.error (CacheEntry.meta entry)) eqn:Herr; [done|].
    unfold Metadata.replace_attr. by rewrite Herr. }
  split; [exact (as_readonly_mode_land a stat.S_IWUSR eq_refl)|].
  split; [exact (as_readonly_mode_land a stat.S_IWGRP eq_refl)|].
  split; [exact (as_readonly_mode_land a stat.S_IWOTH eq_refl)|].
  split; [exact (as_readonly_other_bits a)|].
  split; [|done].
  subst s'. cbn [_entries]. by rewrite dict_get_alter_eq, H.
Qed.

End get_metadata_facts.

Lemma get_metadata_outcome_witness :
  (RemoteCache.get_metadata Sample.cache "/usr/bin/env"
     (MkState [Sample.entry "/usr/bin/env" 7 None] Sample.quiet_world)).1
  = Ok (Metadata.replace_attr Sample.file_meta
          (Some (Attributes.as_readonly Sample.file_attr))).
Proof.
  refine (proj1 (proj2 (proj2
    (get_metadata_outcome Sample.cache "/usr/bin/env"
       (MkState [Sample.entry "/usr/bin/env" 7 None] Sample.quiet_world)
       (Sample.entry "/usr/bin/env" 7 None).2 _))) Sample.file_attr _ _);
    reflexivity.
Defined.

Lemma get_metadata_readonly_copy_witness :
  RemoteCache.get_metadata Sample.cache "/usr/bin/env"
    (MkState [Sample.entry "/usr/bin/env" 7 None] Sample.quiet_world)
  = (Ok (Metadata.Make
           (Some (Attributes.Make 33060 7 64769 1 0 0 3 (Some 1000) 2000 3000 []))
           None None),
     MkState [("machine:/usr/bin/env",
               CacheEntry.Make "/usr/bin/env" Sample.file_meta 100 5 None)]
             (set_clock 101 Sample.quiet_world)).
Proof.
  exact (proj1 (get_metadata_readonly_copy Sample.cache "/usr/bin/env"
                  (MkState [Sample.entry "/usr/bin/env" 7 None] Sample.quiet_world)
                  (Sample.entry "/usr/bin/env" 7 None).2 Sample.file_attr
                  eq_refl eq_refl)).
Defined.

(** C5 as stated fails for an entry whose metadata carries attributes and
    an error, as the local service builds it for a symlink whose target
    cannot be read: [get_metadata] raises the error and returns no copy. *)
Lemma get_metadata_raises_despite_attributes :
  Metadata.attr
    (LocalCacheService.get_metadata Demo.unreadable_link_host
       LocalCacheService.__init__ "/usr/bin/python").1
  = Some (Attributes.Make 41471 9 64769 1 0 0 7 (Some 1000) 2000 3000 [])
  /\ (RemoteCache.get_metadata Sample.cache "/usr/bin/python"
        (MkState
           [("machine:/usr/bin/python",
             CacheEntry.Make "/usr/bin/python"
               (LocalCacheService.get_metadata Demo.unreadable_link_host
                  LocalCacheService.__init__ "/usr/bin/python").1
               1 2 None)]
           Sample.quiet_world)).1
     = Raise (construct (BuiltinExc "PermissionError")
                        [PInt 13; PStr "Permission denied"]).
Proof. split; reflexivity. Qed.

(* ===================================================================== *)
(** * [LocalCacheService]: significant metadata *)
(* ===================================================================== *)

Section equality_facts.

Lemma PyVal_eqb_eq : forall a b : PyVal, PyVal_eqb a b = true <-> a = b.
Proof.
  fix IH 1. intros [|x|x|xs] [|y|y|ys]; simpl;
    try (split; intros; (discriminate || reflexivity)).
  - rewrite Z.eqb_eq. split; congruence.
  - rewrite String.eqb_eq. split; congruence.
  - revert ys. induction xs as [|x xs IHxs]; intros [|y ys];
      try (split; intros; (discriminate || reflexivity)).
    rewrite andb_true_iff, IH, IHxs. split.
    + intros [-> [= ->]]. reflexivity.
    + intros [= -> ->]. done.
Qed.

Lemma args_eqb_eq (xs ys : list PyVal) : args_eqb xs ys = true <-> xs = ys.
Proof.
  revert ys. induction xs as [|x xs IH]; intros [|y ys]; simpl;
    try (split; intros; (discriminate || reflexivity)).
  rewrite andb_true_iff, PyVal_eqb_eq, IH. split.
  - intros [-> ->]. reflexivity.
  - intros [= -> ->]. done.
Qed.

Lemma PyClass_eqb_eq (c d : PyClass) : PyClass_eqb c d = true <-> c = d.
Proof.
  destruct c, d; simpl; rewrite ?String.eqb_eq; split; congruence.
Qed.

Lemma option_eqb_Forall2 {A} (eqb : A -> A -> bool) (R : A -> A -> Prop)
    (a b : option A) :
  (forall x y, eqb x y = true <-> R x y) ->
  LocalCacheService.option_eqb eqb a b = true <-> option_Forall2 R a b.
Proof.
  intros Heqb. destruct a, b; simpl.
  - rewrite Heqb. split; [by constructor|by inversion 1].
  - split; [done|inversion 1].
  - split; [done|inversion 1].
  - split; [constructor|done].
Qed.

(** What the generated [__eq__] decides once the access times are blanked. *)
Lemma Attributes_eqb_blanked (a b : Attributes.t) :
  Attributes.eqb (Attributes.replace_st_atime_ns_None a)
                 (Attributes.replace_st_atime_ns_None b) = true
  <-> attrs_agree_but_atime a b.
Proof.
  unfold Attributes.eqb, attrs_agree_but_atime. simpl.
  rewrite !andb_true_iff, !Z.eqb_eq. tauto.
Qed.

End equality_facts.

Section significant_facts.
Import LocalCacheService.
Variable h : Host.

Lemma significant_eqb_spec (m m' : Metadata.t) :
  significant_eqb (_significant_meta m) (_significant_meta m') = true
  <-> differ_only_in_atime m m'.
Proof.
  unfold significant_eqb, _significant_meta, differ_only_in_atime.
  rewrite !andb_true_iff.
  assert (option_eqb String.eqb (Metadata.link m) (Metadata.link m') = true
          <-> Metadata.link m = Metadata.link m') as ->.
  { destruct (Metadata.link m), (Metadata.link m'); simpl;
      rewrite ?String.eqb_eq; split; congruence. }
  assert (forall (a b : option Attributes.t),
            option_eqb Attributes.eqb
              (match a with Some x => Some (Attributes.replace_st_atime_ns_None x) | None => None end)
              (match b with Some x => Some (Attributes.replace_st_atime_ns_None x) | None => None end)
            = true
            <-> option_Forall2 attrs_agree_but_atime a b) as ->.
  { intros [a|] [b|]; simpl.
    - rewrite Attributes_eqb_blanked. split; [by constructor|by inversion 1].
    - split; [done|inversion 1].
    - split; [done|inversion 1].
    - split; [constructor|done]. }
  assert (forall (a b : option PyExc),
            option_eqb (fun x y : PyClass * list PyVal =>
                          PyClass_eqb x.1 y.1 && args_eqb x.2 y.2)
              (match a with Some e => Some (exc_type e, exc_args e) | None => None end)
              (match b with Some e => Some (exc_type e, exc_args e) | None => None end)
            = true
            <-> option_Forall2 same_kind_and_args a b) as ->.
  { intros [a|] [b|]; simpl.
    - rewrite andb_true_iff, PyClass_eqb_eq, args_eqb_eq.
      split; [by constructor|by inversion 1].
    - split; [done|inversion 1].
    - split; [done|inversion 1].
    - split; [constructor|done]. }
  tauto.
Qed.

Lemma differ_only_in_atime_sym (m m' : Metadata.t) :
  differ_only_in_atime m m' -> differ_only_in_atime m' m.
Proof.
  unfold differ_only_in_atime, attrs_agree_but_atime, same_kind_and_args.
  intros (Ha & He & Hl). split; [|split; [|done]].
  - destruct Ha; constructor. intuition congruence.
  - destruct He; constructor. intuition congruence.
Qed.

Lemma get_changed_metadata_single (self : t) (p : string) (m : Metadata.t) :
  (get_changed_metadata h self [(p, m)]).1
  = if significant_eqb (_significant_meta (get_metadata h self p).1)
                       (_significant_meta m)
    then [] else [(p, (get_metadata h self p).1)].
Proof.
  unfold get_changed_metadata. cbn [foldl].
  destruct (get_metadata h self p) as [m' self']. cbn [fst].
  destruct (significant_eqb (_significant_meta m') (_significant_meta m));
    reflexivity.
Qed.

(** C4: asked about one cached path, [get_changed_metadata] answers with
    the empty map when the metadata read now differs from the cached one at
    most in the access time, and with the fresh metadata under that path
    when the size, the mode, the modification time, the link or the error
    (its type or its args) differ; two errors count as equal exactly when
    their types and their args are equal. *)
Theorem get_changed_metadata_significant (self : t) (p : string) (m : Metadata.t) :
  let m' := (get_metadata h self p).1 in
  (differ_only_in_atime m m' -> (get_changed_metadata h self [(p, m)]).1 = [])
  /\ (attrs_changed m m' \/ Metadata.link m <> Metadata.link m' \/ error_changed m m' ->
      (get_changed_metadata h self [(p, m)]).1 = [(p, m')])
  /\ (forall e e',
        significant_eqb (_significant_meta (Metadata.Make None None (Some e)))
                        (_significant_meta (Metadata.Make None None (Some e')))
        = true
        <-> exc_type e = exc_type e' /\ exc_args e = exc_args e').
Proof.
  intros m'. rewrite get_changed_metadata_single. fold m'.
  split; [|split].
  - intros Hsame. apply differ_only_in_atime_sym, significant_eqb_spec in Hsame.
    by rewrite Hsame.
  - intros Hdiff.
    destruct (significant_eqb (_significant_meta m') (_significant_meta m)) eqn:E;
      [|done].
    exfalso. apply significant_eqb_spec, differ_only_in_atime_sym in E.
    destruct E as (Ha & He & Hl).
    destruct Hdiff as [(a & a' & Hm & Hm' & Hd)|[Hd|Hd]]; [|done|done].
    rewrite Hm, Hm' in Ha. inversion Ha as [? ? Hagree|]; subst.
    unfold attrs_agree_but_atime in Hagree. intuition congruence.
  - intros e e'. rewrite significant_eqb_spec.
    unfold differ_only_in_atime. simpl. split.
    + intros (_ & He & _). by inversion He.
    + intros He. split; [constructor|split; [by constructor|done]].
Qed.

(** C6: [get_metadata_prefetch] never raises and returns the metadata of
    the path; when a prefetch rule or the resolver raises, the prefetch
    list is empty.  Likewise [readfile_prefetch], once the file itself was
    read, returns its contents, with an empty prefetch list when the rule
    or the resolver raises. *)
Theorem prefetch_failure_contained (self : t) (path : string) :
  (exists prefetches,
     (get_metadata_prefetch h self path).1
     = Ok ((get_metadata h self path).1, prefetches))
  /\ (resolving_raises h (get_metadata h self path).2 (file_access h path) ->
      (get_metadata_prefetch h self path).1 = Ok ((get_metadata h self path).1, []))
  /\ (forall base self1,
        readfile h self path = (Ok base, self1) ->
        (exists prefetches,
           (readfile_prefetch h self path).1 = Ok (base, prefetches))
        /\ (resolving_raises h self1 (file_read h path) ->
            (readfile_prefetch h self path).1 = Ok (base, []))).
Proof.
  unfold get_metadata_prefetch, readfile_prefetch, resolving_raises.
  destruct (get_metadata h self path) as [base0 self0]. simpl.
  split; [|split].
  - destruct (file_access h path) as [suggestions|e]; [|by eexists].
    destruct (_resolve_prefetches h self0 suggestions) as [[prefetches|e] ?];
      by eexists.
  - destruct (file_access h path) as [suggestions|e]; [|done].
    intros [e He].
    destruct (_resolve_prefetches h self0 suggestions) as [[prefetches|e'] ?];
      simpl in *; [discriminate|done].
  - intros base self1 ->. split.
    + destruct (file_read h path) as [suggestions|e]; [|by eexists].
      destruct (_resolve_prefetches h self1 suggestions) as [[prefetches|e] ?];
        by eexists.
    + destruct (file_read h path) as [suggestions|e]; [|done].
      intros [e He].
      destruct (_resolve_prefetches h self1 suggestions) as [[prefetches|e'] ?];
        simpl in *; [discriminate|done].
Qed.

End significant_facts.

Lemma get_changed_metadata_significant_witness :
  (LocalCacheService.get_changed_metadata Sample.host Sample.service
     [("/etc/hosts", Sample.file_meta)]).1 = []
  /\ (LocalCacheService.get_changed_metadata Sample.host Sample.service
        [("/etc/hosts", Sample.missing_meta)]).1
     = [("/etc/hosts",
         (LocalCacheService.get_metadata Sample.host Sample.service "/etc/hosts").1)].
Proof.
  split.
  - apply (get_changed_metadata_significant Sample.host Sample.service
             "/etc/hosts" Sample.file_meta).
    split; [|split; [|reflexivity]].
    + vm_compute. constructor. repeat split.
    + vm_compute. constructor.
  - apply (get_changed_metadata_significant Sample.host Sample.service
             "/etc/hosts" Sample.missing_meta).
    right. right. vm_compute. inversion 1.
Defined.

Lemma prefetch_failure_contained_witness :
  (LocalCacheService.get_metadata_prefetch Sample.host Sample.service "/etc/hosts").1
  = Ok ((LocalCacheService.get_metadata Sample.host Sample.service "/etc/hosts").1, [])
  /\ (LocalCacheService.readfile_prefetch Sample.host Sample.service "/etc/hosts").1
     = Ok (LocalCacheService.from_data Sample.host [], []).
Proof.
  split.
  - apply (prefetch_failure_contained Sample.host Sample.service "/etc/hosts").
    exact I.
  - eapply (prefetch_failure_contained Sample.host Sample.service "/etc/hosts").
    + reflexivity.
    + exists (ValueError [PStr "Can't mix absolute and relative paths"]).
      vm_compute. reflexivity.
Defined.

(* ===================================================================== *)
(** * [last_update] *)
(* ===================================================================== *)

Section last_update_facts.
Import RemoteCache.
Variable self : RemoteCache.t.

(** A new entry is stamped with the time of its creation. *)
Lemma new_entry_last_update path meta s :
  exists e, new_entry path meta s
            = (Ok e, MkState (_entries s) (set_clock (clock (world s) + 1 + 1) (world s)))
            /\ CacheEntry.last_update e = clock (world s) + 1
            /\ CacheEntry.last_access e = clock (world s).
Proof. eexists. split; [reflexivity|]. split; reflexivity. Qed.

Lemma new_prefetched_entry_last_update path meta s :
  exists e, new_prefetched_entry path meta s
            = (Ok e, MkState (_entries s) (set_clock (clock (world s) + 1) (world s)))
            /\ CacheEntry.last_update e = clock (world s)
            /\ CacheEntry.last_access e = 0.
Proof. eexists. split; [reflexivity|]. split; reflexivity. Qed.

(** [sync] stamps an entry whose metadata it replaces: the stamp is the
    reading of the clock that follows the one taken for [last_access]. *)
Lemma sync_entry_last_update path new_metadata s entry :
  dict_get (_entry_key self path) (_entries s) = Some entry ->
  exists s' entry',
    sync_entry self path new_metadata s = (Ok tt, s')
    /\ dict_get (_entry_key self path) (_entries s') = Some entry'
    /\ CacheEntry.meta entry' = new_metadata
    /\ CacheEntry.last_update entry' = clock (world s) + 1
    /\ clock (world s') = clock (world s) + 1 + 1.
Proof.
  intros H. unfold sync_entry, bind at 1.
  rewrite (_lock_entry_cached _ _ _ _ H). unfold_m.
  rewrite !dict_get_alter_eq, H. simpl.
  destruct (CacheEntry.contents entry) as [blob|]; simpl.
  - destruct (Metadata.error new_metadata); simpl.
    + eexists _, _. split; [reflexivity|]. simpl.
      rewrite !dict_get_alter_eq, H. simpl. done.
    + destruct (Metadata.attr new_metadata) as [a|]; simpl;
        [destruct (stat.S_ISREG (Attributes.st_mode a)); simpl|];
        (eexists _, _; split; [reflexivity|]; simpl;
         rewrite !dict_get_alter_eq, H; simpl; done).
  - eexists _, _. split; [reflexivity|]. simpl.
    rewrite !dict_get_alter_eq, H. simpl. done.
Qed.

(** Without prefetching, fetching the contents of a cached entry that has
    none replaces [contents] and nothing else: [last_update] keeps the value
    it had. *)
Lemma fetch_contents_keeps_last_update key s entry contents :
  _prefetch self = false ->
  dict_get key (_entries s) = Some entry ->
  CacheEntry.contents entry = None ->
  readfile_reply (_client self) (calls (world s)) (CacheEntry.path entry) = Ok contents ->
  exists s' blob,
    (let* blob := _update_contents self key false in
     alter_entry key (CacheEntry.set_contents (Some blob))) s = (Ok tt, s')
    /\ dict_get key (_entries s') = Some (CacheEntry.set_contents (Some blob) entry)
    /\ ContentsBlob.size blob = FileContents.size contents.
Proof.
  intros Hpre H Hnone Hreply. unfold _update_contents, _save_contents. unfold_m.
  rewrite H, Hnone, Hpre. simpl. unfold_m. rewrite Hreply. simpl.
  eexists _, _. split; [reflexivity|]. simpl.
  rewrite dict_get_alter_eq, H. done.
Qed.

End last_update_facts.

(** C2, where the code departs from it: at time 100 [open_contents] fetches
    the contents of an entry last updated at time 5 and stores the new blob
    in it, and storing prefetched contents does the same; both leave
    [last_update] at 5. *)
Theorem contents_mutation_keeps_last_update :
  let key := "machine:/usr/bin/env" in
  let s := MkState [Sample.entry "/usr/bin/env" 7 None] Sample.quiet_world in
  clock (world s) = 100
  /\ (exists fd s',
        RemoteCache.open_contents Sample.cache "/usr/bin/env" 0 1 s = Some (Ok fd, s')
        /\ CacheEntry.contents <$> dict_get key (_entries s')
           = Some (Some (Sample.blob "blob0" 3))
        /\ CacheEntry.last_update <$> dict_get key (_entries s') = Some 5)
  /\ (exists s',
        RemoteCache._try_store_prefetches Sample.cache "/usr/bin/env"
          [PrefetchEntry.Make "/usr/bin/env" Sample.file_meta (Some Sample.foo)] s
        = (Ok tt, s')
        /\ CacheEntry.contents <$> dict_get key (_entries s')
           = Some (Some (Sample.blob "blob0" 3))
        /\ CacheEntry.last_update <$> dict_get key (_entries s') = Some 5).
Proof.
  split; [reflexivity|]. split.
  - eexists _, _. split; [vm_compute; reflexivity|]. split; reflexivity.
  - eexists. split; [vm_compute; reflexivity|]. split; reflexivity.
Qed.

(* ===================================================================== *)
(** * [RemoteCache.open_contents] and a blob that is missing *)
(* ===================================================================== *)

Section open_contents_facts.
Import RemoteCache.
Variable self : RemoteCache.t.

Lemma blob_exists_empty storage : blob_exists self ∅ storage = false.
Proof.
  unfold blob_exists. apply bool_decide_eq_false.
  intros (fn & Hfn & _). set_solver.
Qed.

Lemma blob_exists_saved hex dir :
  blob_exists self ({[hex]} ∪ dir)
              (posixpath.join (_cache_contents_path self) hex) = true.
Proof.
  unfold blob_exists. apply bool_decide_eq_true.
  exists hex. split; [set_solver|done].
Qed.

Lemma stable_refl s : stable s s.
Proof. unfold stable. repeat split; eauto. Qed.

Lemma stable_trans s1 s2 s3 : stable s1 s2 -> stable s2 s3 -> stable s1 s3.
Proof.
  intros (Hc1 & Hi1 & Ho1 & He1) (Hc2 & Hi2 & Ho2 & He2).
  unfold stable. repeat split; try congruence.
  intros key entry Hk. destruct (He1 key entry Hk) as (e' & Hk' & Hp').
  destruct (He2 key e' Hk') as (e'' & Hk'' & Hp'').
  exists e''. split; [done|congruence].
Qed.

(** Storing the contents of one prefetch leaves the entries in place. *)
Lemma stable_store key blob s w :
  calls w = calls (world s) -> interference w = interference (world s) ->
  opens w = opens (world s) ->
  stable s (MkState (dict_alter (CacheEntry.set_contents blob) key (_entries s)) w).
Proof.
  intros Hc Hi Ho. unfold stable. cbn [_entries world].
  repeat split; try done.
  intros k e Hk. destruct (decide (key = k)) as [<-|Hne].
  - rewrite dict_get_alter_eq, Hk. by eexists.
  - rewrite dict_get_alter_ne by done. by eexists.
Qed.

(** Creating the entry of a prefetch leaves the other entries in place. *)
Lemma stable_create key entry s w :
  dict_get key (_entries s) = None ->
  calls w = calls (world s) -> interference w = interference (world s) ->
  opens w = opens (world s) ->
  stable s (MkState (dict_set key entry (_entries s)) w).
Proof.
  intros Hnew Hc Hi Ho. unfold stable. cbn [_entries world].
  repeat split; try done.
  intros k e Hk. destruct (decide (key = k)) as [<-|Hne]; [congruence|].
  rewrite dict_get_set_ne by done. by eexists.
Qed.

(** [_try_store_prefetches] does not raise, makes no call and removes no
    entry. *)
Lemma try_store_prefetches_stable path prefetches :
  forall s, exists s',
    _try_store_prefetches self path prefetches s = (Ok tt, s') /\ stable s s'.
Proof.
  induction prefetches as [|pf rest IH]; intros s.
  - exists s. split; [reflexivity|apply stable_refl].
  - cbn [_try_store_prefetches]. unfold_m.
    destruct (negb _ && negb _); [apply IH|].
    unfold dict_contains.
    destruct (dict_get (_entry_key self (PrefetchEntry.path pf)) (_entries s))
      as [entry|] eqn:Hk; simpl.
    + rewrite Hk.
      destruct (PrefetchEntry.contents pf) as [contents|];
        [destruct (CacheEntry.contents entry) as [old|];
         [destruct (ContentsBlob.dirty old)|]|];
        match goal with
        | |- exists s', _try_store_prefetches _ _ _ ?s1 = _ /\ _ =>
            destruct (IH s1) as (s' & Hrun & Hst); exists s';
            split; [exact Hrun|];
            refine (stable_trans _ _ _ _ Hst); clear Hrun Hst
        end;
        try apply stable_refl; by apply stable_store.
    + rewrite dict_get_set_eq. simpl.
      destruct (PrefetchEntry.contents pf) as [contents|];
        match goal with
        | |- exists s', _try_store_prefetches _ _ _ ?s1 = _ /\ _ =>
            destruct (IH s1) as (s' & Hrun & Hst); exists s';
            split; [exact Hrun|];
            refine (stable_trans _ _ _ _ Hst); clear Hrun Hst
        end.
      * eapply stable_trans; [|apply stable_store; reflexivity].
        by apply stable_create.
      * by apply stable_create.
Qed.

(** A forced refresh makes one call and leaves the entry with a blob that
    is on disk. *)
Lemma forced_refresh key s entry :
  dict_get key (_entries s) = Some entry ->
  service_answers self (CacheEntry.path entry) ->
  exists blob s',
    _update_contents self key true s = (Ok blob, s')
    /\ calls (world s')
       = calls (world s) ++ [refresh_call self (CacheEntry.path entry)]
    /\ interference (world s') = interference (world s)
    /\ opens (world s') = opens (world s)
    /\ (exists entry', dict_get key (_entries s') = Some entry'
                       /\ CacheEntry.path entry' = CacheEntry.path entry)
    /\ blob_exists self (contents_dir (world s')) (ContentsBlob.storage blob) = true.
Proof.
  intros H Hans. unfold _update_contents, _save_contents.
  unfold service_answers, refresh_call in *. unfold_m. rewrite H. simpl.
  destruct (_prefetch self); unfold_m.
  - destruct (Hans (calls (world s))) as [[contents prefetches] ->]. simpl.
    match goal with
    | |- context [_try_store_prefetches _ _ _ ?s1] =>
        destruct (try_store_prefetches_stable (CacheEntry.path entry) prefetches s1)
          as (s2 & -> & (Hc & Hi & Ho & He))
    end.
    simpl in *. eexists _, _. split; [reflexivity|]. simpl.
    split; [done|]. split; [done|]. split; [done|].
    split; [by apply He|]. apply blob_exists_saved.
  - destruct (Hans (calls (world s))) as [contents ->]. simpl.
    eexists _, _. split; [reflexivity|]. simpl.
    split; [done|]. split; [done|]. split; [done|].
    split; [by eexists|]. apply blob_exists_saved.
Qed.

(** An iteration that finds the blob missing. *)
Lemma open_loop_missing key flags s entry blob :
  dict_get key (_entries s) = Some entry ->
  CacheEntry.contents entry = Some blob ->
  service_answers self (CacheEntry.path entry) ->
  interference (world s) (opens (world s)) (contents_dir (world s)) = ∅ ->
  exists s1 entry1 blob1,
    (forall fuel, open_loop self key flags (S fuel) s = open_loop self key flags fuel s1)
    /\ calls (world s1)
       = calls (world s) ++ [refresh_call self (CacheEntry.path entry)]
    /\ interference (world s1) = interference (world s)
    /\ opens (world s1) = S (opens (world s))
    /\ dict_get key (_entries s1) = Some entry1
    /\ CacheEntry.path entry1 = CacheEntry.path entry
    /\ CacheEntry.contents entry1 = Some blob1
    /\ blob_exists self (contents_dir (world s1)) (ContentsBlob.storage blob1) = true.
Proof.
  intros H Hblob Hans Hgone.
  destruct (forced_refresh key
              (MkState (_entries s)
                       (set_opens (S (opens (world s)))
                                  (set_contents_dir ∅ (world s))))
              entry H Hans)
    as (blob1 & s' & Hrun & Hc & Hi & Ho & (entry' & Hk' & Hp') & Hthere).
  exists (MkState (dict_alter (CacheEntry.set_contents (Some blob1)) key (_entries s'))
                  (world s')),
         (CacheEntry.set_contents (Some blob1) entry'), blob1.
  split.
  { intros fuel. cbn [open_loop]. unfold os_open. unfold_m.
    rewrite H, Hblob. simpl. rewrite Hgone, blob_exists_empty. simpl.
    rewrite Hrun. reflexivity. }
  cbn [_entries world]. rewrite dict_get_alter_eq, Hk'. simpl in *.
  repeat split; done.
Qed.

(** An iteration that finds the blob. *)
Lemma open_loop_present key flags fuel s entry blob :
  dict_get key (_entries s) = Some entry ->
  CacheEntry.contents entry = Some blob ->
  blob_exists self (interference (world s) (opens (world s)) (contents_dir (world s)))
              (ContentsBlob.storage blob) = true ->
  exists s',
    open_loop self key flags (S fuel) s
    = Some (Ok (3 + Z.of_nat (opens (world s))), s')
    /\ calls (world s') = calls (world s).
Proof.
  intros H Hblob Hthere. cbn [open_loop]. unfold os_open. unfold_m.
  rewrite H, Hblob. simpl. rewrite Hthere. simpl.
  eexists. split; reflexivity.
Qed.

(** While the blob is missing at every open, the loop goes on. *)
Lemma open_loop_starved key flags path (n : nat) :
  forall s entry blob,
    dict_get key (_entries s) = Some entry ->
    CacheEntry.path entry = path ->
    CacheEntry.contents entry = Some blob ->
    service_answers self path ->
    (forall k dir, (k < n)%nat ->
                   interference (world s) (opens (world s) + k)%nat dir = ∅) ->
    open_loop self key flags n s = None.
Proof.
  induction n as [|n IH]; intros s entry blob H Hpath Hblob Hans Hgone;
    [reflexivity|].
  destruct (open_loop_missing key flags s entry blob H Hblob)
    as (s1 & entry1 & blob1 & Hstep & _ & Hi & Ho & Hk1 & Hp1 & Hb1 & _).
  { by rewrite Hpath. }
  { specialize (Hgone 0%nat (contents_dir (world s))).
    rewrite Nat.add_0_r in Hgone. apply Hgone. lia. }
  rewrite Hstep. apply (IH s1 entry1 blob1); try done; [congruence|].
  intros k dir Hk. rewrite Hi, Ho. cbn [Nat.add].
  rewrite <- Nat.add_succ_r. apply Hgone. lia.
Qed.

(** The part of [open_contents] before the loop, for an entry whose cached
    contents are clean. *)
Lemma open_contents_clean path flags fuel s entry blob :
  dict_get (_entry_key self path) (_entries s) = Some entry ->
  CacheEntry.contents entry = Some blob ->
  ContentsBlob.dirty blob = false ->
  open_contents self path flags fuel s
  = open_loop self (_entry_key self path) flags fuel
      (MkState (dict_alter (CacheEntry.set_last_access (clock (world s)))
                           (_entry_key self path) (_entries s))
               (set_clock (clock (world s) + 1) (world s))).
Proof.
  intros H Hblob Hclean. unfold open_contents, bind at 1.
  rewrite (_lock_entry_cached _ _ _ _ H). unfold_m.
  rewrite dict_get_alter_eq, H. simpl. rewrite Hblob, Hclean. reflexivity.
Qed.

(** An iteration of the loop that does not find the file of the blob,
    wherever the file has gone. *)
Lemma open_loop_retry key flags s entry blob :
  dict_get key (_entries s) = Some entry ->
  CacheEntry.contents entry = Some blob ->
  service_answers self (CacheEntry.path entry) ->
  blob_file_found self key s = false ->
  (forall fuel,
     open_loop self key flags (S fuel) s
     = open_loop self key flags fuel (after_retry self key flags s))
  /\ calls (world (after_retry self key flags s))
     = calls (world s) ++ [refresh_call self (CacheEntry.path entry)]
  /\ exists entry1 blob1,
       dict_get key (_entries (after_retry self key flags s)) = Some entry1
       /\ CacheEntry.path entry1 = CacheEntry.path entry
       /\ CacheEntry.contents entry1 = Some blob1.
Proof.
  intros H Hblob Hans Hgone.
  unfold blob_file_found, after_retry, referenced_blob in *.
  rewrite H, Hblob in *.
  set (dir := interference (world s) (opens (world s)) (contents_dir (world s)))
    in *.
  set (s_open := MkState (_entries s)
                         (set_opens (S (opens (world s)))
                                    (set_contents_dir dir (world s)))).
  assert (os_open self (ContentsBlob.storage blob) flags s
          = (Raise (FileNotFoundError [PInt 2; PStr "No such file or directory"]),
             s_open)) as Hopen.
  { unfold os_open. unfold_m. fold dir. by rewrite Hgone. }
  destruct (forced_refresh key s_open entry H Hans)
    as (blob1 & s' & Hrun & Hc & _ & _ & (entry' & Hk' & Hp') & _).
  assert (refresh_entry self key s_open
          = (Ok tt, MkState (dict_alter (CacheEntry.set_contents (Some blob1))
                                        key (_entries s'))
                            (world s'))) as Hrefresh.
  { unfold refresh_entry, bind. rewrite Hrun. reflexivity. }
  rewrite Hopen. cbn [snd]. rewrite Hrefresh. cbn [snd _entries world].
  split; [|split].
  - intros fuel. cbn [open_loop]. unfold entry_of, bind, get_entries, ret.
    rewrite H, Hblob, Hopen.
    change (is_FileNotFoundError _) with true. cbv iota.
    rewrite Hrun. reflexivity.
  - exact Hc.
  - exists (CacheEntry.set_contents (Some blob1) entry'), blob1.
    rewrite dict_get_alter_eq, Hk'. done.
Qed.

Lemma iter_after_retry (f : State -> State) (n : nat) (s : State) :
  Nat.iter (S n) f s = Nat.iter n f (f s).
Proof. induction n as [|n IH]; [done|]. cbn in *. by rewrite IH. Qed.

(** The first [n] iterations of the loop when none of them finds the file. *)
Lemma open_loop_misses key flags path (n : nat) :
  forall s entry blob,
    dict_get key (_entries s) = Some entry ->
    CacheEntry.path entry = path ->
    CacheEntry.contents entry = Some blob ->
    service_answers self path ->
    (forall k, (k < n)%nat ->
               blob_file_found self key (Nat.iter k (after_retry self key flags) s)
               = false) ->
    open_loop self key flags n s = None
    /\ (forall fuel,
          open_loop self key flags (n + fuel) s
          = open_loop self key flags fuel
              (Nat.iter n (after_retry self key flags) s))
    /\ calls (world (Nat.iter n (after_retry self key flags) s))
       = calls (world s) ++ replicate n (refresh_call self path)
    /\ exists entry_n blob_n,
         dict_get key (_entries (Nat.iter n (after_retry self key flags) s))
         = Some entry_n
         /\ CacheEntry.path entry_n = path
         /\ CacheEntry.contents entry_n = Some blob_n.
Proof.
  induction n as [|n IH]; intros s entry blob H Hpath Hblob Hans Hgone.
  - split; [done|]. split; [done|]. cbn. rewrite app_nil_r.
    split; [done|]. by exists entry, blob.
  - destruct (open_loop_retry key flags s entry blob H Hblob)
      as (Hstep & Hcalls & entry1 & blob1 & H1 & Hpath1 & Hblob1).
    { by rewrite Hpath. }
    { apply (Hgone 0%nat). lia. }
    destruct (IH (after_retry self key flags s) entry1 blob1 H1)
      as (Hnone & Hrest & Hcalls_n & Hentry_n); try done; [congruence|..].
    { intros k Hk. rewrite <- iter_after_retry. apply Hgone. lia. }
    rewrite !iter_after_retry.
    split; [by rewrite Hstep|].
    split; [intros fuel; cbn [Nat.add]; by rewrite Hstep|].
    split; [|done].
    rewrite Hcalls_n, Hcalls, Hpath. cbn [replicate]. by rewrite <- app_assoc.
Qed.

(** C7, as the code has it: every time the file of the cached blob is
    missing when it is opened, [open_contents] makes a forced refresh and
    tries again.  With the local service answering, when the file is
    missing at the first [n] opens of the loop the loop is still running
    after [n] iterations; when it is found at the next open, the call
    returns a descriptor, after exactly [n] forced refreshes.  The
    file may be missing because it never was where the entry says, or
    because another process removed it; [n] is any number. *)
Theorem open_contents_retries_until_found path flags (n : nat) s entry blob :
  dict_get (_entry_key self path) (_entries s) = Some entry ->
  CacheEntry.contents entry = Some blob ->
  ContentsBlob.dirty blob = false ->
  service_answers self (CacheEntry.path entry) ->
  let key := _entry_key self path in
  let start := (_lock_entry self path s).2 in
  (forall k, (k < n)%nat ->
             blob_file_found self key (Nat.iter k (after_retry self key flags) start)
             = false) ->
  (forall fuel, (fuel <= n)%nat -> open_contents self path flags fuel s = None)
  /\ (blob_file_found self key (Nat.iter n (after_retry self key flags) start)
      = true ->
      forall fuel, (n < fuel)%nat ->
        exists fd s',
          open_contents self path flags fuel s = Some (Ok fd, s')
          /\ calls (world s')
             = calls (world s)
               ++ replicate n (refresh_call self (CacheEntry.path entry))).
Proof.
  intros H Hblob Hclean Hans key start Hgone.
  pose proof (fun fuel => open_contents_clean path flags fuel s entry blob
                            H Hblob Hclean) as Hstart.
  fold key in Hstart.
  assert (start
          = MkState (dict_alter (CacheEntry.set_last_access (clock (world s)))
                                key (_entries s))
                    (set_clock (clock (world s) + 1) (world s))) as Hs.
  { subst start. by rewrite (_lock_entry_cached _ _ _ _ H). }
  rewrite <- Hs in Hstart.
  assert (dict_get key (_entries start)
          = Some (CacheEntry.set_last_access (clock (world s)) entry)) as H'.
  { rewrite Hs. cbn [_entries]. rewrite dict_get_alter_eq. fold key in H.
    by rewrite H. }
  assert (calls (world start) = calls (world s)) as Hcalls0 by (by rewrite Hs).
  split.
  - intros fuel Hfuel. rewrite Hstart.
    apply (open_loop_misses key flags (CacheEntry.path entry) fuel start _ blob
             H' eq_refl Hblob Hans).
    intros k Hk. apply Hgone. lia.
  - intros Hfound fuel Hfuel. rewrite Hstart.
    destruct (open_loop_misses key flags (CacheEntry.path entry) n start _ blob
                H' eq_refl Hblob Hans Hgone)
      as (_ & Hrest & Hcalls & entry_n & blob_n & Hn & _ & Hblob_n).
    replace fuel with (n + S (fuel - S n))%nat by lia. rewrite Hrest.
    unfold blob_file_found, referenced_blob in Hfound.
    rewrite Hn, Hblob_n in Hfound.
    destruct (open_loop_present key flags (fuel - S n) _ entry_n blob_n
                Hn Hblob_n Hfound) as (s' & Hrun & Hcalls').
    eexists _, s'. split; [exact Hrun|]. by rewrite Hcalls', Hcalls, Hcalls0.
Qed.

End open_contents_facts.

Lemma open_contents_retries_until_found_witness :
  exists fd s',
    RemoteCache.open_contents Sample.cache "/usr/bin/env" 0 2
      (MkState [Sample.entry "/usr/bin/env" 7 (Some (Sample.blob "gone" 3))]
               Sample.quiet_world) = Some (Ok fd, s')
    /\ calls (world s') = [CallReadfile "/usr/bin/env"].
Proof.
  refine (proj2 (open_contents_retries_until_found Sample.cache "/usr/bin/env" 0 1
                   (MkState [Sample.entry "/usr/bin/env" 7
                               (Some (Sample.blob "gone" 3))]
                            Sample.quiet_world)
                   (Sample.entry "/usr/bin/env" 7 (Some (Sample.blob "gone" 3))).2
                   (Sample.blob "gone" 3) _ _ _ _ _) _ 2%nat _);
    try reflexivity.
  - intros log. by eexists.
  - intros k Hk. destruct k as [|k]; [|lia]. vm_compute. reflexivity.
  - lia.
Defined.

(** C7 as stated fails: with the blob missing at the first open and at the
    retry, [open_contents] does not surface the failure but refreshes a
    second time and returns a descriptor; and while the blob goes missing
    before every open the loop does not end at all. *)
Lemma open_contents_retries_more_than_once :
  let s := MkState Sample.cached_env (Sample.racing_world 2) in
  (exists s',
     RemoteCache.open_contents Sample.cache "/usr/bin/env" 0 3 s = Some (Ok 5, s')
     /\ calls (world s') = [CallReadfile "/usr/bin/env"; CallReadfile "/usr/bin/env"])
  /\ ~ surfaces_after_one_retry Sample.cache "/usr/bin/env" 0 s
  /\ (forall fuel,
        RemoteCache.open_contents Sample.cache "/usr/bin/env" 0 fuel
          (MkState Sample.cached_env Sample.hostile_world) = None).
Proof.
  split; [|split].
  - eexists. split; [vm_compute; reflexivity|reflexivity].
  - intros (fuel & e & s' & Hrun & _).
    destruct fuel as [|[|[|fuel]]]; vm_compute in Hrun; discriminate.
  - intros fuel.
    rewrite (open_contents_clean Sample.cache "/usr/bin/env" 0 fuel _
               (Sample.entry "/usr/bin/env" 7 (Some (Sample.blob "old" 3))).2
               (Sample.blob "old" 3)); try reflexivity.
    eapply (open_loop_starved Sample.cache _ 0 "/usr/bin/env" fuel _ _
              (Sample.blob "old" 3)); try reflexivity.
    intros log. by eexists.
Qed.

(* ===================================================================== *)
(** * The stable sort *)
(* ===================================================================== *)

Section sort_facts.
Context {A : Type} (key : A -> Z).

Lemma sort_insert_perm x l : sort_insert key x l ≡ₚ x :: l.
Proof.
  induction l as [|y l IH]; simpl; [done|].
  destruct (key x <=? key y); [done|].
  rewrite IH. apply Permutation_swap.
Qed.

Lemma sort_by_perm l : sort_by key l ≡ₚ l.
Proof.
  induction l as [|x l IH]; simpl; [done|].
  by rewrite sort_insert_perm, IH.
Qed.

Lemma sort_insert_sorted x l :
  StronglySorted (key_le key) l -> StronglySorted (key_le key) (sort_insert key x l).
Proof.
  induction l as [|y l IH]; simpl; intros Hl.
  - repeat constructor.
  - apply StronglySorted_cons in Hl as [Hy Hl].
    destruct (Z.leb_spec (key x) (key y)) as [Hxy|Hxy].
    + apply StronglySorted_cons. split.
      * constructor; [done|]. eapply Forall_impl; [exact Hy|].
        unfold key_le. intros z Hz. lia.
      * apply StronglySorted_cons. done.
    + apply StronglySorted_cons. split; [|by apply IH].
      rewrite sort_insert_perm. constructor; [unfold key_le; lia|done].
Qed.

Lemma sort_by_sorted l : StronglySorted (key_le key) (sort_by key l).
Proof.
  induction l as [|x l IH]; simpl; [constructor|by apply sort_insert_sorted].
Qed.

(** In a sorted list an element with a strictly smaller key comes first. *)
Lemma sorted_split l x y :
  StronglySorted (key_le key) l -> x ∈ l -> y ∈ l -> key x < key y ->
  exists l1 l2 l3, l = l1 ++ x :: l2 ++ y :: l3.
Proof.
  intros Hl Hx Hy Hlt.
  apply list_elem_of_split in Hx as (l1 & r & ->).
  apply elem_of_app in Hy as [Hy|Hy].
  - exfalso.
    assert (key_le key y x) as Hle.
    { eapply StronglySorted_app_1_elem_of; [exact Hl|done|left]. }
    unfold key_le in Hle. lia.
  - apply elem_of_cons in Hy as [->|Hy]; [lia|].
    apply list_elem_of_split in Hy as (l2 & l3 & ->). eauto.
Qed.

(** A prefix of a sorted list that holds [y] holds everything with a
    strictly smaller key. *)
Lemma sorted_prefix_closed processed rest x y :
  StronglySorted (key_le key) (processed ++ rest) ->
  x ∈ processed ++ rest -> y ∈ processed -> key x < key y ->
  x ∈ processed.
Proof.
  intros Hl Hx Hy Hlt. apply elem_of_app in Hx as [Hx|Hx]; [done|].
  exfalso. assert (key_le key y x) as Hle.
  { eapply StronglySorted_app_1_elem_of; [exact Hl|done|done]. }
  unfold key_le in Hle. lia.
Qed.

End sort_facts.

(* ===================================================================== *)
(** * [RemoteCache._lru_cleanup] *)
(* ===================================================================== *)

Section lru_facts.
Import RemoteCache.
Variables max_entries max_size : Z.
Local Abbreviation step := (lru_step max_entries max_size).
Implicit Types (st : Z * Z * PyDict CacheEntry.t) (d : PyDict CacheEntry.t).

Lemma dict_values_cons {V} k (v : V) (d : PyDict V) :
  dict_values ((k, v) :: d) = v :: dict_values d.
Proof. reflexivity. Qed.

Lemma dict_get_del_None {V} k k' (d : PyDict V) :
  dict_get k d = None -> dict_get k (dict_del k' d) = None.
Proof.
  induction d as [|[k0 v0] d IH]; cbn [dict_get dict_del]; [done|].
  destruct (String.eqb_spec k k0) as [->|Hk]; [done|]. intros Hd.
  destruct (String.eqb k' k0); [done|]. cbn [dict_get].
  apply String.eqb_neq in Hk. rewrite Hk. by apply IH.
Qed.

Lemma lru_step_other st k e k' :
  k <> k' -> dict_get k' (step st (k, e)).2 = dict_get k' st.2.
Proof.
  intros Hne. destruct st as [[cs ec] d]. unfold lru_step.
  destruct (CacheEntry.contents e) as [b|]; [destruct (cs >? max_size)|];
    destruct (ec >? max_entries); simpl;
    rewrite ?dict_get_del_ne, ?dict_get_alter_ne by done; done.
Qed.

Lemma lru_foldl_other l st k' :
  k' ∉ l.*1 -> dict_get k' (foldl step st l).2 = dict_get k' st.2.
Proof.
  revert st. induction l as [|[k e] l IH]; intros st Hk; [done|].
  rewrite fmap_cons, not_elem_of_cons in Hk. destruct Hk as [Hne Hk].
  cbn [foldl]. rewrite IH by done. by apply lru_step_other.
Qed.

Lemma lru_step_gone st item k :
  dict_get k st.2 = None -> dict_get k (step st item).2 = None.
Proof.
  intros Hk. destruct st as [[cs ec] d], item as [k0 e]. unfold lru_step.
  destruct (CacheEntry.contents e) as [b|]; [destruct (cs >? max_size)|];
    destruct (ec >? max_entries); simpl in *;
    try apply dict_get_del_None;
    try (destruct (String.eqb_spec k0 k) as [->|Hne];
         [rewrite dict_get_alter_eq, Hk|rewrite dict_get_alter_ne by done]);
    done.
Qed.

Lemma lru_foldl_gone l st k :
  dict_get k st.2 = None -> dict_get k (foldl step st l).2 = None.
Proof.
  revert st. induction l as [|item l IH]; intros st Hk; [done|].
  cbn [foldl]. apply IH. by apply lru_step_gone.
Qed.

Lemma lru_step_at st k e :
  dict_wf st.2 -> dict_get k st.2 = Some e ->
  dict_get k (step st (k, e)).2
  = after_lru_step max_entries max_size st.1.1 st.1.2 e.
Proof.
  intros Hwf Hk. destruct st as [[cs ec] d]. unfold lru_step, after_lru_step.
  simpl in *.
  destruct (CacheEntry.contents e) as [b|]; [destruct (cs >? max_size)|];
    destruct (ec >? max_entries); simpl;
    rewrite ?dict_get_del_eq, ?dict_get_alter_eq, ?Hk
      by (try apply dict_wf_alter; done);
    done.
Qed.

Lemma lru_step_wf st item : dict_wf st.2 -> dict_wf (step st item).2.
Proof.
  intros Hwf. destruct st as [[cs ec] d], item as [k e]. unfold lru_step.
  destruct (CacheEntry.contents e) as [b|]; [destruct (cs >? max_size)|];
    destruct (ec >? max_entries); simpl in *;
    try apply dict_wf_del; try apply dict_wf_alter; done.
Qed.

Lemma lru_foldl_wf l st : dict_wf st.2 -> dict_wf (foldl step st l).2.
Proof.
  revert st. induction l as [|item l IH]; intros st Hwf; [done|].
  cbn [foldl]. apply IH. by apply lru_step_wf.
Qed.

(** Neither counter ever grows. *)
Lemma lru_step_mono st k e :
  (forall b, CacheEntry.contents e = Some b -> 0 <= ContentsBlob.size b) ->
  (step st (k, e)).1.1 <= st.1.1 /\ (step st (k, e)).1.2 <= st.1.2.
Proof.
  intros Hsize. destruct st as [[cs ec] d]. unfold lru_step.
  destruct (CacheEntry.contents e) as [b|];
    [specialize (Hsize b eq_refl); destruct (cs >? max_size)|];
    destruct (ec >? max_entries); simpl; lia.
Qed.

Lemma lru_foldl_mono l st :
  (forall k e b, (k, e) ∈ l -> CacheEntry.contents e = Some b ->
                 0 <= ContentsBlob.size b) ->
  (foldl step st l).1.1 <= st.1.1 /\ (foldl step st l).1.2 <= st.1.2.
Proof.
  revert st. induction l as [|[k e] l IH]; intros st Hsize; [simpl; lia|].
  cbn [foldl].
  destruct (IH (step st (k, e))) as [H1 H2].
  { intros k' e' b Hin. apply (Hsize k' e' b). by right. }
  destruct (lru_step_mono st k e) as [H3 H4].
  { intros b. apply (Hsize k e b). left. }
  lia.
Qed.

Lemma contents_total_cons e l :
  contents_total (e :: l)
  = match CacheEntry.contents e with
    | Some b => ContentsBlob.size b + contents_total l
    | None => contents_total l
    end.
Proof. reflexivity. Qed.

Lemma blob_sizes_nonneg_cons k e d :
  blob_sizes_nonneg ((k, e) :: d) ->
  (forall b, CacheEntry.contents e = Some b -> 0 <= ContentsBlob.size b)
  /\ blob_sizes_nonneg d.
Proof.
  intros H. split.
  - intros b. apply (H k e b). left.
  - intros k' e' b Hin. apply (H k' e' b). by right.
Qed.

Lemma contents_total_nonneg d :
  blob_sizes_nonneg d -> 0 <= contents_total (dict_values d).
Proof.
  induction d as [|[k e] d IH]; intros H; [simpl; lia|].
  apply blob_sizes_nonneg_cons in H as [He Hd].
  rewrite dict_values_cons, contents_total_cons. specialize (IH Hd).
  destruct (CacheEntry.contents e) as [b|]; [specialize (He b eq_refl)|]; lia.
Qed.

Lemma contents_total_clear k d e b :
  dict_get k d = Some e -> CacheEntry.contents e = Some b ->
  contents_total (dict_values (dict_alter (CacheEntry.set_contents None) k d))
  = contents_total (dict_values d) - ContentsBlob.size b.
Proof.
  induction d as [|[k0 v0] d IH]; cbn [dict_get dict_alter]; [done|].
  destruct (String.eqb_spec k k0) as [->|Hk].
  - intros [= ->] Hb. rewrite !dict_values_cons, !contents_total_cons.
    simpl. rewrite Hb. lia.
  - intros Hd Hb. rewrite !dict_values_cons, !contents_total_cons.
    rewrite IH by done. destruct (CacheEntry.contents v0); lia.
Qed.

Lemma contents_total_del_le k d :
  blob_sizes_nonneg d ->
  contents_total (dict_values (dict_del k d)) <= contents_total (dict_values d).
Proof.
  induction d as [|[k0 v0] d IH]; cbn [dict_del]; intros H; [lia|].
  apply blob_sizes_nonneg_cons in H as [He Hd].
  destruct (String.eqb k k0).
  - rewrite dict_values_cons, contents_total_cons.
    pose proof (contents_total_nonneg d Hd).
    destruct (CacheEntry.contents v0) as [b|]; [specialize (He b eq_refl)|]; lia.
  - rewrite !dict_values_cons, !contents_total_cons. specialize (IH Hd).
    destruct (CacheEntry.contents v0); lia.
Qed.

Lemma contents_total_none d :
  (forall k e, (k, e) ∈ d -> CacheEntry.contents e = None) ->
  contents_total (dict_values d) = 0.
Proof.
  induction d as [|[k e] d IH]; intros H; [done|].
  rewrite dict_values_cons, contents_total_cons.
  rewrite (H k e) by left. apply IH. intros k' e' Hin. apply (H k' e'). by right.
Qed.

Lemma dict_del_elem {V} k (d : PyDict V) x : x ∈ dict_del k d -> x ∈ d.
Proof.
  induction d as [|[k0 v0] d IH]; cbn [dict_del]; [done|].
  destruct (String.eqb k k0); [by right|].
  rewrite !elem_of_cons. intros [->|Hx]; [by left|right; by apply IH].
Qed.

Lemma blob_sizes_nonneg_del k d :
  blob_sizes_nonneg d -> blob_sizes_nonneg (dict_del k d).
Proof.
  intros H k' e' b Hin. apply (H k' e' b). by apply (dict_del_elem k).
Qed.

Lemma blob_sizes_nonneg_clear k d :
  blob_sizes_nonneg d ->
  blob_sizes_nonneg (dict_alter (CacheEntry.set_contents None) k d).
Proof.
  induction d as [|[k0 v0] d IH]; cbn [dict_alter]; [done|]. intros H.
  apply blob_sizes_nonneg_cons in H as [He Hd].
  destruct (String.eqb k k0); intros k' e' b; rewrite elem_of_cons.
  - intros [[= -> ->]|Hin]; [done|]. by apply (Hd k' e' b).
  - intros [[= -> ->]|Hin]; [apply He|]. by apply (IH Hd k' e' b).
Qed.

(** The first half of an iteration: the contents of the entry. *)
Lemma lru_step_contents cs ec d k e :
  dict_wf d -> dict_get k d = Some e -> blob_sizes_nonneg d ->
  contents_total (dict_values d) <= cs ->
  exists cs1 d1,
    step (cs, ec, d) (k, e)
    = (if ec >? max_entries then (cs1, ec - 1, dict_del k d1) else (cs1, ec, d1))
    /\ dict_wf d1
    /\ (forall k', k <> k' -> dict_get k' d1 = dict_get k' d)
    /\ length d1 = length d
    /\ contents_total (dict_values d1) <= cs1
    /\ cs1 <= cs
    /\ (exists e1, dict_get k d1 = Some e1
                   /\ (max_size < cs1 -> CacheEntry.contents e1 = None))
    /\ blob_sizes_nonneg d1.
Proof.
  intros Hwf Hk Hsz Htot. unfold lru_step.
  destruct (CacheEntry.contents e) as [b|] eqn:Hb;
    [destruct (Z.gtb_spec cs max_size) as [Hover|Hunder]|].
  - exists (cs - ContentsBlob.size b),
           (dict_alter (CacheEntry.set_contents None) k d).
    assert (0 <= ContentsBlob.size b).
    { apply (Hsz k e b); [by apply dict_get_Some_elem|done]. }
    split; [by destruct (ec >? max_entries)|].
    split; [by apply dict_wf_alter|].
    split; [intros k' Hne; by apply dict_get_alter_ne|].
    split; [apply dict_length_alter|].
    split; [rewrite (contents_total_clear k d e b) by done; lia|].
    split; [lia|].
    split; [|by apply blob_sizes_nonneg_clear].
    eexists. rewrite dict_get_alter_eq, Hk. split; [reflexivity|done].
  - exists cs, d.
    split; [by destruct (ec >? max_entries)|].
    repeat (split; [done || lia|]).
    split; [|done]. exists e. split; [done|lia].
  - exists cs, d.
    split; [by destruct (ec >? max_entries)|].
    repeat (split; [done || lia|]).
    split; [|done]. exists e. split; [done|done].
Qed.

Lemma lru_invariant_step k e todo st :
  lru_invariant max_entries max_size ((k, e) :: todo) st ->
  lru_invariant max_entries max_size todo (step st (k, e)).
Proof.
  destruct st as [[cs ec] d]. unfold lru_invariant. cbn [fst snd].
  intros (Hwf & Hnd & Hget & Hec & Hbound & Htot & Hover & Hsz).
  assert (dict_get k d = Some e) as Hk by (apply Hget; left).
  rewrite fmap_cons in Hnd. apply NoDup_cons in Hnd as [Hk_todo Hnd].
  cbn [fst] in Hk_todo.
  destruct (lru_step_contents cs ec d k e Hwf Hk Hsz Htot)
    as (cs1 & d1 & -> & Hwf1 & Hother & Hlen & Htot1 & Hcs1 & (e1 & Hk1 & Hnone1) & Hsz1).
  assert (forall k' e', (k', e') ∈ todo -> k <> k') as Hfresh.
  { intros k' e' Hin ->. apply Hk_todo. apply list_elem_of_fmap. by exists (k', e'). }
  assert (forall k0 e0, dict_get k0 d1 = Some e0 -> k0 ∉ todo.*1 ->
                        max_size < cs1 -> CacheEntry.contents e0 = None) as Hover1.
  { intros k0 e0 Hk0 Hnot Hlt. destruct (decide (k = k0)) as [<-|Hne].
    - rewrite Hk1 in Hk0. injection Hk0 as <-. by apply Hnone1.
    - rewrite Hother in Hk0 by done. apply (Hover ltac:(lia) k0 e0 Hk0).
      rewrite fmap_cons, not_elem_of_cons. cbn [fst]. split; [congruence|done]. }
  rewrite length_cons in Hbound.
  destruct (Z.gtb_spec ec max_entries) as [Hmany|Hfew]; cbn [fst snd].
  - split; [by apply dict_wf_del|]. split; [done|].
    split. { intros k' e' Hin. rewrite dict_get_del_ne by eauto.
             rewrite Hother by eauto. apply Hget. by right. }
    split. { pose proof (dict_length_del k d1 ltac:(by rewrite Hk1)). lia. }
    split; [lia|].
    split. { pose proof (contents_total_del_le k d1 Hsz1). lia. }
    split; [|by apply blob_sizes_nonneg_del].
    intros Hlt k0 e0 Hk0 Hnot. apply (Hover1 k0 e0); [|done|done].
    destruct (decide (k = k0)) as [<-|Hne].
    + by rewrite dict_get_del_eq in Hk0.
    + by rewrite dict_get_del_ne in Hk0.
  - split; [done|]. split; [done|].
    split. { intros k' e' Hin. rewrite Hother by eauto. apply Hget. by right. }
    split; [lia|]. split; [lia|]. split; [done|]. split; [|done].
    intros Hlt k0 e0 Hk0 Hnot. by apply (Hover1 k0 e0).
Qed.

Lemma lru_invariant_foldl l todo st :
  lru_invariant max_entries max_size (l ++ todo) st ->
  lru_invariant max_entries max_size todo (foldl step st l).
Proof.
  revert st. induction l as [|[k e] l IH]; intros st Hinv; [done|].
  cbn [foldl]. apply IH. by apply lru_invariant_step.
Qed.

Lemma oldest_entries_perm d : oldest_entries d ≡ₚ d.
Proof. apply sort_by_perm. Qed.

Lemma contents_total_perm (l l' : list CacheEntry.t) :
  l ≡ₚ l' -> contents_total l = contents_total l'.
Proof.
  induction 1 as [|e l l' _ IH|e e' l|l l' l'' _ IH1 _ IH2];
    rewrite ?contents_total_cons; try done.
  - by rewrite IH.
  - destruct (CacheEntry.contents e), (CacheEntry.contents e'); lia.
  - by rewrite IH1.
Qed.

Lemma lru_start_eq d :
  lru_start d = (contents_total (dict_values d), Z.of_nat (length d), d).
Proof.
  unfold lru_start.
  rewrite (Permutation_length (oldest_entries_perm d)).
  rewrite (contents_total_perm (dict_values (oldest_entries d)) (dict_values d));
    [done|].
  unfold dict_values. by rewrite (oldest_entries_perm d).
Qed.

Lemma lru_invariant_init d :
  dict_wf d -> blob_sizes_nonneg d ->
  lru_invariant max_entries max_size (oldest_entries d)
    (contents_total (dict_values d), Z.of_nat (length d), d).
Proof.
  intros Hwf Hsz. unfold lru_invariant. cbn [fst snd].
  split; [done|].
  split. { unfold dict_wf, dict_keys in Hwf. by rewrite oldest_entries_perm. }
  split. { intros k e Hin. apply dict_get_elem; [done|].
           by rewrite <- (oldest_entries_perm d). }
  split; [done|].
  split. { rewrite (Permutation_length (oldest_entries_perm d)). lia. }
  split; [lia|]. split; [|done].
  intros _ k e Hk Hnot. exfalso. apply Hnot.
  rewrite (oldest_entries_perm d). apply dict_get_is_Some_keys. by rewrite Hk.
Qed.

(** The limits hold when the loop is over. *)
Lemma lru_cleanup_limits d :
  0 <= max_entries -> 0 <= max_size ->
  dict_wf d -> blob_sizes_nonneg d ->
  Z.of_nat (length (lru_cleanup_entries max_entries max_size d)) <= max_entries
  /\ contents_total (dict_values (lru_cleanup_entries max_entries max_size d))
     <= max_size.
Proof.
  intros Hme Hms Hwf Hsz. unfold lru_cleanup_entries, lru_loop.
  rewrite lru_start_eq.
  pose proof (lru_invariant_foldl (oldest_entries d) []
                (contents_total (dict_values d), Z.of_nat (length d), d)) as Hinv.
  rewrite app_nil_r in Hinv. specialize (Hinv (lru_invariant_init d Hwf Hsz)).
  destruct (foldl step _ (oldest_entries d)) as [[cs ec] d'].
  destruct Hinv as (Hwf' & _ & _ & Hec & Hbound & Htot & Hover & _).
  cbn [fst snd length] in *. split; [lia|].
  destruct (Z_lt_le_dec max_size cs) as [Hlt|Hle]; [|lia].
  rewrite contents_total_none; [done|].
  intros k e Hin. apply (Hover Hlt k e); [by apply dict_get_elem|].
  apply not_elem_of_nil.
Qed.

(** What is stored under the key of an item once the loop has passed it. *)
Lemma lru_loop_at d l1 k e l2 :
  dict_wf d -> dict_get k d = Some e -> NoDup (l1 ++ (k, e) :: l2).*1 ->
  dict_get k (lru_loop max_entries max_size d (l1 ++ (k, e) :: l2)).2
  = after_lru_step max_entries max_size
      (lru_loop max_entries max_size d l1).1.1
      (lru_loop max_entries max_size d l1).1.2 e.
Proof.
  intros Hwf Hk Hnd. unfold lru_loop. rewrite lru_start_eq.
  rewrite fmap_app, fmap_cons in Hnd. cbn [fst] in Hnd.
  apply NoDup_app in Hnd as (_ & Hl1 & Hnd).
  apply NoDup_cons in Hnd as [Hl2 _].
  assert (k ∉ l1.*1) as Hk1.
  { intros Hin. apply (Hl1 k Hin). left. }
  rewrite foldl_app. cbn [foldl].
  rewrite lru_foldl_other by done.
  apply lru_step_at.
  - by apply lru_foldl_wf.
  - by rewrite lru_foldl_other.
Qed.

Lemma lru_loop_untouched d l k :
  k ∉ l.*1 -> dict_get k (lru_loop max_entries max_size d l).2 = dict_get k d.
Proof.
  intros Hk. unfold lru_loop. rewrite lru_start_eq. by rewrite lru_foldl_other.
Qed.

Lemma lru_loop_mono d l1 l2 :
  (forall k e b, (k, e) ∈ l2 -> CacheEntry.contents e = Some b ->
                 0 <= ContentsBlob.size b) ->
  (lru_loop max_entries max_size d (l1 ++ l2)).1.1
  <= (lru_loop max_entries max_size d l1).1.1
  /\ (lru_loop max_entries max_size d (l1 ++ l2)).1.2
     <= (lru_loop max_entries max_size d l1).1.2.
Proof.
  intros Hsz. unfold lru_loop. rewrite foldl_app. by apply lru_foldl_mono.
Qed.

Lemma lru_eviction_order d :
  dict_wf d -> blob_sizes_nonneg d ->
  evicted_in_lru_order max_entries max_size d.
Proof.
  intros Hwf Hsz processed rest Hsorted now k1 e1 k2 e2 Hin1 Hin2 Hlt.
  pose proof (sort_by_sorted (fun item : string * CacheEntry.t =>
                                CacheEntry.last_access item.2) d) as Hss.
  fold (oldest_entries d) in Hss. rewrite Hsorted in Hss.
  assert (processed ++ rest ≡ₚ d) as Hperm.
  { rewrite <- Hsorted. apply oldest_entries_perm. }
  assert (NoDup processed.*1) as Hnd.
  { assert (NoDup (processed ++ rest).*1) as Hall.
    { rewrite Hperm. exact Hwf. }
    rewrite fmap_app in Hall. by apply NoDup_app in Hall as (? & _ & _). }
  pose proof (dict_get_elem _ _ _ Hwf Hin1) as Hget1.
  pose proof (dict_get_elem _ _ _ Hwf Hin2) as Hget2.
  destruct (decide (k2 ∈ processed.*1)) as [Hk2|Hk2]; cycle 1.
  { subst now. rewrite (lru_loop_untouched d processed k2 Hk2).
    unfold has_no_contents.
    rewrite (lru_loop_untouched d processed k2 Hk2), Hget2. simpl.
    split; [done|]. intros Hset Hnone. rewrite Hnone in Hset. done. }
  apply list_elem_of_fmap in Hk2 as ([k2' e2'] & Heq & Hin2').
  cbn [fst] in Heq. subst k2'.
  assert (e2' = e2) as ->.
  { assert ((k2, e2') ∈ d) as Hd.
    { rewrite <- Hperm. apply elem_of_app. by left. }
    apply (dict_get_elem _ _ _ Hwf) in Hd. congruence. }
  assert ((k1, e1) ∈ processed) as Hin1'.
  { eapply (sorted_prefix_closed _ processed rest (k1, e1) (k2, e2));
      [exact Hss|by rewrite Hperm|done|done]. }
  destruct (sorted_split
              (fun item : string * CacheEntry.t => CacheEntry.last_access item.2)
              processed (k1, e1) (k2, e2)) as (l1 & l2 & l3 & ->);
    [by eapply StronglySorted_app_1_l|done|done|done|].
  assert (forall k e b, (k, e) ∈ (k1, e1) :: l2 ->
                        CacheEntry.contents e = Some b ->
                        0 <= ContentsBlob.size b) as Hsz2.
  { intros k e b Hin. apply (Hsz k e b). rewrite <- Hperm.
    apply elem_of_app. left. apply elem_of_app. right.
    apply elem_of_cons in Hin as [->|Hin]; [left|right].
    apply elem_of_app. by left. }
  destruct (lru_loop_mono d l1 ((k1, e1) :: l2) Hsz2) as [Hcs Hec].
  assert (dict_get k1 now
          = after_lru_step max_entries max_size
              (lru_loop max_entries max_size d l1).1.1
              (lru_loop max_entries max_size d l1).1.2 e1) as Hnow1.
  { subst now. by apply lru_loop_at. }
  assert (dict_get k2 now
          = after_lru_step max_entries max_size
              (lru_loop max_entries max_size d (l1 ++ (k1, e1) :: l2)).1.1
              (lru_loop max_entries max_size d (l1 ++ (k1, e1) :: l2)).1.2 e2)
    as Hnow2.
  { subst now.
    replace (l1 ++ (k1, e1) :: l2 ++ (k2, e2) :: l3)
      with ((l1 ++ (k1, e1) :: l2) ++ (k2, e2) :: l3) in *
      by (by rewrite <- app_assoc).
    by apply lru_loop_at. }
  unfold has_no_contents. rewrite Hnow1, Hnow2. unfold after_lru_step.
  destruct (Z.gtb_spec (lru_loop max_entries max_size d (l1 ++ (k1, e1) :: l2)).1.2
                       max_entries) as [Hmany2|Hfew2].
  - destruct (Z.gtb_spec (lru_loop max_entries max_size d l1).1.2 max_entries);
      [done|lia].
  - split; [done|]. intros Hset.
    destruct (CacheEntry.contents e2) as [b2|] eqn:Hb2; [|done].
    destruct (Z.gtb_spec (lru_loop max_entries max_size d (l1 ++ (k1, e1) :: l2)).1.1
                         max_size) as [Hover2|Hunder2]; simpl;
      [|by rewrite Hb2].
    intros _.
    destruct (Z.gtb_spec (lru_loop max_entries max_size d l1).1.2 max_entries);
      [done|]. simpl.
    destruct (CacheEntry.contents e1) as [b1|] eqn:Hb1; [|done].
    destruct (Z.gtb_spec (lru_loop max_entries max_size d l1).1.1 max_size);
      [done|lia].
Qed.

End lru_facts.

(* ===================================================================== *)
(** * [RemoteCache.save] *)
(* ===================================================================== *)

Section save_facts.
Import RemoteCache.
Variable self : RemoteCache.t.

Lemma references_dec storage entries :
  Exists (references storage) entries \/ ~ Exists (references storage) entries.
Proof.
  induction entries as [|e l [IH|IH]].
  - right. by intros ?%Exists_nil.
  - left. by right.
  - destruct (CacheEntry.contents e) as [b|] eqn:Hb.
    + destruct (decide (ContentsBlob.storage b = storage)) as [Heq|Hne].
      * left. left. by exists b.
      * right. intros [(b' & Hb' & Hs)|?]%Exists_cons; [|done]. congruence.
    + right. intros [(b' & Hb' & Hs)|?]%Exists_cons; [|done]. congruence.
Qed.

Lemma os_remove_all dir paths fn :
  fn ∈ foldr (os_remove self) dir paths
  <-> fn ∈ dir /\ posixpath.join (_cache_contents_path self) fn ∉ paths.
Proof.
  induction paths as [|p paths IH]; cbn [foldr].
  - split; [intros H; split; [done|apply not_elem_of_nil]|by intros [? _]].
  - unfold os_remove at 1. rewrite elem_of_filter, IH, not_elem_of_cons. tauto.
Qed.

Lemma unreferenced_spec dir entries p :
  p ∈ unreferenced self dir entries
  <-> p ∈ (set_map (posixpath.join (_cache_contents_path self)) dir : gset string)
      /\ ~ Exists (references p) (dict_values entries).
Proof.
  unfold unreferenced.
  generalize (set_map (posixpath.join (_cache_contents_path self)) dir : gset string).
  induction (dict_values entries) as [|e l IH]; intros acc; cbn [foldl].
  - rewrite Exists_nil. tauto.
  - rewrite IH, Exists_cons. unfold references at 2.
    destruct (CacheEntry.contents e) as [b|].
    + rewrite elem_of_difference, elem_of_singleton. split.
      * intros [[Hacc Hne] Hl]. split; [done|].
        intros [(b' & [= <-] & Hs)|?]; [congruence|done].
      * intros [Hacc Hno]. split; [split; [done|]|tauto].
        intros ->. apply Hno. left. by exists b.
    + split.
      * intros [Hacc Hl]. split; [done|]. intros [(b' & ? & _)|?]; done.
      * intros [Hacc Hno]. split; [done|tauto].
Qed.

(** The files that survive the garbage collection are the referenced
    ones. *)
Lemma garbage_collected dir entries fn :
  fn ∈ foldr (os_remove self) dir (elements (unreferenced self dir entries))
  <-> fn ∈ dir
      /\ Exists (references (posixpath.join (_cache_contents_path self) fn))
                (dict_values entries).
Proof.
  rewrite os_remove_all, elem_of_elements, unreferenced_spec, elem_of_map.
  split.
  - intros [Hfn Hno]. split; [done|].
    destruct (references_dec (posixpath.join (_cache_contents_path self) fn)
                             (dict_values entries)) as [?|Hnot]; [done|].
    exfalso. apply Hno. split; [by exists fn|done].
  - intros [Hfn Href]. split; [done|]. intros [_ Hnot]. done.
Qed.

(** What [save] leaves behind. *)
Lemma save_run merge_disk_cache s :
  let entries :=
    lru_cleanup_entries (_max_entries self) (_max_size self)
                        (entries_before_lru merge_disk_cache s) in
  let dir :=
    foldr (os_remove self) (contents_dir (world s))
          (elements (unreferenced self (contents_dir (world s)) entries)) in
  save self merge_disk_cache s
  = (Ok tt,
     MkState entries
             (set_index_file (IndexOk entries) (set_contents_dir dir (world s)))).
Proof.
  unfold save, entries_before_lru, _lru_cleanup, _garbage_collect_blobs,
    _read_disk_entries.
  destruct merge_disk_cache; unfold_m; [|reflexivity].
  destruct (index_file (world s)); reflexivity.
Qed.

Lemma merge_disk_entries_wf disk entries :
  dict_wf entries -> dict_wf (merge_disk_entries disk entries).
Proof.
  unfold merge_disk_entries. revert entries.
  induction disk as [|[k e] disk IH]; intros entries Hwf; [done|].
  cbn [foldl]. apply IH.
  destruct (CacheEntry.newer_than e (dict_get k entries)); [|done].
  by apply dict_wf_set.
Qed.

Lemma entries_before_lru_wf merge_disk_cache s :
  dict_wf (_entries s) -> dict_wf (entries_before_lru merge_disk_cache s).
Proof.
  unfold entries_before_lru. destruct merge_disk_cache; [|done].
  apply merge_disk_entries_wf.
Qed.

(** C1: when the two limits are not negative, [save] leaves at most
    [max_entries] entries whose blobs take at most [max_size] bytes, and at
    every point of the LRU pass an entry was deleted, or stripped of its
    contents, only after every entry with a smaller [last_access]. *)
Theorem save_enforces_limits merge_disk_cache s :
  0 <= _max_entries self -> 0 <= _max_size self ->
  dict_wf (_entries s) ->
  blob_sizes_nonneg (entries_before_lru merge_disk_cache s) ->
  exists s',
    save self merge_disk_cache s = (Ok tt, s')
    /\ count s' <= _max_entries self
    /\ size s' <= _max_size self
    /\ index_file (world s') = IndexOk (_entries s')
    /\ _entries s'
       = lru_cleanup_entries (_max_entries self) (_max_size self)
                             (entries_before_lru merge_disk_cache s)
    /\ evicted_in_lru_order (_max_entries self) (_max_size self)
                            (entries_before_lru merge_disk_cache s).
Proof.
  intros Hme Hms Hwf Hsz. eexists. split; [apply save_run|].
  pose proof (entries_before_lru_wf merge_disk_cache s Hwf) as Hwf'.
  destruct (lru_cleanup_limits (_max_entries self) (_max_size self)
              (entries_before_lru merge_disk_cache s) Hme Hms Hwf' Hsz)
    as [Hcount Hsize].
  unfold count, size. cbn [_entries world].
  split; [done|]. split; [done|]. split; [reflexivity|]. split; [reflexivity|].
  by apply lru_eviction_order.
Qed.

(** C3, as the code has it: after [save] every file of the contents
    directory is referenced by an entry of the index, and a blob that an
    entry of the index references is on disk exactly when it was before:
    [save] removes no referenced file and restores none. *)
Theorem save_collects_orphans merge_disk_cache s :
  exists s',
    save self merge_disk_cache s = (Ok tt, s')
    /\ index_file (world s') = IndexOk (_entries s')
    /\ (forall fn, fn ∈ contents_dir (world s') ->
          exists key entry,
            (key, entry) ∈ _entries s'
            /\ references (posixpath.join (_cache_contents_path self) fn) entry)
    /\ (forall key entry blob,
          (key, entry) ∈ _entries s' ->
          CacheEntry.contents entry = Some blob ->
          blob_exists self (contents_dir (world s')) (ContentsBlob.storage blob)
          = blob_exists self (contents_dir (world s)) (ContentsBlob.storage blob)).
Proof.
  eexists. split; [apply save_run|]. cbn [_entries world].
  split; [reflexivity|]. split.
  - intros fn Hfn. simpl in Hfn. apply garbage_collected in Hfn as [_ Href].
    apply Exists_exists in Href as (entry & Hin & Href).
    apply list_elem_of_fmap in Hin as ([key entry'] & -> & Hin).
    by exists key, entry'.
  - intros key entry blob Hin Hblob. simpl.
    unfold blob_exists. apply bool_decide_ext. split.
    + intros (fn & Hfn & Hjoin). exists fn. split; [|done].
      by apply garbage_collected in Hfn as [? _].
    + intros (fn & Hfn & Hjoin). exists fn. split; [|done].
      apply garbage_collected. split; [done|].
      apply Exists_exists. exists entry. split.
      * apply list_elem_of_fmap. by exists (key, entry).
      * exists blob. by rewrite Hjoin.
Qed.

End save_facts.

Lemma save_enforces_limits_witness :
  exists s',
    RemoteCache.save Sample.cache true
      (MkState [Sample.entry "/a" 4 (Some (Sample.blob "a" 2));
                Sample.entry "/b" 2 (Some (Sample.blob "b" 2));
                Sample.entry "/c" 3 None;
                Sample.entry "/d" 1 None]
               Sample.quiet_world) = (Ok tt, s')
    /\ RemoteCache.count s' <= 3 /\ RemoteCache.size s' <= 3.
Proof.
  destruct (save_enforces_limits Sample.cache true
              (MkState [Sample.entry "/a" 4 (Some (Sample.blob "a" 2));
                        Sample.entry "/b" 2 (Some (Sample.blob "b" 2));
                        Sample.entry "/c" 3 None;
                        Sample.entry "/d" 1 None]
                       Sample.quiet_world))
    as (s' & Hrun & Hcount & Hsize & _).
  - simpl. lia.
  - simpl. lia.
  - unfold dict_wf. apply (bool_decide_unpack _). vm_compute. exact I.
  - intros key entry blob Hin Hblob. simpl in Hin.
    repeat (apply elem_of_cons in Hin as [[= -> ->]|Hin];
            [simpl in Hblob; simplify_eq; simpl; lia|]).
    by apply elem_of_nil in Hin.
  - exists s'. done.
Defined.

(** C3 as stated fails: an entry whose blob file is gone survives [save]
    with its reference, and the file is still not there. *)
Lemma save_keeps_dangling_reference :
  exists s',
    RemoteCache.save Sample.cache true
      (MkState [Sample.entry "/usr/bin/env" 7 (Some (Sample.blob "gone" 3))]
               Sample.quiet_world) = (Ok tt, s')
    /\ index_file (world s')
       = IndexOk [Sample.entry "/usr/bin/env" 7 (Some (Sample.blob "gone" 3))]
    /\ RemoteCache.blob_exists Sample.cache (contents_dir (world s'))
         "/cache/contents/gone" = false.
Proof.
  eexists. split; [apply save_run|]. split; reflexivity.
Qed.

(* ===================================================================== *)
(** * Cacheable paths *)
(* ===================================================================== *)

Section path_facts.
Import posixpath.

Example usr_lib_under_usr : under_any "/usr/lib" ["/etc"; "/usr"] = Ok true.
Proof. reflexivity. Qed.

Example usr2_not_under_usr : under_any "/usr2" ["/etc"; "/usr"] = Ok false.
Proof. reflexivity. Qed.

Example everything_under_root : under_any "/usr2" ["/"] = Ok true.
Proof. reflexivity. Qed.

Lemma append_cons (c : Ascii.ascii) (a b : string) :
  String c a +:+ b = String c (a +:+ b).
Proof. reflexivity. Qed.

Lemma append_nil_l (b : string) : "" +:+ b = b.
Proof. reflexivity. Qed.

Lemma append_nil_r (s : string) : s +:+ "" = s.
Proof.
  induction s as [|c s IH]; [done|]. by rewrite append_cons, IH.
Qed.

Lemma append_assoc (a b c : string) : (a +:+ b) +:+ c = a +:+ (b +:+ c).
Proof.
  induction a as [|x a IH]; [done|]. by rewrite !append_cons, IH.
Qed.

Lemma split_nonempty (s : string) : exists w ws, split s = w :: ws.
Proof.
  induction s as [|c s (w & ws & IH)]; simpl; [by eexists _, _|].
  destruct (Ascii.eqb c sep); [by eexists _, _|].
  rewrite IH. by eexists _, _.
Qed.

(** [(a + "/" + b).split("/") == a.split("/") + b.split("/")] *)
Lemma split_app (a b : string) :
  split (a +:+ String sep b) = split a ++ split b.
Proof.
  induction a as [|c a IH].
  - rewrite append_nil_l. reflexivity.
  - rewrite append_cons. simpl.
    destruct (Ascii.eqb c sep); [by rewrite IH|].
    rewrite IH. destruct (split_nonempty a) as (w & ws & ->). done.
Qed.

Lemma split_sep_free (c : string) : has_sep c = false -> split c = [c].
Proof.
  induction c as [|x c IH]; simpl; [done|].
  intros [Hx Hc]%orb_false_iff. rewrite Hx, (IH Hc). done.
Qed.

Lemma components_app (a b : string) :
  components (a +:+ String sep b) = components a ++ components b.
Proof. unfold components. by rewrite split_app, filter_app. Qed.

Lemma components_proper (c : string) : proper_component c -> components c = [c].
Proof.
  intros (Hne & Hdot & Hsep). unfold components. rewrite (split_sep_free c Hsep).
  apply String.eqb_neq in Hne, Hdot.
  cbn [filter list_filter]. rewrite decide_True; [done|].
  rewrite Hne, Hdot. done.
Qed.

Lemma components_empty : components "" = [].
Proof. reflexivity. Qed.

Lemma components_join (cs : list string) :
  Forall proper_component cs -> components (join_sep cs) = cs.
Proof.
  induction 1 as [|c cs Hc Hcs IH]; [done|].
  destruct cs as [|c' cs]; [by apply components_proper|].
  change (join_sep (c :: c' :: cs)) with (c +:+ String sep (join_sep (c' :: cs))).
  by rewrite components_app, IH, components_proper.
Qed.

Lemma components_normal (cs : list string) :
  Forall proper_component cs -> components ("/" +:+ join_sep cs) = cs.
Proof.
  intros Hcs.
  change ("/" +:+ join_sep cs) with ("" +:+ String sep (join_sep cs)).
  by rewrite components_app, components_empty, components_join.
Qed.

Lemma common_prefix_Forall (P : string -> Prop) (a b : list string) :
  Forall P a -> Forall P (common_prefix a b).
Proof.
  revert b. induction a as [|x a IH]; intros [|y b] Ha; simpl; try done.
  apply Forall_cons in Ha as [Hx Ha].
  destruct (String.eqb x y); [|done]. constructor; [done|by apply IH].
Qed.

Lemma common_prefix_is_second (a b : list string) :
  common_prefix a b = b <-> exists r, a = b ++ r.
Proof.
  revert b. induction a as [|x a IH]; intros [|y b]; simpl.
  - split; [by exists []|done].
  - split; [done|]. intros (r & Hr). done.
  - split; [by eexists|done].
  - destruct (String.eqb_spec x y) as [->|Hne].
    + split.
      * intros [= Heq]. apply IH in Heq as (r & ->). by exists r.
      * intros (r & [= ->]). f_equal. apply IH. by exists r.
    + split; [done|]. intros (r & [= ? _]). done.
Qed.

(** [commonpath] on two absolute paths in normal form. *)
Lemma commonpath_normal (pc qc : list string) :
  Forall proper_component pc -> Forall proper_component qc ->
  commonpath ["/" +:+ join_sep pc; "/" +:+ join_sep qc]
  = Ok ("/" +:+ join_sep (common_prefix pc qc)).
Proof.
  intros Hp Hq. unfold commonpath. cbn [forallb foldl].
  assert (forall s, startswith_sep ("/" +:+ s) = true) as Habs by done.
  rewrite !Habs. cbn [Bool.eqb andb].
  by rewrite !components_normal.
Qed.

Lemma join_sep_inj (a b : list string) :
  Forall proper_component a -> Forall proper_component b ->
  "/" +:+ join_sep a = "/" +:+ join_sep b -> a = b.
Proof.
  intros Ha Hb Heq.
  rewrite <- (components_normal a Ha), <- (components_normal b Hb).
  by rewrite Heq.
Qed.

Lemma under_one_normal (pc qc : list string) :
  Forall proper_component pc -> Forall proper_component qc ->
  exists c,
    commonpath ["/" +:+ join_sep pc; "/" +:+ join_sep qc] = Ok c
    /\ (String.eqb c ("/" +:+ join_sep qc) = true <-> exists r, pc = qc ++ r).
Proof.
  intros Hp Hq. eexists. split; [by apply commonpath_normal|].
  rewrite String.eqb_eq, <- common_prefix_is_second. split.
  - apply join_sep_inj; [by apply common_prefix_Forall|done].
  - by intros ->.
Qed.

Lemma join_sep_cons (c c' : string) (cs : list string) :
  join_sep (c :: c' :: cs) = c +:+ String sep (join_sep (c' :: cs)).
Proof. reflexivity. Qed.

Lemma join_sep_app (a b : list string) :
  a <> [] -> b <> [] ->
  join_sep (a ++ b) = join_sep a +:+ String sep (join_sep b).
Proof.
  intros Ha Hb. induction a as [|x a IH]; [done|].
  destruct a as [|y a].
  - destruct b as [|z b]; [done|]. reflexivity.
  - change ((x :: y :: a) ++ b) with (x :: y :: (a ++ b)).
    rewrite !join_sep_cons.
    change (y :: a ++ b) with ((y :: a) ++ b). rewrite IH by done.
    by rewrite append_assoc.
Qed.

Lemma join_sep_nonempty (c : string) (cs : list string) :
  c <> "" -> join_sep (c :: cs) <> "".
Proof.
  intros Hc. destruct cs as [|c' cs]; [done|]. rewrite join_sep_cons.
  destruct c; [done|]. rewrite append_cons. done.
Qed.

Lemma endswith_sep_cons (c : Ascii.ascii) (s : string) :
  s <> "" -> endswith_sep (String c s) = endswith_sep s.
Proof. destruct s; [done|]. reflexivity. Qed.

Lemma endswith_sep_app (a b : string) :
  b <> "" -> endswith_sep (a +:+ b) = endswith_sep b.
Proof.
  intros Hb. induction a as [|c a IH]; [done|].
  rewrite append_cons, endswith_sep_cons; [done|].
  destruct a; [done|]. rewrite append_cons. done.
Qed.

Lemma endswith_sep_free (c : string) : has_sep c = false -> endswith_sep c = false.
Proof.
  induction c as [|x c IH]; [done|]. simpl.
  intros [Hx Hc]%orb_false_iff. destruct c; [done|]. by apply IH.
Qed.

Lemma endswith_sep_join (cs : list string) :
  Forall proper_component cs -> endswith_sep (join_sep cs) = false.
Proof.
  induction 1 as [|c cs Hc Hcs IH]; [done|].
  destruct cs as [|c' cs]; [apply endswith_sep_free, Hc|].
  rewrite join_sep_cons.
  apply Forall_cons in Hcs as Hcs'. destruct Hcs' as [(Hc' & _) _].
  rewrite endswith_sep_app by done.
  rewrite endswith_sep_cons by (by apply join_sep_nonempty). done.
Qed.

Lemma endswith_sep_normal (cs : list string) :
  Forall proper_component cs ->
  endswith_sep ("/" +:+ join_sep cs) = true -> cs = [].
Proof.
  intros Hcs. destruct cs as [|c cs]; [done|].
  apply Forall_cons in Hcs as Hcs'. destruct Hcs' as [(Hc & _) _].
  rewrite endswith_sep_app by (by apply join_sep_nonempty).
  by rewrite endswith_sep_join.
Qed.

(** On paths in normal form, a prefix at a component boundary is a prefix
    of the list of components. *)
Lemma prefix_at_boundary_normal (pc qc : list string) :
  Forall proper_component pc -> Forall proper_component qc ->
  prefix_at_boundary ("/" +:+ join_sep qc) ("/" +:+ join_sep pc)
  <-> exists r, pc = qc ++ r.
Proof.
  intros Hp Hq. split.
  - intros (rest & Heq & [->|[Hrest|Hend]]).
    + rewrite append_nil_r in Heq. exists [].
      rewrite app_nil_r. by apply join_sep_inj.
    + destruct rest as [|c rest']; [done|]. simpl in Hrest.
      apply Ascii.eqb_eq in Hrest as ->.
      exists (components rest').
      rewrite <- (components_normal pc Hp), Heq, components_app.
      by rewrite components_normal.
    + apply endswith_sep_normal in Hend as ->; [|done]. by exists pc.
  - intros (r & ->). destruct r as [|x r].
    + exists "". rewrite app_nil_r, append_nil_r. auto.
    + destruct qc as [|y qc].
      * exists (join_sep (x :: r)). split; [done|]. right. right. done.
      * exists (String sep (join_sep (x :: r))).
        rewrite join_sep_app by done. rewrite append_assoc.
        split; [done|]. right. left. done.
Qed.

Lemma under_any_normal (pc : list string) (qs : list string) :
  Forall proper_component pc -> Forall normal_absolute qs ->
  exists b,
    under_any ("/" +:+ join_sep pc) qs = Ok b
    /\ (b = true
        <-> Exists (fun q => prefix_at_boundary q ("/" +:+ join_sep pc)) qs).
Proof.
  intros Hp. induction 1 as [|q qs (qc & Hqc & ->) Hqs (b & IHrun & IHb)].
  - exists false. split; [done|]. rewrite Exists_nil. done.
  - cbn [under_any].
    destruct (under_one_normal pc qc Hp Hqc) as (c & -> & Hc).
    destruct (String.eqb c ("/" +:+ join_sep qc)) eqn:E.
    + exists true. split; [done|]. split; [|done]. intros _. left.
      apply prefix_at_boundary_normal; [done|done|]. by apply Hc.
    + exists b. split; [done|]. rewrite Exists_cons, IHb.
      split; [by right|]. intros [Hhere|?]; [|done].
      apply prefix_at_boundary_normal in Hhere; [|done|done].
      apply Hc in Hhere. congruence.
Qed.

(** C9, for paths in normal form: [is_cacheable] answers, and it answers
    true exactly when a configured path is a prefix of the path ending at a
    component boundary; the prefetch filter of the service, set to the same
    list, answers the same, and without a list it accepts every path. *)
Theorem is_cacheable_prefix_at_boundary (self : RemoteCache.t)
    (service : LocalCacheService.t) (p : string) :
  normal_absolute p ->
  Forall normal_absolute (RemoteCache._cacheable_paths self) ->
  (exists b,
     RemoteCache.is_cacheable self p = Ok b
     /\ (b = true
         <-> Exists (fun q => prefix_at_boundary q p)
                    (RemoteCache._cacheable_paths self)))
  /\ LocalCacheService._is_prefetchable
       (LocalCacheService.set_prefetchable_paths service
          (Some (RemoteCache._cacheable_paths self))) p
     = RemoteCache.is_cacheable self p
  /\ LocalCacheService._is_prefetchable
       (LocalCacheService.set_prefetchable_paths service None) p
     = Ok true.
Proof.
  intros (pc & Hpc & ->) Hqs. split; [|split; reflexivity].
  by apply under_any_normal.
Qed.

End path_facts.

Lemma is_cacheable_prefix_at_boundary_witness :
  RemoteCache.is_cacheable Sample.cache "/usr/lib" = Ok true
  /\ Exists (fun q => prefix_at_boundary q "/usr/lib")
            RemoteCache.DEFAULT_CACHEABLE_PATHS.
Proof.
  assert (forall c, c <> "" -> c <> "." -> has_sep c = false ->
                    normal_absolute ("/" +:+ c)) as Hone.
  { intros c H1 H2 H3. exists [c]. split; [|done]. repeat constructor; done. }
  destruct (is_cacheable_prefix_at_boundary Sample.cache Sample.service "/usr/lib")
    as [(b & Hrun & Hb) _].
  - exists ["usr"; "lib"]. split; [|reflexivity]. repeat constructor; done.
  - repeat (apply Forall_cons; split; [by apply Hone|]). apply Forall_nil. done.
  - vm_compute in Hrun. injection Hrun as <-. split; [reflexivity|by apply Hb].
Defined.

(** C9 as stated fails outside normal form: a configured path that ends
    with a slash is a prefix of [/usr/lib] at a component boundary and yet
    [is_cacheable] answers false; and a relative path makes it raise. *)
Lemma is_cacheable_outside_normal_form :
  prefix_at_boundary "/usr/" "/usr/lib"
  /\ RemoteCache.is_cacheable Sample.slash_cache "/usr/lib" = Ok false
  /\ RemoteCache.is_cacheable Sample.cache "usr/lib"
     = Raise (ValueError [PStr "Can't mix absolute and relative paths"]).
Proof.
  split; [|split; reflexivity].
  exists "lib". split; [reflexivity|]. right. right. reflexivity.
Qed.

(* ===================================================================== *)
(** * [RemoteCache.save]: the merge and the LRU pass in detail *)
(* ===================================================================== *)

Section merge_facts.
Import RemoteCache.

(** X1: merging the index on disk into the entries in memory resolves each
    key by [last_update]: the entry on disk wins when memory has none for
    the key or an older one, memory wins otherwise (ties included), and keys
    that are not on disk keep what memory had. *)
Theorem merge_disk_entries_lookup disk entries key :
  dict_wf disk ->
  dict_get key (merge_disk_entries disk entries)
  = match dict_get key disk with
    | Some disk_entry =>
        if CacheEntry.newer_than disk_entry (dict_get key entries)
        then Some disk_entry
        else dict_get key entries
    | None => dict_get key entries
    end.
Proof.
  unfold merge_disk_entries. revert entries.
  induction disk as [|[k0 d0] disk IH]; intros entries Hwf; [done|].
  apply dict_wf_cons in Hwf as [Hk0 Hwf]. cbn [foldl dict_get].
  rewrite (IH _ Hwf).
  destruct (String.eqb_spec key k0) as [->|Hne].
  - apply dict_get_None_keys in Hk0. rewrite Hk0.
    destruct (CacheEntry.newer_than d0 (dict_get k0 entries)); [|done].
    apply dict_get_set_eq.
  - assert (dict_get key
              (if CacheEntry.newer_than d0 (dict_get k0 entries)
               then dict_set k0 d0 entries else entries)
            = dict_get key entries) as ->; [|done].
    destruct (CacheEntry.newer_than d0 (dict_get k0 entries)); [|done].
    by apply dict_get_set_ne.
Qed.

End merge_facts.

Lemma merge_disk_entries_lookup_witness :
  dict_get "machine:/a"
    (RemoteCache.merge_disk_entries
       [("machine:/a", CacheEntry.Make "/a" Sample.file_meta 1 9 None);
        ("machine:/b", CacheEntry.Make "/b" Sample.file_meta 1 5 None)]
       [("machine:/b", CacheEntry.Make "/b" Sample.missing_meta 2 5 None)])
  = Some (CacheEntry.Make "/a" Sample.file_meta 1 9 None)
  /\ dict_get "machine:/b"
       (RemoteCache.merge_disk_entries
          [("machine:/a", CacheEntry.Make "/a" Sample.file_meta 1 9 None);
           ("machine:/b", CacheEntry.Make "/b" Sample.file_meta 1 5 None)]
          [("machine:/b", CacheEntry.Make "/b" Sample.missing_meta 2 5 None)])
     = Some (CacheEntry.Make "/b" Sample.missing_meta 2 5 None).
Proof.
  split.
  - rewrite merge_disk_entries_lookup; [reflexivity|].
    unfold dict_wf. apply (bool_decide_unpack _). vm_compute. exact I.
  - rewrite merge_disk_entries_lookup; [reflexivity|].
    unfold dict_wf. apply (bool_decide_unpack _). vm_compute. exact I.
Defined.

Section lru_more_facts.
Import RemoteCache.
Variables max_entries max_size : Z.
Local Abbreviation step := (lru_step max_entries max_size).
Implicit Types (st : Z * Z * PyDict CacheEntry.t) (d : PyDict CacheEntry.t).

Lemma lru_step_count_val st item :
  (step st item).1.2
  = if st.1.2 >? max_entries then st.1.2 - 1 else st.1.2.
Proof.
  destruct st as [[cs ec] d], item as [k e]. cbn [lru_step fst snd].
  destruct (CacheEntry.contents e) as [b|]; [destruct (cs >? max_size)|];
    by destruct (ec >? max_entries).
Qed.

Lemma lru_step_length st k e :
  is_Some (dict_get k st.2) ->
  st.1.2 = Z.of_nat (length st.2) ->
  (step st (k, e)).1.2 = Z.of_nat (length (step st (k, e)).2).
Proof.
  destruct st as [[cs ec] d]. cbn [fst snd]. intros Hk ->.
  assert (forall d', is_Some (dict_get k d') -> length d' = length d ->
            (if Z.of_nat (length d) >? max_entries
             then (cs, Z.of_nat (length d) - 1, dict_del k d')
             else (cs, Z.of_nat (length d), d')).1.2
            = Z.of_nat (length (if Z.of_nat (length d) >? max_entries
             then (cs, Z.of_nat (length d) - 1, dict_del k d')
             else (cs, Z.of_nat (length d), d')).2)) as Hgen.
  { intros d' Hk' Hlen. destruct (Z.of_nat (length d) >? max_entries);
      cbn [fst snd]; [|lia].
    apply dict_length_del in Hk'. lia. }
  unfold lru_step.
  destruct (CacheEntry.contents e) as [b|]; [destruct (cs >? max_size)|].
  - match goal with
    | |- context [dict_del k ?d'] =>
        specialize (Hgen d')
    end.
    rewrite dict_get_alter_eq, dict_length_alter in Hgen.
    destruct (Z.of_nat (length d) >? max_entries); cbn [fst snd] in *.
    + apply Hgen; [by apply fmap_is_Some|done].
    + rewrite dict_length_alter. done.
  - specialize (Hgen d Hk eq_refl).
    by destruct (Z.of_nat (length d) >? max_entries).
  - specialize (Hgen d Hk eq_refl).
    by destruct (Z.of_nat (length d) >? max_entries).
Qed.

Lemma lru_foldl_count n0 l st :
  NoDup l.*1 ->
  (forall k, k ∈ l.*1 -> is_Some (dict_get k st.2)) ->
  st.1.2 = Z.of_nat (length st.2) ->
  Z.min max_entries n0 <= st.1.2 <= n0 ->
  st.1.2 <= Z.max max_entries (Z.of_nat (length l)) ->
  (foldl step st l).1.2 = Z.of_nat (length (foldl step st l).2)
  /\ Z.min max_entries n0 <= (foldl step st l).1.2 <= n0
  /\ (foldl step st l).1.2 <= Z.max max_entries 0.
Proof.
  revert st. induction l as [|[k e] l IH]; intros st Hnd Hin Hlen Hlo Hhi.
  - cbn [foldl length] in *. done.
  - cbn [foldl]. rewrite fmap_cons in Hnd, Hin. cbn [fst] in Hnd, Hin.
    apply NoDup_cons in Hnd as [Hk Hnd].
    apply IH; [done| | | |].
    + intros k' Hk'. rewrite lru_step_other; [|by intros ->].
      apply Hin. by right.
    + apply lru_step_length; [|done]. apply Hin. by left.
    + rewrite lru_step_count_val.
      destruct (Z.gtb_spec st.1.2 max_entries); lia.
    + rewrite lru_step_count_val. cbn [length] in Hhi.
      destruct (Z.gtb_spec st.1.2 max_entries); lia.
Qed.

(** X3: [_lru_cleanup] removes no more entries than the limit asks for:
    the number of entries left is the smaller of the number there was and
    [max_entries]. *)
Theorem lru_cleanup_count d :
  0 <= max_entries -> dict_wf d ->
  Z.of_nat (length (lru_cleanup_entries max_entries max_size d))
  = Z.min (Z.of_nat (length d)) max_entries.
Proof.
  intros Hme Hwf. unfold lru_cleanup_entries, lru_loop.
  rewrite lru_start_eq.
  destruct (lru_foldl_count (Z.of_nat (length d)) (oldest_entries d)
              (contents_total (dict_values d), Z.of_nat (length d), d))
    as (Hlen & Hlo & Hhi); cbn [fst snd].
  - unfold dict_wf, dict_keys in Hwf. by rewrite oldest_entries_perm.
  - intros k Hk. apply dict_get_is_Some_keys. unfold dict_keys.
    by rewrite <- (oldest_entries_perm d).
  - done.
  - lia.
  - rewrite (Permutation_length (oldest_entries_perm d)). lia.
  - rewrite <- Hlen. lia.
Qed.

Lemma lru_step_within st item :
  st.1.1 <= max_size -> st.1.2 <= max_entries -> step st item = st.
Proof.
  destruct st as [[cs ec] d], item as [k e]. cbn [fst snd]. intros Hs He.
  unfold lru_step.
  destruct (Z.gtb_spec cs max_size); [lia|].
  destruct (Z.gtb_spec ec max_entries); [lia|].
  by destruct (CacheEntry.contents e).
Qed.

(** X4: a cache within both limits is left alone by [_lru_cleanup]: no
    entry is removed, none loses its contents, and the order is kept. *)
Theorem lru_cleanup_within_limits d :
  Z.of_nat (length d) <= max_entries ->
  contents_total (dict_values d) <= max_size ->
  lru_cleanup_entries max_entries max_size d = d.
Proof.
  intros He Hs. unfold lru_cleanup_entries, lru_loop. rewrite lru_start_eq.
  generalize (oldest_entries d). intros l.
  assert (foldl step (contents_total (dict_values d), Z.of_nat (length d), d) l
          = (contents_total (dict_values d), Z.of_nat (length d), d)) as ->; [|done].
  induction l as [|item l IH]; [done|].
  cbn [foldl]. by rewrite lru_step_within.
Qed.

Lemma lru_step_survivor st item k e' :
  dict_wf st.2 ->
  dict_get k (step st item).2 = Some e' ->
  exists e, dict_get k st.2 = Some e
            /\ (e' = e \/ e' = CacheEntry.set_contents None e).
Proof.
  destruct st as [[cs ec] d], item as [k0 e0]. cbn [fst snd]. intros Hwf.
  assert (forall d', dict_wf d' ->
            dict_get k (if ec >? max_entries then dict_del k0 d' else d') = Some e' ->
            dict_get k d' = Some e') as Hdel.
  { intros d' Hwf' H. destruct (ec >? max_entries); [|done].
    destruct (decide (k0 = k)) as [->|Hne].
    - by rewrite dict_get_del_eq in H.
    - by rewrite dict_get_del_ne in H. }
  unfold lru_step.
  destruct (CacheEntry.contents e0) as [b|]; [destruct (cs >? max_size)|].
  - intros H.
    assert (dict_get k (dict_alter (CacheEntry.set_contents None) k0 d) = Some e')
      as Hget.
    { apply Hdel; [by apply dict_wf_alter|].
      by destruct (ec >? max_entries). }
    destruct (decide (k0 = k)) as [->|Hne].
    + rewrite dict_get_alter_eq in Hget.
      destruct (dict_get k d) as [e|]; [|done].
      exists e. split; [done|]. right. by simplify_eq/=.
    + rewrite dict_get_alter_ne in Hget by done. eauto.
  - intros H. exists e'. split; [|by left].
    apply Hdel; [done|]. by destruct (ec >? max_entries).
  - intros H. exists e'. split; [|by left].
    apply Hdel; [done|]. by destruct (ec >? max_entries).
Qed.

Lemma lru_foldl_survivor l st k e' :
  dict_wf st.2 ->
  dict_get k (foldl step st l).2 = Some e' ->
  exists e, dict_get k st.2 = Some e
            /\ (e' = e \/ e' = CacheEntry.set_contents None e).
Proof.
  revert st. induction l as [|item l IH]; intros st Hwf H; [eauto|].
  cbn [foldl] in H. apply IH in H as (e1 & H1 & He1); [|by apply lru_step_wf].
  apply lru_step_survivor in H1 as (e & He & Hor); [|done].
  exists e. split; [done|].
  destruct He1 as [-> | ->], Hor as [-> | ->]; auto.
Qed.

(** X5: [_lru_cleanup] creates and rewrites nothing: an entry that is left
    is the entry that was stored under its key, as it was or without its
    contents; path, metadata and both time stamps are untouched. *)
Theorem lru_cleanup_survivors d key entry' :
  dict_wf d ->
  dict_get key (lru_cleanup_entries max_entries max_size d) = Some entry' ->
  exists entry,
    dict_get key d = Some entry
    /\ (entry' = entry \/ entry' = CacheEntry.set_contents None entry).
Proof.
  intros Hwf. unfold lru_cleanup_entries, lru_loop. rewrite lru_start_eq.
  intros H. by apply lru_foldl_survivor in H.
Qed.

End lru_more_facts.

Lemma lru_cleanup_count_witness :
  Z.of_nat (length (RemoteCache.lru_cleanup_entries 3 3
              [Sample.entry "/a" 4 (Some (Sample.blob "a" 2));
               Sample.entry "/b" 2 (Some (Sample.blob "b" 2));
               Sample.entry "/c" 3 None;
               Sample.entry "/d" 1 None]))
  = 3.
Proof.
  rewrite lru_cleanup_count; [reflexivity|lia|].
  unfold dict_wf. apply (bool_decide_unpack _). vm_compute. exact I.
Defined.

Lemma lru_cleanup_within_limits_witness :
  RemoteCache.lru_cleanup_entries 3 4
    [Sample.entry "/a" 4 (Some (Sample.blob "a" 2));
     Sample.entry "/b" 2 (Some (Sample.blob "b" 2));
     Sample.entry "/c" 3 None]
  = [Sample.entry "/a" 4 (Some (Sample.blob "a" 2));
     Sample.entry "/b" 2 (Some (Sample.blob "b" 2));
     Sample.entry "/c" 3 None].
Proof.
  apply lru_cleanup_within_limits; simpl; lia.
Defined.

Lemma lru_cleanup_survivors_witness :
  exists entry,
    dict_get "machine:/a"
      [Sample.entry "/a" 4 (Some (Sample.blob "a" 2));
       Sample.entry "/b" 2 (Some (Sample.blob "b" 2))] = Some entry
    /\ (CacheEntry.Make "/a" Sample.file_meta 4 5 None = entry
        \/ CacheEntry.Make "/a" Sample.file_meta 4 5 None
           = CacheEntry.set_contents None entry).
Proof.
  apply (lru_cleanup_survivors 3 1).
  - unfold dict_wf. apply (bool_decide_unpack _). vm_compute. exact I.
  - reflexivity.
Defined.

(* ===================================================================== *)
(** * Storing prefetches *)
(* ===================================================================== *)

Section prefetch_store_facts.
Import RemoteCache.
Variable self : RemoteCache.t.

Lemma append_inv_head (a b c : string) : a +:+ b = a +:+ c -> b = c.
Proof.
  induction a as [|x a IH]; [by rewrite !append_nil_l|].
  rewrite !append_cons. intros [= H]. by apply IH.
Qed.

Lemma _entry_key_inj path path' :
  _entry_key self path = _entry_key self path' -> path = path'.
Proof. unfold _entry_key. by intros ?%append_inv_head%append_inv_head. Qed.

Lemma kept_refl s : kept s s.
Proof. unfold kept. split; [done|]. split; [done|]. eauto 10. Qed.

Lemma kept_trans s1 s2 s3 : kept s1 s2 -> kept s2 s3 -> kept s1 s3.
Proof.
  intros (Hc1 & Hd1 & He1) (Hc2 & Hd2 & He2).
  split; [congruence|]. split; [set_solver|].
  intros key entry Hk.
  destruct (He1 key entry Hk) as (e' & Hk' & Hp' & Hm' & Ha' & Hu' & Hb').
  destruct (He2 key e' Hk') as (e'' & Hk'' & Hp'' & Hm'' & Ha'' & Hu'' & Hb'').
  exists e''. repeat split; try congruence.
  intros blob Hblob Hclean. eauto.
Qed.

(** Replacing contents that are missing or dirty. *)
Lemma kept_store key entry blob s w :
  dict_get key (_entries s) = Some entry ->
  (forall old, CacheEntry.contents entry = Some old ->
               ContentsBlob.dirty old = true) ->
  calls w = calls (world s) -> contents_dir (world s) ⊆ contents_dir w ->
  kept s (MkState (dict_alter (CacheEntry.set_contents blob) key (_entries s)) w).
Proof.
  intros Hkey Hdirty Hc Hd. unfold kept. cbn [_entries world].
  split; [done|]. split; [done|].
  intros k e Hk. destruct (decide (key = k)) as [<-|Hne].
  - rewrite dict_get_alter_eq, Hk. eexists. split; [reflexivity|].
    simplify_eq. repeat split; try done.
    intros old Hold Hclean. apply Hdirty in Hold. congruence.
  - rewrite dict_get_alter_ne by done. eauto 10.
Qed.

Lemma kept_create key entry s w :
  dict_get key (_entries s) = None ->
  calls w = calls (world s) -> contents_dir (world s) ⊆ contents_dir w ->
  kept s (MkState (dict_set key entry (_entries s)) w).
Proof.
  intros Hnew Hc Hd. unfold kept. cbn [_entries world].
  split; [done|]. split; [done|].
  intros k e Hk. destruct (decide (key = k)) as [<-|Hne]; [congruence|].
  rewrite dict_get_set_ne by done. eauto 10.
Qed.

Lemma try_store_prefetches_kept path prefetches s :
  exists s',
    _try_store_prefetches self path prefetches s = (Ok tt, s') /\ kept s s'.
Proof.
  revert s. induction prefetches as [|pf rest IH]; intros s.
  - exists s. split; [reflexivity|apply kept_refl].
  - cbn [_try_store_prefetches]. unfold_m.
    destruct (negb _ && negb _); [apply IH|].
    unfold dict_contains.
    destruct (dict_get (_entry_key self (PrefetchEntry.path pf)) (_entries s))
      as [entry|] eqn:Hk; simpl.
    + rewrite Hk.
      destruct (PrefetchEntry.contents pf) as [contents|];
        [destruct (CacheEntry.contents entry) as [old|] eqn:Hold;
         [destruct (ContentsBlob.dirty old) eqn:Hdirty|]|];
        match goal with
        | |- exists s', _try_store_prefetches _ _ _ ?s1 = _ /\ _ =>
            destruct (IH s1) as (s' & Hrun & Hst); exists s';
            split; [exact Hrun|];
            refine (kept_trans _ _ _ _ Hst); clear Hrun Hst
        end;
        try apply kept_refl.
      * eapply kept_store; [done| |done|cbn; set_solver].
        intros old' ?. by simplify_eq.
      * eapply kept_store; [done| |done|cbn; set_solver]. intros old' ?. congruence.
    + rewrite dict_get_set_eq. simpl.
      destruct (PrefetchEntry.contents pf) as [contents|];
        match goal with
        | |- exists s', _try_store_prefetches _ _ _ ?s1 = _ /\ _ =>
            destruct (IH s1) as (s' & Hrun & Hst); exists s';
            split; [exact Hrun|];
            refine (kept_trans _ _ _ _ Hst); clear Hrun Hst
        end.
      * eapply (kept_trans _
                 (MkState (dict_set _ _ (_entries s))
                          (set_clock (clock (world s) + 1) (world s))));
          [by apply kept_create|].
        eapply kept_store; cbn [_entries world];
          [apply dict_get_set_eq|done|done|cbn; set_solver].
      * by apply kept_create.
Qed.


(** X7: a prefetch for another path whose entry lock is held by another
    thread is dropped: when that holds for every prefetch of the reply, the
    cache is left exactly as it was. *)
Theorem try_store_prefetches_busy path prefetches s :
  Forall (fun prefetch =>
            _entry_key self (PrefetchEntry.path prefetch) ∈ busy (world s)
            /\ PrefetchEntry.path prefetch <> path) prefetches ->
  _try_store_prefetches self path prefetches s = (Ok tt, s).
Proof.
  induction 1 as [|pf rest [Hbusy Hne] _ IH]; [done|].
  cbn [_try_store_prefetches]. unfold_m.
  rewrite bool_decide_eq_true_2 by done. cbn [negb andb].
  apply String.eqb_neq in Hne. rewrite Hne. cbn [negb]. exact IH.
Qed.

(** X8: a prefetch for a path that is not cached (and whose lock is free)
    creates the entry with [last_access = 0], the least recently used of
    all, stamps [last_update] with the clock, and stores the contents that
    came with it. *)
Theorem try_store_prefetches_fresh path prefetch s :
  let key := _entry_key self (PrefetchEntry.path prefetch) in
  key ∉ busy (world s) ->
  dict_get key (_entries s) = None ->
  exists s' entry,
    _try_store_prefetches self path [prefetch] s = (Ok tt, s')
    /\ dict_get key (_entries s') = Some entry
    /\ CacheEntry.path entry = PrefetchEntry.path prefetch
    /\ CacheEntry.meta entry = PrefetchEntry.metadata prefetch
    /\ CacheEntry.last_access entry = 0
    /\ CacheEntry.last_update entry = clock (world s)
    /\ match PrefetchEntry.contents prefetch with
       | Some contents =>
           exists blob,
             CacheEntry.contents entry = Some blob
             /\ ContentsBlob.size blob = FileContents.size contents
             /\ ContentsBlob.checksum blob = FileContents.checksum contents
             /\ ContentsBlob.dirty blob = false
             /\ blob_exists self (contents_dir (world s'))
                            (ContentsBlob.storage blob) = true
       | None => CacheEntry.contents entry = None
       end.
Proof.
  intros key Hfree Hnew. subst key.
  cbn [_try_store_prefetches]. unfold_m.
  rewrite bool_decide_eq_false_2 by done. cbn [negb andb].
  assert (forall b c, negb (negb b) && negb c = true -> b = true /\ c = false)
    as Hboth by (by intros [] []).
  destruct (negb (negb (String.eqb _ _)) && negb (String.eqb _ path)) eqn:Hacq.
  { apply Hboth in Hacq as [Hsame Hdiff].
    apply String.eqb_eq in Hsame. apply String.eqb_neq in Hdiff.
    exfalso. apply Hdiff. by apply _entry_key_inj in Hsame. }
  unfold dict_contains. rewrite Hnew. simpl. rewrite dict_get_set_eq. simpl.
  destruct (PrefetchEntry.contents prefetch) as [contents|]; simpl.
  - eexists _, _. split; [reflexivity|]. cbn [_entries world].
    rewrite dict_get_alter_eq, dict_get_set_eq. simpl.
    split; [reflexivity|]. repeat split.
    eexists. split; [reflexivity|]. repeat split. apply blob_exists_saved.
  - eexists _, _. split; [reflexivity|]. cbn [_entries world].
    rewrite dict_get_set_eq. simpl. done.
Qed.

End prefetch_store_facts.


Lemma try_store_prefetches_busy_witness :
  RemoteCache._try_store_prefetches Sample.cache "/usr/bin/env"
    [PrefetchEntry.Make "/usr/lib/libc.so.6" Sample.file_meta (Some Sample.foo)]
    (MkState Sample.cached_env
       (MkWorld 100 {["old"]} IndexMissing (fun n => "blob" +:+ Sample.digit n) 0
                {["machine:/usr/lib/libc.so.6"]} (fun _ dir => dir) 0 []))
  = (Ok tt,
     MkState Sample.cached_env
       (MkWorld 100 {["old"]} IndexMissing (fun n => "blob" +:+ Sample.digit n) 0
                {["machine:/usr/lib/libc.so.6"]} (fun _ dir => dir) 0 [])).
Proof.
  apply try_store_prefetches_busy.
  constructor; [|constructor].
  split; [|done]. apply (bool_decide_unpack _). vm_compute. exact I.
Defined.

Lemma try_store_prefetches_fresh_witness :
  exists s' entry,
    RemoteCache._try_store_prefetches Sample.cache "/usr/bin/env"
      [PrefetchEntry.Make "/usr/lib/libc.so.6" Sample.file_meta (Some Sample.foo)]
      (MkState Sample.cached_env Sample.quiet_world) = (Ok tt, s')
    /\ dict_get "machine:/usr/lib/libc.so.6" (_entries s') = Some entry
    /\ CacheEntry.last_access entry = 0
    /\ CacheEntry.last_update entry = 100.
Proof.
  destruct (try_store_prefetches_fresh Sample.cache "/usr/bin/env"
              (PrefetchEntry.Make "/usr/lib/libc.so.6" Sample.file_meta
                                  (Some Sample.foo))
              (MkState Sample.cached_env Sample.quiet_world))
    as (s' & entry & Hrun & Hget & _ & _ & Haccess & Hupdate & _).
  - simpl. set_solver.
  - reflexivity.
  - exists s', entry. done.
Defined.

(* ===================================================================== *)
(** * What is fetched once *)
(* ===================================================================== *)

Section fetch_once_facts.
Import RemoteCache.
Variable self : RemoteCache.t.

(** Installing the entry of a path that is not cached. *)
Lemma _lock_entry_uncached path s metadata :
  dict_get (_entry_key self path) (_entries s) = None ->
  metadata_answer self (calls (world s)) path = Ok metadata ->
  exists s' entry,
    _lock_entry self path s = (Ok (_entry_key self path), s')
    /\ calls (world s') = calls (world s) ++ [metadata_call self path]
    /\ dict_get (_entry_key self path) (_entries s') = Some entry
    /\ CacheEntry.path entry = path
    /\ CacheEntry.meta entry = metadata
    /\ CacheEntry.last_access entry = clock (world s)
    /\ CacheEntry.last_update entry = clock (world s) + 1.
Proof.
  intros Hnew Hreply. unfold _lock_entry, dict_contains, new_entry.
  unfold metadata_answer, metadata_call in *. unfold_m. rewrite Hnew. simpl.
  destruct (_prefetch self); unfold_m.
  - destruct (get_metadata_prefetch_reply _ _ _) as [[m prefetches]|]; [|done].
    simplify_eq/=.
    match goal with
    | |- context [_try_store_prefetches _ _ _ ?s1] =>
        destruct (try_store_prefetches_kept self path prefetches s1)
          as (s2 & -> & (Hc & _ & He))
    end.
    cbn [_entries world] in *.
    destruct (He (_entry_key self path) _ (dict_get_set_eq _ _ _))
      as (entry' & Hget & Hp & Hm & Ha & Hu & _).
    eexists _, entry'. split; [reflexivity|]. done.
  - rewrite Hreply. simpl. eexists _, _. split; [reflexivity|].
    cbn [_entries world]. rewrite dict_get_set_eq. done.
Qed.

(** X9: the metadata of a path is fetched once.  [get_metadata] on a path
    that is not cached makes one call through the client and installs the
    entry, stamped with the clock; asking again gives the same outcome
    without any call. *)
Theorem get_metadata_fetches_once path s metadata :
  dict_get (_entry_key self path) (_entries s) = None ->
  metadata_answer self (calls (world s)) path = Ok metadata ->
  exists s1 entry,
    (get_metadata self path s).2 = s1
    /\ calls (world s1) = calls (world s) ++ [metadata_call self path]
    /\ dict_get (_entry_key self path) (_entries s1) = Some entry
    /\ CacheEntry.meta entry = metadata
    /\ CacheEntry.last_access entry = clock (world s)
    /\ CacheEntry.last_update entry = clock (world s) + 1
    /\ (get_metadata self path s1).1 = (get_metadata self path s).1
    /\ calls (world (get_metadata self path s1).2) = calls (world s1).
Proof.
  intros Hnew Hreply.
  destruct (_lock_entry_uncached _ _ _ Hnew Hreply)
    as (s1 & entry & Hlock & Hcalls & Hget & Hpath & Hmeta & Haccess & Hupdate).
  assert (get_metadata self path s
          = (match Metadata.error metadata, Metadata.attr metadata with
             | Some e, _ => Raise e
             | None, None => Raise (ValueError [PStr "entry is missing attributes"])
             | None, Some a =>
                 Ok (Metadata.replace_attr metadata (Some (Attributes.as_readonly a)))
             end, s1)) as Hfirst.
  { unfold get_metadata, bind at 1. rewrite Hlock. unfold_m. rewrite Hget.
    simpl. rewrite Hmeta.
    destruct (Metadata.error metadata); [|destruct (Metadata.attr metadata)];
      reflexivity. }
  exists s1, entry. rewrite Hfirst. cbn [fst snd].
  rewrite (get_metadata_cached _ _ _ _ Hget), Hmeta. cbn [fst snd world].
  done.
Qed.

(** X10: when the call for the metadata of a path that is not cached
    raises, [get_metadata] raises the same exception and no entry is
    installed: the next request asks the local machine again. *)
Theorem get_metadata_failure_not_cached path s e :
  dict_get (_entry_key self path) (_entries s) = None ->
  metadata_answer self (calls (world s)) path = Raise e ->
  exists s',
    get_metadata self path s = (Raise e, s')
    /\ _entries s' = _entries s
    /\ calls (world s') = calls (world s) ++ [metadata_call self path].
Proof.
  intros Hnew Hreply. unfold get_metadata, _lock_entry, dict_contains.
  unfold metadata_answer, metadata_call in *. unfold_m. rewrite Hnew. simpl.
  destruct (_prefetch self); unfold_m.
  - destruct (get_metadata_prefetch_reply _ _ _) as [|e']; [done|].
    simplify_eq. eexists. split; [reflexivity|]. done.
  - rewrite Hreply. eexists. split; [reflexivity|]. done.
Qed.

End fetch_once_facts.

Lemma get_metadata_fetches_once_witness :
  exists s1,
    (RemoteCache.get_metadata Sample.cache "/etc/hosts"
       (MkState [] Sample.quiet_world)).2 = s1
    /\ calls (world s1) = [CallGetMetadata "/etc/hosts"]
    /\ calls (world (RemoteCache.get_metadata Sample.cache "/etc/hosts" s1).2)
       = calls (world s1).
Proof.
  destruct (get_metadata_fetches_once Sample.cache "/etc/hosts"
              (MkState [] Sample.quiet_world) Sample.file_meta)
    as (s1 & entry & Hrun & Hcalls & _ & _ & _ & _ & _ & Hagain).
  - reflexivity.
  - reflexivity.
  - exists s1. done.
Defined.

Lemma get_metadata_failure_not_cached_witness :
  exists s',
    RemoteCache.get_metadata Demo.offline_cache "/etc/hosts"
      (MkState Sample.cached_env Sample.quiet_world) = (Raise Demo.timeout, s')
    /\ _entries s' = Sample.cached_env
    /\ calls (world s') = [CallGetMetadataPrefetch "/etc/hosts"].
Proof.
  apply (get_metadata_failure_not_cached Demo.offline_cache "/etc/hosts"
           (MkState Sample.cached_env Sample.quiet_world) Demo.timeout);
    reflexivity.
Defined.

Section contents_once_facts.
Import RemoteCache.
Variable self : RemoteCache.t.

(** Fetching the contents of an entry that has none. *)
Lemma fetch_clean key s entry :
  dict_get key (_entries s) = Some entry ->
  CacheEntry.contents entry = None ->
  service_answers self (CacheEntry.path entry) ->
  exists blob s',
    _update_contents self key false s = (Ok blob, s')
    /\ calls (world s')
       = calls (world s) ++ [refresh_call self (CacheEntry.path entry)]
    /\ interference (world s') = interference (world s)
    /\ opens (world s') = opens (world s)
    /\ ContentsBlob.dirty blob = false
    /\ (exists entry', dict_get key (_entries s') = Some entry'
                       /\ CacheEntry.path entry' = CacheEntry.path entry)
    /\ blob_exists self (contents_dir (world s')) (ContentsBlob.storage blob) = true.
Proof.
  intros H Hnone Hans. unfold _update_contents, _save_contents.
  unfold service_answers, refresh_call in *. unfold_m. rewrite H. simpl.
  rewrite Hnone.
  destruct (_prefetch self); unfold_m.
  - destruct (Hans (calls (world s))) as [[contents prefetches] ->]. simpl.
    match goal with
    | |- context [_try_store_prefetches _ _ _ ?s1] =>
        destruct (try_store_prefetches_stable self (CacheEntry.path entry)
                    prefetches s1)
          as (s2 & -> & (Hc & Hi & Ho & He))
    end.
    simpl in *. eexists _, _. split; [reflexivity|]. simpl.
    split; [done|]. split; [done|]. split; [done|]. split; [done|].
    split; [by apply He|]. apply blob_exists_saved.
  - destruct (Hans (calls (world s))) as [contents ->]. simpl.
    eexists _, _. split; [reflexivity|]. simpl.
    split; [done|]. split; [done|]. split; [done|]. split; [done|].
    split; [by eexists|]. apply blob_exists_saved.
Qed.

(** An iteration of the loop that finds the blob. *)
Lemma open_loop_found key flags fuel s entry blob :
  dict_get key (_entries s) = Some entry ->
  CacheEntry.contents entry = Some blob ->
  blob_exists self (interference (world s) (opens (world s)) (contents_dir (world s)))
              (ContentsBlob.storage blob) = true ->
  open_loop self key flags (S fuel) s
  = Some (Ok (3 + Z.of_nat (opens (world s))),
          MkState (_entries s)
            (set_opens (S (opens (world s)))
               (set_contents_dir
                  (interference (world s) (opens (world s)) (contents_dir (world s)))
                  (world s)))).
Proof.
  intros H Hblob Hthere. cbn [open_loop]. unfold os_open. unfold_m.
  rewrite H, Hblob. simpl. rewrite Hthere. reflexivity.
Qed.

(** X11: the contents of a file are fetched once.  With nobody else
    touching the contents directory, [open_contents] on a cached entry
    without contents makes one call for them and opens the new blob;
    opening the path again makes no call. *)
Theorem open_contents_fetches_once path flags fuel s entry :
  dict_get (_entry_key self path) (_entries s) = Some entry ->
  CacheEntry.contents entry = None ->
  service_answers self (CacheEntry.path entry) ->
  undisturbed (world s) ->
  exists fd s1,
    open_contents self path flags (S fuel) s = Some (Ok fd, s1)
    /\ calls (world s1)
       = calls (world s) ++ [refresh_call self (CacheEntry.path entry)]
    /\ exists fd' s2,
         open_contents self path flags (S fuel) s1 = Some (Ok fd', s2)
         /\ calls (world s2) = calls (world s1).
Proof.
  intros H Hnone Hans Hquiet.
  set (key := _entry_key self path) in *.
  set (sA := MkState (dict_alter (CacheEntry.set_last_access (clock (world s)))
                                 key (_entries s))
                     (set_clock (clock (world s) + 1) (world s))).
  assert (dict_get key (_entries sA)
          = Some (CacheEntry.set_last_access (clock (world s)) entry)) as HA.
  { subst sA. cbn [_entries]. by rewrite dict_get_alter_eq, H. }
  destruct (fetch_clean key sA _ HA Hnone Hans)
    as (blob & sB & Hrun & Hcalls & Hint & Hopens & Hclean & (eB & HB & _) & Hthere).
  set (sC := MkState (dict_alter (CacheEntry.set_contents (Some blob)) key (_entries sB))
                     (world sB)).
  assert (open_contents self path flags (S fuel) s
          = open_loop self key flags (S fuel) sC) as ->.
  { unfold open_contents, bind at 1.
    rewrite (_lock_entry_cached _ _ _ _ H). fold key. fold sA.
    unfold bind at 1. unfold entry_of at 1, bind at 1, get_entries at 1.
    rewrite HA. unfold ret at 1. cbn [CacheEntry.contents CacheEntry.set_last_access].
    rewrite Hnone. unfold bind at 1. unfold bind at 1. rewrite Hrun.
    reflexivity. }
  assert (dict_get key (_entries sC) = Some (CacheEntry.set_contents (Some blob) eB))
    as HC.
  { subst sC. cbn [_entries]. by rewrite dict_get_alter_eq, HB. }
  assert (forall k dir, interference (world sB) k dir = dir) as HquietB.
  { intros k dir. rewrite Hint. apply Hquiet. }
  rewrite (open_loop_found key flags fuel sC _ blob HC eq_refl).
  2:{ subst sC. cbn [world]. by rewrite HquietB. }
  eexists _, _. split; [reflexivity|]. cbn [world calls set_opens set_contents_dir].
  split; [done|].
  erewrite open_contents_clean; [|exact HC|reflexivity|exact Hclean].
  erewrite open_loop_found.
  - eexists _, _. split; [reflexivity|]. reflexivity.
  - cbn [_entries]. rewrite dict_get_alter_eq. fold key. rewrite HC. reflexivity.
  - reflexivity.
  - cbn. rewrite !HquietB. exact Hthere.
Qed.

(** X12: revalidating contents that are dirty.  [_update_contents] without
    [force] on an entry that has a blob asks [readfile_conditional] with the
    checksum of the blob.  When the file is unchanged (no contents come
    back) the blob is kept and marked clean, and no file is written; when
    new contents come back they are saved under a fresh name; when the call
    raises the entry is left as it was. *)
Theorem update_contents_revalidates key s entry blob :
  dict_get key (_entries s) = Some entry ->
  CacheEntry.contents entry = Some blob ->
  let call :=
    CallReadfileConditional (CacheEntry.path entry) (ContentsBlob.checksum blob) in
  let reply :=
    readfile_conditional_reply (_client self) (calls (world s))
      (CacheEntry.path entry) (ContentsBlob.checksum blob) in
  exists s',
    (_update_contents self key false s).2 = s'
    /\ calls (world s') = calls (world s) ++ [call]
    /\ match reply with
       | Ok None =>
           (_update_contents self key false s).1
           = Ok (ContentsBlob.set_dirty false blob)
           /\ dict_get key (_entries s')
              = Some (CacheEntry.set_contents
                        (Some (ContentsBlob.set_dirty false blob)) entry)
           /\ contents_dir (world s') = contents_dir (world s)
       | Ok (Some contents) =>
           (_update_contents self key false s).1
           = Ok (ContentsBlob.Make
                   (posixpath.join (_cache_contents_path self)
                                   (uuids (world s) (uuids_drawn (world s))))
                   (FileContents.size contents)
                   (FileContents.checksum contents) false)
           /\ contents_dir (world s')
              = {[uuids (world s) (uuids_drawn (world s))]} ∪ contents_dir (world s)
           /\ _entries s' = _entries s
       | Raise e =>
           (_update_contents self key false s).1 = Raise e
           /\ _entries s' = _entries s
           /\ contents_dir (world s') = contents_dir (world s)
       end.
Proof.
  intros H Hblob call reply. subst call reply.
  unfold _update_contents, _save_contents. unfold_m. rewrite H. simpl.
  rewrite Hblob. unfold_m.
  destruct (readfile_conditional_reply _ _ _ _) as [[contents|]|e]; simpl.
  - eexists. split; [reflexivity|]. done.
  - eexists. split; [reflexivity|]. simpl. rewrite dict_get_alter_eq, H. done.
  - eexists. split; [reflexivity|]. done.
Qed.

End contents_once_facts.

Lemma open_contents_fetches_once_witness :
  exists fd s1,
    RemoteCache.open_contents Sample.cache "/usr/bin/env" 0 1
      (MkState [Sample.entry "/usr/bin/env" 7 None] Sample.quiet_world)
    = Some (Ok fd, s1)
    /\ calls (world s1) = [CallReadfile "/usr/bin/env"]
    /\ exists fd' s2,
         RemoteCache.open_contents Sample.cache "/usr/bin/env" 0 1 s1
         = Some (Ok fd', s2)
         /\ calls (world s2) = calls (world s1).
Proof.
  apply (open_contents_fetches_once Sample.cache "/usr/bin/env" 0 0
           (MkState [Sample.entry "/usr/bin/env" 7 None] Sample.quiet_world)
           (Sample.entry "/usr/bin/env" 7 None).2).
  - reflexivity.
  - reflexivity.
  - intros log. eexists. reflexivity.
  - intros k dir. reflexivity.
Defined.

Lemma update_contents_revalidates_witness :
  exists s',
    (RemoteCache._update_contents Sample.cache "machine:/usr/bin/env" false
       (MkState [Sample.entry "/usr/bin/env" 7
                   (Some (ContentsBlob.set_dirty true (Sample.blob "old" 3)))]
                Sample.quiet_world)).2 = s'
    /\ calls (world s') = [CallReadfileConditional "/usr/bin/env" "2c26b46b"]
    /\ dict_get "machine:/usr/bin/env" (_entries s')
       = Some (Sample.entry "/usr/bin/env" 7 (Some (Sample.blob "old" 3))).2.
Proof.
  destruct (update_contents_revalidates Sample.cache "machine:/usr/bin/env"
              (MkState [Sample.entry "/usr/bin/env" 7
                          (Some (ContentsBlob.set_dirty true (Sample.blob "old" 3)))]
                       Sample.quiet_world)
              (Sample.entry "/usr/bin/env" 7
                 (Some (ContentsBlob.set_dirty true (Sample.blob "old" 3)))).2
              (ContentsBlob.set_dirty true (Sample.blob "old" 3)))
    as (s' & Hrun & Hcalls & Hcase).
  - reflexivity.
  - reflexivity.
  - exists s'. split; [done|]. split; [done|].
    simpl in Hcase. by destruct Hcase as (_ & Hget & _).
Defined.

(* ===================================================================== *)
(** * [RemoteCache.sync] *)
(* ===================================================================== *)

Section sync_facts.
Import RemoteCache.
Variable self : RemoteCache.t.

(** X13: with nothing cached for this machine (the cache is empty, or every
    entry belongs to another machine id) [sync] returns at once: no call is
    made through the client, not even the one that marks fetched contents,
    and nothing changes. *)
Theorem sync_nothing_cached s :
  (forall key entry, (key, entry) ∈ _entries s ->
                     String.prefix (_machine_id self) key = false) ->
  sync self s = (Ok tt, s).
Proof.
  intros Hother. unfold sync. unfold_m.
  assert (forall (acc : PyDict Metadata.t) (l : PyDict CacheEntry.t),
            (forall key entry, (key, entry) ∈ l ->
                               String.prefix (_machine_id self) key = false) ->
            foldl (fun d (item : string * CacheEntry.t) =>
                     let (key, entry) := item in
                     if String.prefix (_machine_id self) key
                     then dict_set (CacheEntry.path entry) (CacheEntry.meta entry) d
                     else d) acc l = acc) as Hfold.
  { intros acc l. revert acc. induction l as [|[k e] l IH]; intros acc Hl; [done|].
    cbn [foldl]. rewrite (Hl k e) by (by left).
    apply IH. intros key entry Hin. apply (Hl key entry). by right. }
  rewrite (Hfold [] (_entries s) Hother). by destruct s.
Qed.

(** X14: what [sync] does to the contents of an entry whose metadata
    changed.  The new metadata and a new [last_update] are stored; the blob
    is dropped when the new metadata carries an error or attributes of
    something that is not a regular file, and is kept but marked dirty
    otherwise.  No call is made and no file is removed. *)
Theorem sync_entry_contents path new_metadata s entry blob :
  dict_get (_entry_key self path) (_entries s) = Some entry ->
  CacheEntry.contents entry = Some blob ->
  exists s' entry',
    sync_entry self path new_metadata s = (Ok tt, s')
    /\ dict_get (_entry_key self path) (_entries s') = Some entry'
    /\ CacheEntry.meta entry' = new_metadata
    /\ calls (world s') = calls (world s)
    /\ contents_dir (world s') = contents_dir (world s)
    /\ (is_set (Metadata.error new_metadata) = true ->
        CacheEntry.contents entry' = None)
    /\ (forall a, Metadata.attr new_metadata = Some a ->
                  stat.S_ISREG (Attributes.st_mode a) = false ->
                  CacheEntry.contents entry' = None)
    /\ (Metadata.error new_metadata = None ->
        (forall a, Metadata.attr new_metadata = Some a ->
                   stat.S_ISREG (Attributes.st_mode a) = true) ->
        CacheEntry.contents entry'
        = Some (ContentsBlob.set_dirty true blob)).
Proof.
  intros H Hblob. unfold sync_entry, bind at 1.
  rewrite (_lock_entry_cached _ _ _ _ H). unfold_m.
  rewrite !dict_get_alter_eq, H. simpl. rewrite Hblob.
  destruct (Metadata.error new_metadata) as [e|] eqn:Herr; simpl.
  - eexists _, _. split; [reflexivity|]. simpl.
    rewrite !dict_get_alter_eq, H. simpl. split; [reflexivity|].
    repeat split; try done.
  - destruct (Metadata.attr new_metadata) as [a|] eqn:Hattr; simpl;
      [destruct (stat.S_ISREG (Attributes.st_mode a)) eqn:Hreg; simpl|];
      (eexists _, _; split; [reflexivity|]; simpl;
       rewrite !dict_get_alter_eq, H; simpl; split; [reflexivity|];
       repeat split; try done).
    + intros a' [= <-]. congruence.
    + intros _ Hall. specialize (Hall a eq_refl). congruence.
Qed.

End sync_facts.

Lemma sync_nothing_cached_witness :
  RemoteCache.sync Sample.cache
    (MkState [("laptop:/etc/hosts",
               CacheEntry.Make "/etc/hosts" Sample.file_meta 1 2 None)]
             Sample.quiet_world)
  = (Ok tt,
     MkState [("laptop:/etc/hosts",
               CacheEntry.Make "/etc/hosts" Sample.file_meta 1 2 None)]
             Sample.quiet_world).
Proof.
  apply sync_nothing_cached. intros key entry Hin.
  apply elem_of_cons in Hin as [[= -> ->]|Hin]; [reflexivity|].
  by apply elem_of_nil in Hin.
Defined.

Lemma sync_entry_contents_witness :
  exists s' entry',
    RemoteCache.sync_entry Sample.cache "/usr/bin/env" Sample.missing_meta
      (MkState Sample.cached_env Sample.quiet_world) = (Ok tt, s')
    /\ dict_get "machine:/usr/bin/env" (_entries s') = Some entry'
    /\ CacheEntry.contents entry' = None
    /\ contents_dir (world s') = ∅.
Proof.
  destruct (sync_entry_contents Sample.cache "/usr/bin/env" Sample.missing_meta
              (MkState Sample.cached_env Sample.quiet_world)
              (Sample.entry "/usr/bin/env" 7 (Some (Sample.blob "old" 3))).2
              (Sample.blob "old" 3))
    as (s' & entry' & Hrun & Hget & _ & _ & Hdir & Herr & _).
  - reflexivity.
  - reflexivity.
  - exists s', entry'. split; [done|]. split; [done|]. split; [by apply Herr|done].
Defined.

Section sync_frame_facts.
Import RemoteCache.
Variable self : RemoteCache.t.

Lemma sync_entry_frame path new_metadata s :
  is_Some (dict_get (_entry_key self path) (_entries s)) ->
  exists s',
    sync_entry self path new_metadata s = (Ok tt, s')
    /\ calls (world s') = calls (world s)
    /\ (forall key, key <> _entry_key self path ->
                    dict_get key (_entries s') = dict_get key (_entries s))
    /\ (forall key, is_Some (dict_get key (_entries s)) ->
                    is_Some (dict_get key (_entries s'))).
Proof.
  intros [entry H]. unfold sync_entry, bind at 1.
  rewrite (_lock_entry_cached _ _ _ _ H). unfold_m.
  rewrite !dict_get_alter_eq, H. simpl.
  assert (forall (d : PyDict CacheEntry.t) w,
            (forall key, key <> _entry_key self path ->
                         dict_get key d = dict_get key (_entries s)) ->
            (forall key, is_Some (dict_get key (_entries s)) ->
                         is_Some (dict_get key d)) ->
            calls w = calls (world s) ->
            exists s', (Ok tt, MkState d w) = (Ok tt, s')
                       /\ calls (world s') = calls (world s)
                       /\ (forall key, key <> _entry_key self path ->
                             dict_get key (_entries s') = dict_get key (_entries s))
                       /\ (forall key, is_Some (dict_get key (_entries s)) ->
                             is_Some (dict_get key (_entries s')))) as Hdone.
  { intros d w Hd1 Hd2 Hw. eexists. split; [reflexivity|]. done. }
  assert (forall f (d : PyDict CacheEntry.t),
            (forall key, key <> _entry_key self path ->
                         dict_get key d = dict_get key (_entries s)) ->
            forall key, key <> _entry_key self path ->
                        dict_get key (dict_alter f (_entry_key self path) d)
                        = dict_get key (_entries s)) as Hother.
  { intros f d Hd key Hne. rewrite dict_get_alter_ne by done. by apply Hd. }
  assert (forall f (d : PyDict CacheEntry.t),
            (forall key, is_Some (dict_get key (_entries s)) ->
                         is_Some (dict_get key d)) ->
            forall key, is_Some (dict_get key (_entries s)) ->
                        is_Some (dict_get key (dict_alter f (_entry_key self path) d)))
    as Hsome.
  { intros f d Hd key Hk. destruct (decide (key = _entry_key self path)) as [->|Hne].
    - rewrite dict_get_alter_eq. apply fmap_is_Some. by apply Hd.
    - rewrite dict_get_alter_ne by done. by apply Hd. }
  destruct (CacheEntry.contents entry) as [blob|]; simpl;
    [destruct (Metadata.error new_metadata); simpl;
     [|destruct (Metadata.attr new_metadata) as [a|]; simpl;
       [destruct (stat.S_ISREG (Attributes.st_mode a)); simpl|]]|];
    apply Hdone; try done; eauto 10.
Qed.

Lemma sync_loop_frame changed_metadata s :
  (forall path, path ∈ changed_metadata.*1 ->
                is_Some (dict_get (_entry_key self path) (_entries s))) ->
  exists s',
    sync_loop self changed_metadata s = (Ok tt, s')
    /\ calls (world s') = calls (world s)
    /\ (forall key, key ∉ (_entry_key self <$> changed_metadata.*1) ->
                    dict_get key (_entries s') = dict_get key (_entries s)).
Proof.
  revert s. induction changed_metadata as [|[path m] rest IH]; intros s Hcached.
  - exists s. done.
  - cbn [sync_loop]. unfold bind.
    destruct (sync_entry_frame path m s) as (s1 & -> & Hc1 & Hf1 & Hs1).
    { apply Hcached. rewrite fmap_cons. by left. }
    destruct (IH s1) as (s2 & -> & Hc2 & Hf2).
    { intros p Hp. apply Hs1, Hcached. rewrite fmap_cons. by right. }
    exists s2. split; [done|]. split; [congruence|].
    intros key Hkey. rewrite !fmap_cons in Hkey. cbn [fst] in Hkey.
    apply not_elem_of_cons in Hkey as [Hne Hkey].
    rewrite Hf2 by done. by apply Hf1.
Qed.

(** X15: [sync] touches only what changed.  When the local machine
    reports changes for paths that are cached, every entry stored under
    another key is left exactly as it was, contents and time stamps
    included. *)
Theorem sync_touches_only_changed s changed_metadata key :
  get_changed_metadata_reply (_client self) (calls (world s))
    (sync_request self (_entries s)) = Ok changed_metadata ->
  (forall path, path ∈ changed_metadata.*1 ->
                is_Some (dict_get (_entry_key self path) (_entries s))) ->
  key ∉ (_entry_key self <$> changed_metadata.*1) ->
  dict_get key (_entries (sync self s).2) = dict_get key (_entries s).
Proof.
  intros Hreply Hcached Hkey. unfold sync. unfold_m.
  fold (sync_request self (_entries s)).
  destruct (sync_request self (_entries s)) as [|item request] eqn:Hreq; [done|].
  rewrite Hreply.
  destruct (sync_loop_frame changed_metadata
              (MkState (_entries s)
                 (set_calls (calls (world s)
                             ++ [CallGetChangedMetadata (item :: request)])
                            (world s))))
    as (s1 & Hrun & _ & Hframe); [done|].
  rewrite Hrun. specialize (Hframe key Hkey). cbn [_entries] in Hframe.
  destruct (_prefetch self).
  - by destruct (mark_previously_fetched_contents_reply _ _ _).
  - done.
Qed.

End sync_frame_facts.

(* ===================================================================== *)
(** * [LocalCacheService]: resolving prefetch suggestions *)
(* ===================================================================== *)

Section resolve_facts.
Import LocalCacheService.
Variable h : Host.

(** The suggestions for [path], in the order they were made. *)
Local Abbreviation for_path path suggestions :=
  (List.filter (fun s => String.eqb (PrefetchSuggestion.path s) path) suggestions).

Lemma group_by_path_snoc suggestions s :
  group_by_path (suggestions ++ [s])
  = dict_set (PrefetchSuggestion.path s)
      (default [] (dict_get (PrefetchSuggestion.path s) (group_by_path suggestions))
       ++ [s])
      (group_by_path suggestions).
Proof. unfold group_by_path. by rewrite foldl_app. Qed.

Lemma group_by_path_wf suggestions : dict_wf (group_by_path suggestions).
Proof.
  induction suggestions as [|s l IH] using rev_ind; [apply NoDup_nil_2|].
  rewrite group_by_path_snoc. by apply dict_wf_set.
Qed.

(** A path is a key of the groups when something was suggested for it, and
    its group is what was suggested for it. *)
Lemma group_by_path_get suggestions path :
  dict_get path (group_by_path suggestions)
  = match for_path path suggestions with
    | [] => None
    | group => Some group
    end.
Proof.
  induction suggestions as [|s l IH] using rev_ind; [done|].
  rewrite group_by_path_snoc, List.filter_app. cbn [List.filter].
  destruct (String.eqb_spec (PrefetchSuggestion.path s) path) as [->|Hne].
  - rewrite dict_get_set_eq, IH.
    by destruct (for_path path l).
  - rewrite dict_get_set_ne by done. by rewrite app_nil_r.
Qed.

Lemma existsb_for_path path suggestions :
  existsb PrefetchSuggestion.contents (for_path path suggestions)
  = existsb (fun s => String.eqb (PrefetchSuggestion.path s) path
                      && PrefetchSuggestion.contents s) suggestions.
Proof.
  induction suggestions as [|s l IH]; [done|]. cbn [List.filter existsb].
  destruct (String.eqb (PrefetchSuggestion.path s) path); cbn [existsb andb orb];
    by rewrite IH.
Qed.

Lemma get_metadata_any_state self self' path :
  (get_metadata h self path).1 = (get_metadata h self' path).1.
Proof. reflexivity. Qed.

Lemma _is_prefetchable_same self self' path :
  _prefetchable_paths self' = _prefetchable_paths self ->
  _is_prefetchable self' path = _is_prefetchable self path.
Proof. unfold _is_prefetchable. by intros ->. Qed.

(** What the loop of [_resolve_prefetches] appends, in terms of the state
    of the service it started in. *)
Lemma resolve_loop_spec items :
  forall self acc out self',
    resolve_loop h self items acc = (Ok out, self') ->
    exists new,
      out = acc ++ new
      /\ _prefetchable_paths self' = _prefetchable_paths self
      /\ _fetched_metadata self ⊆ _fetched_metadata self'
      /\ _fetched_contents self ⊆ _fetched_contents self'
      /\ (PrefetchEntry.path <$> new) `sublist_of` items.*1
      /\ forall entry, entry ∈ new ->
           exists group,
             (PrefetchEntry.path entry, group) ∈ items
             /\ _is_prefetchable self (PrefetchEntry.path entry) = Ok true
             /\ PrefetchEntry.metadata entry
                = (get_metadata h self (PrefetchEntry.path entry)).1
             /\ PrefetchEntry.path entry ∈ _fetched_metadata self'
             /\ (if existsb PrefetchSuggestion.contents group
                 then PrefetchEntry.path entry ∉ _fetched_contents self
                 else PrefetchEntry.path entry ∉ _fetched_metadata self)
             /\ (is_Some (PrefetchEntry.contents entry) ->
                 existsb PrefetchSuggestion.contents group = true
                 /\ Metadata.error (PrefetchEntry.metadata entry) = None
                 /\ PrefetchEntry.path entry ∈ _fetched_contents self').
Proof.
  induction items as [|[path group] rest IH]; intros self acc out self' Hrun.
  - cbn [resolve_loop] in Hrun. simplify_eq. exists []. rewrite app_nil_r.
    repeat split; try done. intros entry Hin. by apply elem_of_nil in Hin.
  - cbn [resolve_loop] in Hrun.
    assert (forall out self', resolve_loop h self rest acc = (Ok out, self') ->
              exists new, out = acc ++ new
      /\ _prefetchable_paths self' = _prefetchable_paths self
      /\ _fetched_metadata self ⊆ _fetched_metadata self'
      /\ _fetched_contents self ⊆ _fetched_contents self'
      /\ (PrefetchEntry.path <$> new) `sublist_of` ((path, group) :: rest).*1
      /\ forall entry, entry ∈ new ->
           exists group',
             (PrefetchEntry.path entry, group') ∈ (path, group) :: rest
             /\ _is_prefetchable self (PrefetchEntry.path entry) = Ok true
             /\ PrefetchEntry.metadata entry
                = (get_metadata h self (PrefetchEntry.path entry)).1
             /\ PrefetchEntry.path entry ∈ _fetched_metadata self'
             /\ (if existsb PrefetchSuggestion.contents group'
                 then PrefetchEntry.path entry ∉ _fetched_contents self
                 else PrefetchEntry.path entry ∉ _fetched_metadata self)
             /\ (is_Some (PrefetchEntry.contents entry) ->
                 existsb PrefetchSuggestion.contents group' = true
                 /\ Metadata.error (PrefetchEntry.metadata entry) = None
                 /\ PrefetchEntry.path entry ∈ _fetched_contents self')) as Hskip.
    { intros out0 self0 Hrun0.
      destruct (IH _ _ _ _ Hrun0) as (new & -> & Hp & Hm & Hc & Hsub & Hall).
      exists new. repeat split; try done.
      - rewrite fmap_cons. by apply sublist_cons.
      - intros entry Hin. destruct (Hall entry Hin) as (g & Hg & Hrest).
        exists g. split; [by right|done]. }
    destruct (_is_prefetchable self path) as [[|]|e] eqn:Hpre; [|by apply Hskip|done].
    destruct (existsb PrefetchSuggestion.contents group
              && bool_decide (path ∈ _fetched_contents self)) eqn:Hc1;
      [by apply Hskip|].
    destruct (negb (existsb PrefetchSuggestion.contents group)
              && bool_decide (path ∈ _fetched_metadata self)) eqn:Hc2;
      [by apply Hskip|].
    clear Hskip.
    assert (if existsb PrefetchSuggestion.contents group
            then path ∉ _fetched_contents self
            else path ∉ _fetched_metadata self) as Hfresh.
    { destruct (existsb PrefetchSuggestion.contents group); cbn [negb andb] in *.
      - by apply bool_decide_eq_false in Hc1.
      - by apply bool_decide_eq_false in Hc2. }
    clear Hc1 Hc2.
    destruct (get_metadata h self path) as [metadata self1] eqn:Hmeta.
    assert (metadata = (get_metadata h self path).1) as Hmd by (by rewrite Hmeta).
    assert (self1 = add_fetched_metadata self path) as Hs1.
    { unfold get_metadata in Hmeta. by simplify_eq. }
    clear Hmeta.
    match type of Hrun with
    | (let (_, _) := ?c in _) = _ => destruct c as [contents self2] eqn:Hread
    end.
    assert (_prefetchable_paths self2 = _prefetchable_paths self
            /\ _fetched_metadata self2 = {[path]} ∪ _fetched_metadata self
            /\ _fetched_contents self ⊆ _fetched_contents self2
            /\ (is_Some contents ->
                existsb PrefetchSuggestion.contents group = true
                /\ Metadata.error metadata = None
                /\ path ∈ _fetched_contents self2)) as (Hp2 & Hm2 & Hc2 & Hgot).
    { subst self1. unfold readfile in Hread.
      destruct (existsb PrefetchSuggestion.contents group);
        [destruct (Metadata.error metadata)|]; cbn [is_set negb andb] in Hread;
        [| destruct (read_binary h path) |]; simplify_eq; cbn;
        (split; [done|]); (split; [done|]);
        (split; [done || apply union_subseteq_r|]);
        intros Hsome; try (by destruct Hsome as [? [=]]).
      split; [done|]. split; [done|].
      apply elem_of_union_l. by apply elem_of_singleton. }
    destruct (IH _ _ _ _ Hrun) as (new & -> & Hp & Hm & Hc & Hsub & Hall).
    exists (PrefetchEntry.Make path metadata contents :: new).
    split; [by rewrite <- app_assoc|].
    assert (_fetched_metadata self ⊆ _fetched_metadata self2) as Hm2'.
    { rewrite Hm2. apply union_subseteq_r. }
    split; [congruence|].
    split; [by etrans|]. split; [by etrans|].
    split; [rewrite !fmap_cons; by apply sublist_skip|].
    intros entry Hin. apply elem_of_cons in Hin as [->|Hin].
    + exists group. cbn [PrefetchEntry.path PrefetchEntry.metadata
                          PrefetchEntry.contents].
      split; [by left|]. split; [done|]. split; [done|].
      split. { apply Hm. rewrite Hm2. apply elem_of_union_l.
               by apply elem_of_singleton. }
      split; [done|].
      intros Hsome. destruct (Hgot Hsome) as (? & ? & ?).
      repeat split; try done. by apply Hc.
    + destruct (Hall entry Hin) as (g & Hg & Hpre' & Hmeta' & Hfm & Hfr & Hco).
      exists g. split; [by right|].
      split; [by rewrite <- (_is_prefetchable_same self self2)|].
      split; [done|]. split; [done|]. split; [|done].
      destruct (existsb PrefetchSuggestion.contents g);
        intros Hx; apply Hfr; [by apply Hc2|by apply Hm2'].
Qed.

End resolve_facts.

Section resolve_theorems.
Import LocalCacheService.
Variable h : Host.

(** The group of a path that is a key of the groups. *)
Lemma group_by_path_elem suggestions path group :
  (path, group) ∈ group_by_path suggestions ->
  group = List.filter (fun s => String.eqb (PrefetchSuggestion.path s) path)
                      suggestions
  /\ exists s, s ∈ suggestions /\ PrefetchSuggestion.path s = path.
Proof.
  intros Hin. apply dict_get_elem in Hin; [|apply group_by_path_wf].
  rewrite group_by_path_get in Hin.
  destruct (List.filter _ suggestions) as [|s l] eqn:Hfilter; [done|].
  simplify_eq. split; [done|].
  assert (In s (List.filter
                  (fun s => String.eqb (PrefetchSuggestion.path s) path)
                  suggestions)) as Hs by (rewrite Hfilter; by left).
  apply filter_In in Hs as [Hs Hpath].
  exists s. split; [by apply list_elem_of_In|by apply String.eqb_eq].
Qed.

(** X16: what [_resolve_prefetches] returns.  Every entry is for a path
    that was suggested and that is prefetchable, no path comes twice, the
    metadata is what [get_metadata] reads for the path, and the path is
    recorded as fetched. *)
Theorem resolve_prefetches_sound self suggestions out self' :
  _resolve_prefetches h self suggestions = (Ok out, self') ->
  NoDup (PrefetchEntry.path <$> out)
  /\ forall entry, entry ∈ out ->
       _is_prefetchable self (PrefetchEntry.path entry) = Ok true
       /\ (exists s, s ∈ suggestions
                     /\ PrefetchSuggestion.path s = PrefetchEntry.path entry)
       /\ PrefetchEntry.metadata entry
          = (get_metadata h self (PrefetchEntry.path entry)).1
       /\ PrefetchEntry.path entry ∈ _fetched_metadata self'.
Proof.
  unfold _resolve_prefetches. intros Hrun.
  apply resolve_loop_spec in Hrun as (new & -> & _ & _ & _ & Hsub & Hall).
  rewrite app_nil_l. split.
  - eapply sublist_NoDup; [|exact Hsub]. apply group_by_path_wf.
  - intros entry Hin.
    destruct (Hall entry Hin) as (group & Hgroup & Hpre & Hmeta & Hfm & _).
    apply group_by_path_elem in Hgroup as [_ Hs]. done.
Qed.

(** X17: what [_resolve_prefetches] leaves out.  A path for which contents
    were suggested is resolved only if its contents were not fetched
    before, and a path for which only metadata was suggested only if its
    metadata was not; contents come with an entry only when they were
    suggested for the path and its metadata carries no error. *)
Theorem resolve_prefetches_skips_fetched self suggestions out self' entry :
  _resolve_prefetches h self suggestions = (Ok out, self') ->
  entry ∈ out ->
  let wanted :=
    existsb (fun s => String.eqb (PrefetchSuggestion.path s)
                                 (PrefetchEntry.path entry)
                      && PrefetchSuggestion.contents s) suggestions in
  (wanted = true -> PrefetchEntry.path entry ∉ _fetched_contents self)
  /\ (wanted = false -> PrefetchEntry.path entry ∉ _fetched_metadata self)
  /\ (is_Some (PrefetchEntry.contents entry) ->
      wanted = true /\ Metadata.error (PrefetchEntry.metadata entry) = None).
Proof.
  intros Hrun Hin wanted. unfold _resolve_prefetches in Hrun.
  apply resolve_loop_spec in Hrun as (new & -> & _ & _ & _ & _ & Hall).
  rewrite app_nil_l in Hin.
  destruct (Hall entry Hin) as (group & Hgroup & _ & _ & _ & Hfresh & Hgot).
  apply group_by_path_elem in Hgroup as [-> _].
  rewrite existsb_for_path in Hfresh, Hgot. fold wanted in Hfresh, Hgot.
  split; [by intros Hw; rewrite Hw in Hfresh|].
  split; [by intros Hw; rewrite Hw in Hfresh|].
  intros Hsome. by destruct (Hgot Hsome) as (? & ? & _).
Qed.

(** X18: contents that the remote side has are not sent again.  After
    [mark_previously_fetched_contents(paths)], whatever [readfile_prefetch]
    returns carries no contents for a marked path, nor for the file that
    was just read. *)
Theorem readfile_prefetch_skips_marked self paths path contents prefetches self' entry :
  readfile_prefetch h (mark_previously_fetched_contents self paths) path
  = (Ok (contents, prefetches), self') ->
  entry ∈ prefetches ->
  is_Some (PrefetchEntry.contents entry) ->
  (PrefetchEntry.path entry ∉ paths) /\ PrefetchEntry.path entry <> path.
Proof.
  unfold readfile_prefetch, readfile. intros Hrun Hin Hsome.
  destruct (read_binary h path) as [data|]; [|done].
  destruct (file_read h path) as [suggestions|];
    [|simplify_eq; by apply elem_of_nil in Hin].
  destruct (_resolve_prefetches h _ suggestions) as [[out|] self1] eqn:Hres;
    [|simplify_eq; by apply elem_of_nil in Hin].
  simplify_eq. unfold _resolve_prefetches in Hres.
  apply resolve_loop_spec in Hres as (new & -> & _ & _ & _ & _ & Hall).
  rewrite app_nil_l in Hin.
  destruct (Hall entry Hin) as (group & _ & _ & _ & _ & Hfresh & Hgot).
  destruct (Hgot Hsome) as (Hwanted & _ & _). rewrite Hwanted in Hfresh.
  cbn in Hfresh. split.
  - intros Hp. apply Hfresh. apply elem_of_union_r, elem_of_union_l.
    by apply elem_of_list_to_set.
  - intros Hp. apply Hfresh. apply elem_of_union_l. by apply elem_of_singleton.
Qed.

End resolve_theorems.

Lemma resolve_prefetches_sound_witness :
  exists out self',
    LocalCacheService._resolve_prefetches Demo.host Sample.service Demo.suggestions
    = (Ok out, self')
    /\ NoDup (PrefetchEntry.path <$> out).
Proof.
  destruct (LocalCacheService._resolve_prefetches Demo.host Sample.service
              Demo.suggestions) as [[out|e] self'] eqn:Hrun.
  - exists out, self'. split; [done|].
    exact (proj1 (resolve_prefetches_sound _ _ _ _ _ Hrun)).
  - exfalso. vm_compute in Hrun. discriminate Hrun.
Defined.

Lemma resolve_prefetches_skips_fetched_witness :
  let self :=
    LocalCacheService.mark_previously_fetched_contents Sample.service
      ["/usr/lib/libc.so.6"] in
  let entry :=
    PrefetchEntry.Make "/usr/lib/libm.so.6" Sample.file_meta
      (Some (FileContents.Make [] "e3b0c442" 0)) in
  (entry.(PrefetchEntry.path) ∉ LocalCacheService._fetched_contents self)
  /\ Metadata.error (PrefetchEntry.metadata entry) = None.
Proof.
  intros self entry.
  destruct (LocalCacheService._resolve_prefetches Demo.host self Demo.suggestions)
    as [out self'] eqn:Hrun.
  assert (out = Ok [entry]) as ->.
  { vm_compute in Hrun. injection Hrun as <- _. reflexivity. }
  destruct (resolve_prefetches_skips_fetched _ _ _ _ _ entry Hrun)
    as (Hfresh & _ & Hgot).
  - by left.
  - split; [by apply Hfresh|]. apply Hgot. by eexists.
Defined.

Lemma readfile_prefetch_skips_marked_witness :
  exists contents prefetches self',
    LocalCacheService.readfile_prefetch Demo.host
      (LocalCacheService.mark_previously_fetched_contents Sample.service
         ["/usr/lib/libc.so.6"]) "/usr/bin/env"
    = (Ok (contents, prefetches), self')
    /\ forall entry, entry ∈ prefetches ->
         is_Some (PrefetchEntry.contents entry) ->
         PrefetchEntry.path entry <> "/usr/lib/libc.so.6".
Proof.
  destruct (LocalCacheService.readfile_prefetch Demo.host
              (LocalCacheService.mark_previously_fetched_contents Sample.service
                 ["/usr/lib/libc.so.6"]) "/usr/bin/env")
    as [[[contents prefetches]|e] self'] eqn:Hrun.
  - exists contents, prefetches, self'. split; [done|].
    intros entry Hin Hsome Hpath.
    destruct (readfile_prefetch_skips_marked _ _ _ _ _ _ _ _ Hrun Hin Hsome)
      as [Hnot _].
    apply Hnot. rewrite Hpath. by left.
  - exfalso. vm_compute in Hrun. discriminate Hrun.
Defined.

Lemma sync_touches_only_changed_witness :
  dict_get "machine:/etc/hosts"
    (_entries (RemoteCache.sync Demo.cache
                 (MkState Demo.entries Sample.quiet_world)).2)
  = Some (Sample.entry "/etc/hosts" 8 (Some (Sample.blob "hosts" 3))).2.
Proof.
  rewrite (sync_touches_only_changed Demo.cache
             (MkState Demo.entries Sample.quiet_world)
             [("/usr/bin/env", Demo.changed_meta)]).
  - reflexivity.
  - reflexivity.
  - intros path Hin. apply elem_of_cons in Hin as [->|Hin].
    + by eexists.
    + by apply elem_of_nil in Hin.
  - intros Hin. apply elem_of_cons in Hin as [Heq|Hin]; [done|].
    by apply elem_of_nil in Hin.
Defined.

(* ===================================================================== *)
(** * [LocalCacheService]: metadata *)
(* ===================================================================== *)

Section service_metadata_facts.
Import LocalCacheService.
Variable h : Host.

Local Abbreviation fresh path := (get_metadata h __init__ path).1.

Local Abbreviation changed_step :=
  (fun (acc : PyDict Metadata.t * t) (item : string * Metadata.t) =>
     let (changed_metadata, self) := acc in
     let (path, metadata) := item in
     let (new_metadata, self) := get_metadata h self path in
     if negb (significant_eqb (_significant_meta new_metadata)
                              (_significant_meta metadata))
     then (dict_set path new_metadata changed_metadata, self)
     else (changed_metadata, self)).

Lemma changed_fold cached :
  forall acc self path,
    dict_wf cached ->
    dict_get path (foldl changed_step (acc, self) cached).1
    = match dict_get path cached with
      | Some metadata =>
          if significant_eqb (_significant_meta (fresh path))
                             (_significant_meta metadata)
          then dict_get path acc
          else Some (fresh path)
      | None => dict_get path acc
      end.
Proof.
  induction cached as [|[p m] cached IH]; intros acc self path Hwf; [done|].
  apply dict_wf_cons in Hwf as [Hp Hwf]. cbn [foldl dict_get].
  destruct (get_metadata h self p) as [new self1] eqn:Hnew.
  assert (new = fresh p) as -> by (unfold get_metadata in *; by simplify_eq).
  destruct (String.eqb_spec path p) as [->|Hne].
  - apply dict_get_None_keys in Hp.
    destruct (significant_eqb _ (_significant_meta m)); cbn [negb];
      rewrite IH, Hp by done; [done|]. apply dict_get_set_eq.
  - destruct (significant_eqb (_significant_meta (fresh p)) (_significant_meta m));
      cbn [negb]; rewrite IH by done; [done|].
    rewrite dict_get_set_ne by done. done.
Qed.

Lemma changed_fold_fetched cached :
  forall acc self path,
    path ∈ _fetched_metadata (foldl changed_step (acc, self) cached).2
    <-> path ∈ dict_keys cached \/ path ∈ _fetched_metadata self.
Proof.
  induction cached as [|[p m] cached IH]; intros acc self path.
  - cbn. split; [by right|]. intros [Hin|]; [|done]. by apply elem_of_nil in Hin.
  - cbn [foldl]. rewrite dict_keys_cons.
    destruct (get_metadata h self p) as [new self1] eqn:Hnew.
    assert (self1 = add_fetched_metadata self p) as ->
      by (unfold get_metadata in *; by simplify_eq).
    destruct (negb _); rewrite IH; cbn [_fetched_metadata add_fetched_metadata];
      rewrite elem_of_cons, elem_of_union, elem_of_singleton; tauto.
Qed.

(** X19: [get_changed_metadata] over a whole map of cached metadata.  The
    answer holds a path exactly when the metadata read now differs from the
    cached one in more than the access time, and then holds the metadata
    read now; a path that was not asked about is not in the answer.  Every
    path asked about is recorded as fetched, changed or not. *)
Theorem get_changed_metadata_all self cached_metadata path :
  dict_wf cached_metadata ->
  let changed := (get_changed_metadata h self cached_metadata).1 in
  let self' := (get_changed_metadata h self cached_metadata).2 in
  match dict_get path cached_metadata with
  | Some metadata =>
      (differ_only_in_atime metadata (get_metadata h self path).1 ->
       dict_get path changed = None)
      /\ (~ differ_only_in_atime metadata (get_metadata h self path).1 ->
          dict_get path changed = Some (get_metadata h self path).1)
      /\ path ∈ _fetched_metadata self'
  | None => dict_get path changed = None
  end.
Proof.
  intros Hwf changed self'. subst changed self'. unfold get_changed_metadata.
  rewrite changed_fold by done.
  destruct (dict_get path cached_metadata) as [metadata|] eqn:Hget; [|done].
  change (get_metadata h self path).1 with (fresh path).
  split; [|split].
  - intros Hsame. apply differ_only_in_atime_sym, significant_eqb_spec in Hsame.
    by rewrite Hsame.
  - intros Hdiff.
    destruct (significant_eqb _ (_significant_meta metadata)) eqn:E; [|done].
    exfalso. apply Hdiff, differ_only_in_atime_sym. by apply significant_eqb_spec.
  - apply changed_fold_fetched. left. apply dict_get_is_Some_keys. by eexists.
Qed.

End service_metadata_facts.

Lemma get_changed_metadata_all_witness :
  dict_get "/etc/hosts"
    (LocalCacheService.get_changed_metadata Sample.host Sample.service
       [("/etc/hosts", Sample.file_meta); ("/etc/passwd", Sample.file_meta)]).1
  = None
  /\ dict_get "/etc/passwd"
       (LocalCacheService.get_changed_metadata Sample.host Sample.service
          [("/etc/hosts", Sample.file_meta); ("/etc/passwd", Sample.file_meta)]).1
     = Some Sample.missing_meta.
Proof.
  assert (dict_wf [("/etc/hosts", Sample.file_meta);
                   ("/etc/passwd", Sample.file_meta)]) as Hwf.
  { unfold dict_wf. apply (bool_decide_unpack _). vm_compute. exact I. }
  split.
  - refine (proj1 (get_changed_metadata_all Sample.host Sample.service _
                     "/etc/hosts" Hwf) _).
    apply significant_eqb_spec. reflexivity.
  - refine (proj1 (proj2 (get_changed_metadata_all Sample.host Sample.service _
                            "/etc/passwd" Hwf)) _).
    intros Hsame%significant_eqb_spec. discriminate Hsame.
Defined.

Section service_to_cache_facts.
Import RemoteCache.
Variable h : LocalCacheService.Host.
Variable self : RemoteCache.t.

(** X20: the cache answers what the local machine said.  When the entry of
    a path holds the metadata that [LocalCacheService.get_metadata] built,
    [RemoteCache.get_metadata] raises the error of [lstat] or [readlink]
    when there was one, and returns the attributes that [lstat] gave, made
    read-only (with the link target for a symlink) otherwise; the service
    never builds metadata for which the cache has to report that attributes
    are missing. *)
Theorem cached_service_metadata_outcome service path local_path s entry :
  dict_get (_entry_key self path) (_entries s) = Some entry ->
  CacheEntry.meta entry
  = (LocalCacheService.get_metadata h service local_path).1 ->
  (get_metadata self path s).1
  = match LocalCacheService.os_lstat h local_path with
    | Raise e => Raise e
    | Ok a =>
        if stat.S_ISLNK (Attributes.st_mode a) then
          match LocalCacheService.os_readlink h local_path with
          | Ok target =>
              Ok (Metadata.Make (Some (Attributes.as_readonly a)) (Some target) None)
          | Raise e => Raise e
          end
        else Ok (Metadata.Make (Some (Attributes.as_readonly a)) None None)
    end.
Proof.
  intros H Hmeta. rewrite (get_metadata_cached _ _ _ _ H), Hmeta.
  unfold LocalCacheService.get_metadata. cbn [fst].
  destruct (LocalCacheService.os_lstat h local_path) as [a|e]; [|done].
  destruct (stat.S_ISLNK (Attributes.st_mode a)); [|done].
  by destruct (LocalCacheService.os_readlink h local_path).
Qed.

End service_to_cache_facts.

Lemma cached_service_metadata_outcome_witness :
  (RemoteCache.get_metadata Sample.cache "/etc/passwd"
     (MkState [("machine:/etc/passwd",
                CacheEntry.Make "/etc/passwd" Sample.missing_meta 1 2 None)]
              Sample.quiet_world)).1
  = Raise (FileNotFoundError [PInt 2; PStr "No such file or directory"]).
Proof.
  rewrite (cached_service_metadata_outcome Sample.host Sample.cache
             Sample.service "/etc/passwd" "/etc/passwd" _
             (CacheEntry.Make "/etc/passwd" Sample.missing_meta 1 2 None));
    reflexivity.
Defined.

(* ===================================================================== *)
(** * The exception codec: what can be decoded *)
(* ===================================================================== *)

Section decode_facts.
Import Encoding.
Variable py : Interpreter.


End decode_facts.


(* ===================================================================== *)
(** * [LockIndex]: the bookkeeping of the locks *)
(* ===================================================================== *)

Section lock_index_facts.
Import LockIndex.

Lemma run_snoc trace e self :
  run (trace ++ [e]) self = result_bind (run trace self) (step e).
Proof. unfold run. by rewrite foldl_app. Qed.

Lemma in_use_snoc trace e key :
  in_use (trace ++ [e]) key
  = match e with
    | Enter k => if String.eqb k key then in_use trace key + 1 else in_use trace key
    | Leave k => if String.eqb k key then in_use trace key - 1 else in_use trace key
    end.
Proof. unfold in_use. by rewrite foldl_app. Qed.

Lemma well_nested_snoc trace e :
  well_nested (trace ++ [e]) ->
  well_nested trace /\ forall key, 0 <= in_use (trace ++ [e]) key.
Proof.
  intros Hwn. split.
  - intros before after key ->. apply (Hwn before (after ++ [e]) key).
    by rewrite app_assoc.
  - intros key. apply (Hwn (trace ++ [e]) [] key). by rewrite app_nil_r.
Qed.

Lemma well_nested_in_use trace key : well_nested trace -> 0 <= in_use trace key.
Proof. intros Hwn. apply (Hwn trace [] key). by rewrite app_nil_r. Qed.

(** X22: the index holds a lock for a key exactly while some thread is
    inside [lock(key)], and counts those threads.  Whatever the threads do,
    in whatever order, the bookkeeping never raises; the lock of a key that
    nobody uses any more is deleted, so that [lock_count] is back at zero
    once every thread has left. *)
Theorem lock_index_bookkeeping trace :
  well_nested trace ->
  exists self,
    run trace __init__ = Ok self
    /\ (forall key, key ∈ _locks self <-> 0 < in_use trace key)
    /\ (forall key,
          _lock_users self !! key
          = if 0 <? in_use trace key then Some (in_use trace key) else None)
    /\ ((forall key, in_use trace key = 0) -> lock_count self = 0%nat).
Proof.
  intros Hwn.
  assert (exists self,
            run trace __init__ = Ok self
            /\ (forall key, key ∈ _locks self <-> 0 < in_use trace key)
            /\ (forall key,
                  _lock_users self !! key
                  = if 0 <? in_use trace key then Some (in_use trace key) else None))
    as (self & Hrun & Hlocks & Husers).
  { induction trace as [|e trace IH] using rev_ind.
    - exists __init__. split; [done|]. split; [|done].
      intros key. cbn. split; [by intros ?%not_elem_of_empty|lia].
    - apply well_nested_snoc in Hwn as [Hwn Hnow].
      destruct (IH Hwn) as (self & Hrun & Hlocks & Husers).
      rewrite run_snoc, Hrun. cbn [result_bind step].
      destruct e as [k|k].
      + exists (enter k self). split; [done|]. cbn [enter _locks _lock_users].
        split; intros key; rewrite in_use_snoc;
          pose proof (well_nested_in_use trace key Hwn) as Hge;
          destruct (String.eqb_spec k key) as [->|Hne].
        * split; [lia|]. intros _. apply elem_of_union_l. by apply elem_of_singleton.
        * rewrite elem_of_union, elem_of_singleton, Hlocks.
          split; [intros [?|?]; congruence|auto].
        * rewrite lookup_insert_eq, Husers.
          destruct (Z.ltb_spec 0 (in_use trace key));
            destruct (Z.ltb_spec 0 (in_use trace key + 1)); cbn [default id];
            try lia; f_equal; lia.
        * rewrite lookup_insert_ne by done. apply Husers.
      + pose proof (Hnow k) as Hk. rewrite in_use_snoc in Hk.
        rewrite String.eqb_refl in Hk.
        cbn [step]. unfold leave. rewrite (Husers k).
        destruct (Z.ltb_spec 0 (in_use trace k)) as [Hpos|]; [|lia].
        cbn [default id].
        destruct (Z.eqb_spec (in_use trace k - 1) 0) as [Hzero|Hmore].
        * rewrite bool_decide_eq_true_2 by (by apply Hlocks).
          eexists. split; [reflexivity|]. cbn [_locks _lock_users].
          split; intros key; rewrite in_use_snoc;
            destruct (String.eqb_spec k key) as [->|Hne].
          -- rewrite elem_of_difference, elem_of_singleton. split; [tauto|lia].
          -- rewrite elem_of_difference, elem_of_singleton, Hlocks.
             split; [tauto|]. intros ?. split; [done|congruence].
          -- rewrite lookup_delete_eq.
             by destruct (Z.ltb_spec 0 (in_use trace key - 1)); [lia|].
          -- rewrite lookup_delete_ne by done. apply Husers.
        * eexists. split; [reflexivity|]. cbn [_locks _lock_users].
          split; intros key; rewrite in_use_snoc;
            destruct (String.eqb_spec k key) as [->|Hne].
          -- rewrite Hlocks. lia.
          -- apply Hlocks.
          -- rewrite lookup_insert_eq.
             by destruct (Z.ltb_spec 0 (in_use trace key - 1)); [|lia].
          -- rewrite lookup_insert_ne by done. apply Husers. }
  exists self. split; [done|]. split; [done|]. split; [done|].
  intros Hidle. unfold lock_count.
  assert (_locks self = ∅) as ->; [|apply size_empty].
  apply set_eq. intros key. rewrite Hlocks, (Hidle key).
  split; [lia|by intros ?%not_elem_of_empty].
Qed.

End lock_index_facts.

Lemma lock_index_bookkeeping_witness :
  exists self,
    LockIndex.run [LockIndex.Enter "a"; LockIndex.Enter "b";
                   LockIndex.Leave "b"; LockIndex.Leave "a"]
                  LockIndex.__init__ = Ok self
    /\ LockIndex.lock_count self = 0%nat.
Proof.
  destruct (lock_index_bookkeeping
              [LockIndex.Enter "a"; LockIndex.Enter "b";
               LockIndex.Leave "b"; LockIndex.Leave "a"])
    as (self & Hrun & _ & _ & Hidle).
  - intros before after key Heq.
    assert (forall b : bool, 0 <= (if b then 0 + 1 else 0)) as H1
      by (intros []; lia).
    assert (forall a b : bool,
              0 <= (if b then (if a then 0 + 1 else 0) + 1
                    else (if a then 0 + 1 else 0))) as H2
      by (intros [] []; lia).
    assert (forall a b : bool,
              0 <= (if b then (if b then (if a then 0 + 1 else 0) + 1
                               else (if a then 0 + 1 else 0)) - 1
                    else (if b then (if a then 0 + 1 else 0) + 1
                          else (if a then 0 + 1 else 0)))) as H3
      by (intros [] []; lia).
    assert (forall a b : bool,
              0 <= (if a then
                      (if b then (if b then (if a then 0 + 1 else 0) + 1
                                  else (if a then 0 + 1 else 0)) - 1
                       else (if b then (if a then 0 + 1 else 0) + 1
                             else (if a then 0 + 1 else 0))) - 1
                    else
                      (if b then (if b then (if a then 0 + 1 else 0) + 1
                                  else (if a then 0 + 1 else 0)) - 1
                       else (if b then (if a then 0 + 1 else 0) + 1
                             else (if a then 0 + 1 else 0))))) as H4
      by (intros [] []; lia).
    destruct before as [|e1 [|e2 [|e3 [|e4 [|e5 before]]]]];
      simplify_eq/=; unfold LockIndex.in_use; cbn [foldl];
      [lia|apply H1|apply H2|apply H3|apply H4].
  - exists self. split; [done|]. apply Hidle. intros key.
    unfold LockIndex.in_use. cbn [foldl].
    destruct (String.eqb "a" key), (String.eqb "b" key); lia.
Defined.

(* ===================================================================== *)
(** * [RemoteCachedFileSystem] *)
(* ===================================================================== *)

Section cached_fs_facts.
Import RemoteCachedFileSystem.
Variable base : Super.
Variable _cache : RemoteCache.t.

(** The state after the entry of [path] was touched. *)
Local Abbreviation touched path s :=
  (MkState (dict_alter (CacheEntry.set_last_access (clock (world s)))
                       (RemoteCache._entry_key _cache path) (_entries s))
           (set_clock (clock (world s) + 1) (world s))).

(** X25: [readlink] on a cacheable path whose entry is cached with
    attributes and without error is answered from the cache, without a call
    to the local machine: the stored link target, or [OSError(EINVAL)] when
    the entry has none (the path is no symlink) or an empty one. *)
Theorem readlink_cached path s entry a :
  RemoteCache.is_cacheable _cache path = Ok true ->
  dict_get (RemoteCache._entry_key _cache path) (_entries s) = Some entry ->
  Metadata.attr (CacheEntry.meta entry) = Some a ->
  Metadata.error (CacheEntry.meta entry) = None ->
  readlink base _cache path s
  = (match Metadata.link (CacheEntry.meta entry) with
     | Some link =>
         if String.eqb link "" then Raise (OSError [PInt EINVAL]) else Ok link
     | None => Raise (OSError [PInt EINVAL])
     end, touched path s).
Proof.
  intros Hcacheable H Hattr Herr.
  unfold readlink, is_cacheable, bind at 1. rewrite Hcacheable. cbn [negb].
  unfold bind. rewrite (get_metadata_cached _ _ _ _ H), Herr, Hattr.
  cbn [Metadata.link Metadata.replace_attr].
  destruct (Metadata.link (CacheEntry.meta entry)) as [link|]; [|done].
  by destruct (String.eqb link "").
Qed.

(** X26: [getattr] on a cacheable path whose entry is cached with
    attributes and without error returns the ten declared attributes and
    nothing else (what else [os.lstat] reported on the local machine, like
    [st_blocks], is not passed on): the mode with the three write bits
    cleared, the other nine values as stored.  Only the [last_access] of
    the entry changes, and the local machine is not asked. *)
Theorem getattr_cached path fh s entry a :
  RemoteCache.is_cacheable _cache path = Ok true ->
  dict_get (RemoteCache._entry_key _cache path) (_entries s) = Some entry ->
  Metadata.attr (CacheEntry.meta entry) = Some a ->
  Metadata.error (CacheEntry.meta entry) = None ->
  getattr base _cache path fh s
  = (Ok [("st_mode",
          PInt (Z.land (Attributes.st_mode a)
                       (Z.lnot (Z.lor (Z.lor stat.S_IWUSR stat.S_IWGRP)
                                      stat.S_IWOTH))));
         ("st_ino", PInt (Attributes.st_ino a));
         ("st_dev", PInt (Attributes.st_dev a));
         ("st_nlink", PInt (Attributes.st_nlink a));
         ("st_uid", PInt (Attributes.st_uid a));
         ("st_gid", PInt (Attributes.st_gid a));
         ("st_size", PInt (Attributes.st_size a));
         ("st_atime_ns", opt_int (Attributes.st_atime_ns a));
         ("st_mtime_ns", PInt (Attributes.st_mtime_ns a));
         ("st_ctime_ns", PInt (Attributes.st_ctime_ns a))],
     touched path s).
Proof.
  intros Hcacheable H Hattr Herr.
  unfold getattr, is_cacheable, bind at 1. rewrite Hcacheable. cbn [negb].
  unfold bind. rewrite (get_metadata_cached _ _ _ _ H), Herr, Hattr.
  reflexivity.
Qed.

(** X27: a relative path is not passed on to the local machine when the
    first cacheable path is absolute (as all the default ones are):
    [os.path.commonpath] refuses the mix, and [getattr], [readlink], [open]
    and [flush] raise its [ValueError] and leave the state alone. *)
Theorem relative_path_raises path fh flags fuel s first others :
  posixpath.startswith_sep path = false ->
  RemoteCache._cacheable_paths _cache = first :: others ->
  posixpath.startswith_sep first = true ->
  let e := ValueError [PStr "Can't mix absolute and relative paths"] in
  getattr base _cache path (Some fh) s = (Raise e, s)
  /\ readlink base _cache path s = (Raise e, s)
  /\ open base _cache path flags fuel s = Some (Raise e, s)
  /\ flush base _cache path fh s = (Raise e, s).
Proof.
  intros Hrel Hpaths Habs e.
  assert (RemoteCache.is_cacheable _cache path = Raise e) as Hraise.
  { unfold RemoteCache.is_cacheable. rewrite Hpaths.
    cbn [posixpath.under_any posixpath.commonpath forallb].
    by rewrite Hrel, Habs. }
  unfold getattr, readlink, open, flush, is_cacheable, bind.
  by rewrite Hraise.
Qed.

End cached_fs_facts.

Lemma readlink_cached_witness :
  (RemoteCachedFileSystem.readlink DemoFs.base Sample.cache "/usr/bin/python"
     (MkState [("machine:/usr/bin/python",
                CacheEntry.Make "/usr/bin/python" DemoFs.link_meta 1 2 None)]
              Sample.quiet_world)).1
  = Ok "python3"
  /\ (RemoteCachedFileSystem.readlink DemoFs.base Sample.cache "/usr/bin/env"
        (MkState Sample.cached_env Sample.quiet_world)).1
     = Raise (RemoteCachedFileSystem.OSError [PInt 22]).
Proof.
  split.
  - rewrite (readlink_cached DemoFs.base Sample.cache "/usr/bin/python" _
               (CacheEntry.Make "/usr/bin/python" DemoFs.link_meta 1 2 None)
               (Attributes.Make 41471 9 64769 1 0 0 7 (Some 1000) 2000 3000
                                [("st_blocks", PInt 0)]));
      reflexivity.
  - rewrite (readlink_cached DemoFs.base Sample.cache "/usr/bin/env" _
               (Sample.entry "/usr/bin/env" 7 (Some (Sample.blob "old" 3))).2
               Sample.file_attr);
      reflexivity.
Defined.

Lemma getattr_cached_witness :
  (RemoteCachedFileSystem.getattr DemoFs.base Sample.cache "/usr/bin/python" None
     (MkState [("machine:/usr/bin/python",
                CacheEntry.Make "/usr/bin/python" DemoFs.link_meta 1 2 None)]
              Sample.quiet_world)).1
  = Ok [("st_mode", PInt 41325); ("st_ino", PInt 9); ("st_dev", PInt 64769);
        ("st_nlink", PInt 1); ("st_uid", PInt 0); ("st_gid", PInt 0);
        ("st_size", PInt 7); ("st_atime_ns", PInt 1000);
        ("st_mtime_ns", PInt 2000); ("st_ctime_ns", PInt 3000)].
Proof.
  rewrite (getattr_cached DemoFs.base Sample.cache "/usr/bin/python" None
             (MkState [("machine:/usr/bin/python",
                        CacheEntry.Make "/usr/bin/python" DemoFs.link_meta 1 2 None)]
                      Sample.quiet_world)
             (CacheEntry.Make "/usr/bin/python" DemoFs.link_meta 1 2 None)
             (Attributes.Make 41471 9 64769 1 0 0 7 (Some 1000) 2000 3000
                              [("st_blocks", PInt 0)]));
    reflexivity.
Defined.

Lemma relative_path_raises_witness :
  RemoteCachedFileSystem.readlink DemoFs.base Sample.cache "usr/bin/env"
    (MkState Sample.cached_env Sample.quiet_world)
  = (Raise (ValueError [PStr "Can't mix absolute and relative paths"]),
     MkState Sample.cached_env Sample.quiet_world).
Proof.
  refine (proj1 (proj2 (relative_path_raises DemoFs.base Sample.cache
                          "usr/bin/env" 0 0 0
                          (MkState Sample.cached_env Sample.quiet_world)
                          "/bin" _ _ _ _)));
    reflexivity.
Defined.

(* ===================================================================== *)
(** * [RemoteCache.save] without an index to merge *)
(* ===================================================================== *)

Section save_load_facts.
Import RemoteCache.
Variable self : RemoteCache.t.

(** X2: an index that is missing or cannot be decoded does not stop
    [save]: the merge is skipped, and the save goes on as one that was asked
    not to merge. *)
Theorem save_without_readable_index s :
  (forall disk_entries, index_file (world s) <> IndexOk disk_entries) ->
  save self true s = save self false s.
Proof.
  intros Hindex. rewrite !save_run. unfold entries_before_lru.
  destruct (index_file (world s)) as [| |disk_entries]; try done.
  by destruct (Hindex disk_entries).
Qed.

End save_load_facts.

Lemma save_without_readable_index_witness :
  RemoteCache.save Sample.cache true (MkState Sample.cached_env Sample.quiet_world)
  = RemoteCache.save Sample.cache false (MkState Sample.cached_env Sample.quiet_world).
Proof.
  apply save_without_readable_index. intros disk_entries. discriminate.
Defined.
